(** * Plotter: a shallow embedding of [src/plotter.py] and [src/ChartDrawer.py]

    Both files define a class [Plotter] that checks a URL, reads a JSON table
    from it with pandas and draws a fixed battery of charts with matplotlib
    and seaborn, returning the paths of the image files it wrote.

    The embedding threads an explicit interpreter state (matplotlib's
    rcParams and open figures, the file system, and a trace of the calls that
    reach the outside world) through a state-and-exception monad.  The two
    source files become the modules [plotter] (the extended variant) and
    [ChartDrawer] (the basic variant).

    Modelling conventions.
    - A Python float is a double: a finite value (held as the exact rational
      it denotes), NaN, or an infinity.  A product is rounded to the nearest
      double, ties to even, and overflows to an infinity ([round_double]);
      the sign of a zero is not kept.
    - A call into seaborn or matplotlib is recorded with the arguments the
      program passes; what the library renders from them is not modelled.
      Such a call can fail for reasons of the library's own (data it cannot
      plot, a directory that does not exist, a figure it cannot render):
      whether it does is part of the [world], next to what the network
      answers.
    - Exceptions are the [Exception] subclasses the program can meet; the
      text of a library's message is not modelled, an exception carries the
      offending names instead.
    - Paths follow [posixpath]. *)

From Stdlib Require Import QArith Qminmax Ascii Permutation Sorted.
From stdpp Require Import gmap strings list fin_maps pretty.

Local Open Scope Z_scope.
Local Open Scope string_scope.
Local Open Scope list_scope.

(** ** Python strings *)

Module PyStr.

(** [s.startswith(p)] *)
Fixpoint startswith (p s : string) : bool :=
  match p, s with
  | EmptyString, _ => true
  | String a p', String b s' => if Ascii.eqb a b then startswith p' s' else false
  | String _ _, EmptyString => false
  end.

(** [s.endswith(p)] *)
Definition endswith (p s : string) : bool :=
  startswith (String.rev p) (String.rev s).

(** The scan of [str.replace]: [skip] characters of a match that has just
    been replaced are still to be dropped. *)
Fixpoint replace_from (skip : nat) (old new s : string) : string :=
  match s with
  | EmptyString => EmptyString
  | String c s' =>
      match skip with
      | S k => replace_from k old new s'
      | O =>
          if startswith old s
          then new +:+ replace_from (String.length old - 1) old new s'
          else String c (replace_from 0 old new s')
      end
  end.

(** [s.replace(old, new)] for a non-empty [old]: every non-overlapping
    occurrence, scanning from the left. *)
Definition replace (old new s : string) : string := replace_from 0 old new s.

(** The characters of a string, and a character-wise map, to state what
    [replace] does when [old] and [new] are single characters. *)
Fixpoint map_chars (f : Ascii.ascii -> Ascii.ascii) (s : string) : string :=
  match s with
  | EmptyString => EmptyString
  | String c s' => String (f c) (map_chars f s')
  end.

Fixpoint contains_char (c : Ascii.ascii) (s : string) : bool :=
  match s with
  | EmptyString => false
  | String d s' => if Ascii.eqb c d then true else contains_char c s'
  end.

(** [s.rstrip(c)] for a single character [c]. *)
Fixpoint rstrip_char (c : Ascii.ascii) (s : string) : string :=
  match s with
  | EmptyString => EmptyString
  | String a s' =>
      match rstrip_char c s' with
      | EmptyString => if Ascii.eqb a c then EmptyString else String a EmptyString
      | r => String a r
      end
  end.

End PyStr.

(** ** [os.path] (posixpath) *)

Module os_path.

(** [os.path.join(a, b)]: an absolute [b] discards [a]; otherwise the two
    are joined with exactly one separator. *)
Definition join (a b : string) : string :=
  if PyStr.startswith "/" b then b
  else if orb (String.eqb a "") (PyStr.endswith "/" a) then a +:+ b
  else a +:+ "/" +:+ b.

(** [os.path.basename(p)]: what follows the last separator. *)
Fixpoint basename (p : string) : string :=
  match p with
  | EmptyString => EmptyString
  | String c p' =>
      if PyStr.contains_char "/" p' then basename p'
      else if Ascii.eqb c "/" then p' else p
  end.

(** [os.path.dirname(p)]: what precedes the basename, without its trailing
    separators unless it consists of separators only. *)
Definition dirname (p : string) : string :=
  let head := String.substring 0 (String.length p - String.length (basename p)) p in
  match PyStr.rstrip_char "/" head with
  | EmptyString => head
  | stripped => stripped
  end.

(** [os.path.splitext(p)[1]]: the extension starts at the last dot of the
    basename, unless only dots precede it ([named] records that another
    character has been met). *)
Fixpoint ext_scan (named : bool) (b : string) : string :=
  match b with
  | EmptyString => EmptyString
  | String c b' =>
      if Ascii.eqb c "." then
        if PyStr.contains_char "." b' then ext_scan named b'
        else if named then b else EmptyString
      else ext_scan true b'
  end.

Definition extension (p : string) : string := ext_scan false (basename p).

End os_path.

(** ** Floats and table cells *)

Inductive pyfloat : Type :=
| Fin (q : Q)
| FNaN
| FInf (negative : bool).

(** Comparisons with NaN are false. *)
Definition float_lt (a b : pyfloat) : bool :=
  match a, b with
  | Fin x, Fin y => negb (Qle_bool y x)
  | Fin _, FInf false => true
  | FInf true, Fin _ => true
  | FInf true, FInf false => true
  | _, _ => false
  end.

Definition float_le (a b : pyfloat) : bool :=
  match a, b with
  | Fin x, Fin y => Qle_bool x y
  | Fin _, FInf false => true
  | FInf true, Fin _ => true
  | FInf true, FInf _ => true
  | FInf false, FInf false => true
  | _, _ => false
  end.

(** Rounding a rational to the nearest double, ties to even.  For
    [0 < n/d], [floor_log2 n d] is the exponent [k] with
    [2^k <= n/d < 2^(k+1)]; the last place of the double then weighs [2^e]
    with [e = k - 52], or [2^-1074] for a subnormal; the significand is
    [n/d / 2^e] rounded to an integer; a result of [2^1024] or more is an
    infinity. *)
Definition floor_log2 (n d : Z) : Z :=
  let e := Z.log2 n - Z.log2 d in
  if (if 0 <=? e then n <? d * 2 ^ e else n * 2 ^ (- e) <? d)%Z then e - 1 else e.

Definition div_half_even (n d : Z) : Z :=
  let q := n / d in
  match (2 * (n mod d) ?= d)%Z with
  | Lt => q
  | Gt => q + 1
  | Eq => if Z.even q then q else q + 1
  end.

Definition round_double (q : Q) : pyfloat :=
  let n := Z.abs (Qnum q) in
  let d := Zpos (Qden q) in
  if (n =? 0)%Z then Fin 0 else
  let e := Z.max (floor_log2 n d - 52) (-1074) in
  let m := if (0 <=? e)%Z then div_half_even n (d * 2 ^ e)
           else div_half_even (n * 2 ^ (- e)) d in
  if ((971 <? e) || ((e =? 971) && (2 ^ 53 <=? m)))%Z
  then FInf (Qnum q <? 0)%Z
  else Fin (Qred (inject_Z (if (Qnum q <? 0)%Z then - m else m) * Qpower 2 e)).

(** [a * b] on floats. *)
Definition float_mul (a b : pyfloat) : pyfloat :=
  match a, b with
  | FNaN, _ | _, FNaN => FNaN
  | Fin x, Fin y => round_double (x * y)
  | FInf s, FInf t => FInf (xorb s t)
  | FInf s, Fin y | Fin y, FInf s =>
      match Qnum y with
      | Z0 => FNaN
      | Zpos _ => FInf s
      | Zneg _ => FInf (negb s)
      end
  end.

(** A float literal written in decimal, such as [1.1], denotes the double
    nearest to it. *)
Definition float_literal (c : Q) : pyfloat := round_double c.

(** A cell of a table read from JSON, and more generally a Python scalar of
    this program: a float (NaN for a missing or null entry) or a string. *)
Inductive cell : Type :=
| Float (f : pyfloat)
| Str (s : string).

Definition Num (q : Q) : cell := Float (Fin q).
Definition NaN : cell := Float FNaN.

Definition is_nan (c : cell) : bool :=
  match c with Float FNaN => true | _ => false end.
Definition is_float (c : cell) : bool :=
  match c with Float _ => true | Str _ => false end.
Definition is_str (c : cell) : bool :=
  match c with Str _ => true | Float _ => false end.
Definition is_number (c : cell) : bool :=
  match c with Float (Fin _) => true | _ => false end.

(** ** Exceptions and results *)

Inductive exn : Type :=
| KeyError (missing : list string)
| ValueError (what : string)
| TypeError (what : string)
| RequestException (what : string)
| FileExistsError (path : string)
| FileNotFoundError (path : string)
| OtherException (what : string).

Definition is_KeyError (e : exn) : bool :=
  match e with KeyError _ => true | _ => false end.
Definition is_ValueError (e : exn) : bool :=
  match e with ValueError _ => true | _ => false end.
Definition is_RequestException (e : exn) : bool :=
  match e with RequestException _ => true | _ => false end.
Definition is_Exception (e : exn) : bool := true.

Inductive result (A : Type) : Type :=
| Ok (a : A)
| Raise (e : exn).
Arguments Ok {A} a.
Arguments Raise {A} e.

(** The builtins [max(a, b)] and [min(a, b)]: the first argument is kept
    unless the second is strictly greater (smaller).  Strings compare with
    strings, floats with floats; a mixed comparison is a [TypeError]. *)
Definition py_max (a b : cell) : result cell :=
  match a, b with
  | Float x, Float y => Ok (Float (if float_lt x y then y else x))
  | Str x, Str y => Ok (Str (if String.ltb x y then y else x))
  | _, _ => Raise (TypeError "'>' not supported between 'str' and 'float'")
  end.

Definition py_min (a b : cell) : result cell :=
  match a, b with
  | Float x, Float y => Ok (Float (if float_lt y x then y else x))
  | Str x, Str y => Ok (Str (if String.ltb y x then y else x))
  | _, _ => Raise (TypeError "'<' not supported between 'str' and 'float'")
  end.

(** [a * c] for a float literal [c]. *)
Definition py_mul (a : cell) (c : Q) : result pyfloat :=
  match a with
  | Float x => Ok (float_mul x (float_literal c))
  | Str _ => Raise (TypeError "can't multiply sequence by non-int of type 'float'")
  end.

(** ** pandas *)

(** A DataFrame: the column labels in order, and the rows.  A row maps a
    label to its cell (the first binding counts); a label absent from a row
    reads as NaN. *)
Definition row : Type := list (string * cell).

Record DataFrame : Type := mkDataFrame {
  columns : list string;
  rows : list row
}.

Fixpoint row_get (r : row) (c : string) : cell :=
  match r with
  | [] => NaN
  | (k, v) :: r' => if String.eqb k c then v else row_get r' c
  end.

Definition has_column (df : DataFrame) (c : string) : bool :=
  existsb (String.eqb c) (columns df).

Definition column_values (df : DataFrame) (c : string) : list cell :=
  map (fun r => row_get r c) (rows df).

(** [df[c]] *)
Definition df_getitem (df : DataFrame) (c : string) : result (list cell) :=
  if has_column df c then Ok (column_values df c) else Raise (KeyError [c]).

(** [df[cs]] for a list of labels *)
Definition df_select (df : DataFrame) (cs : list string) : result DataFrame :=
  match List.filter (fun c => negb (has_column df c)) cs with
  | [] => Ok (mkDataFrame cs (map (fun r => map (fun c => (c, row_get r c)) cs) (rows df)))
  | missing => Raise (KeyError missing)
  end.

(** [df[c] = v] for a scalar [v] *)
Definition df_setitem_scalar (df : DataFrame) (c : string) (v : cell) : DataFrame :=
  mkDataFrame (if has_column df c then columns df else columns df ++ [c])
              (map (fun r => (c, v) :: r) (rows df)).

(** [df[c] = s] for a series [s] aligned with the rows *)
Fixpoint set_rows (c : string) (rs : list row) (s : list cell) : list row :=
  match rs, s with
  | r :: rs', v :: s' => ((c, v) :: r) :: set_rows c rs' s'
  | r :: rs', [] => ((c, NaN) :: r) :: set_rows c rs' []
  | [], _ => []
  end.

Definition df_setitem (df : DataFrame) (c : string) (s : list cell) : DataFrame :=
  mkDataFrame (if has_column df c then columns df else columns df ++ [c])
              (set_rows c (rows df) s).

(** [pd.melt(df, var_name=.., value_name=..)] without id columns: one row per
    (column, original row), holding the column label and the value.  A frame
    that already has a column named [value_name] is refused with a
    [ValueError] (pandas 2). *)
Definition pd_melt (df : DataFrame) (var_name value_name : string) : result DataFrame :=
  if has_column df value_name then Raise (ValueError value_name)
  else Ok (mkDataFrame [var_name; value_name]
             (flat_map (fun c => map (fun r => [(var_name, Str c); (value_name, row_get r c)])
                                     (rows df))
                       (columns df))).

(** [pd.concat([a, b])] *)
Definition pd_concat (a b : DataFrame) : DataFrame :=
  mkDataFrame (columns a ++ List.filter (fun c => negb (has_column a c)) (columns b))
              (rows a ++ rows b).

(** [s.str.replace(old, new)] on a column of strings; missing entries stay
    missing. *)
Definition series_str_replace (old new : string) (s : list cell) : list cell :=
  map (fun c => match c with Str x => Str (PyStr.replace old new x) | Float f => Float f end) s.

(** [Series.max()] and [Series.min()]: NaN entries are skipped in a float
    column, and an empty or all-NaN column gives NaN; a column of strings
    gives a string; strings mixed with floats (NaN included) cannot be
    compared. *)
Definition fold_float (pick : pyfloat -> pyfloat -> bool) (s : list cell) : pyfloat :=
  fold_left (fun acc c =>
               match c with
               | Float FNaN => acc
               | Float x => match acc with
                            | FNaN => x
                            | a => if pick a x then x else a
                            end
               | Str _ => acc
               end) s FNaN.

Definition fold_str (pick : string -> string -> bool) (s : list cell) : option string :=
  fold_left (fun acc c =>
               match c, acc with
               | Str x, None => Some x
               | Str x, Some a => if pick a x then Some x else Some a
               | _, _ => acc
               end) s None.

Definition series_reduce (fpick : pyfloat -> pyfloat -> bool)
    (spick : string -> string -> bool) (s : list cell) : result cell :=
  if forallb is_float s then Ok (Float (fold_float fpick s))
  else if forallb is_str s then
    match fold_str spick s with
    | Some x => Ok (Str x)
    | None => Ok NaN
    end
  else Raise (TypeError "'>=' not supported between 'str' and 'float'").

Definition series_max : list cell -> result cell :=
  series_reduce float_lt String.ltb.
Definition series_min : list cell -> result cell :=
  series_reduce (fun a x => float_lt x a) (fun a x => String.ltb x a).

(** [sort_values(by=.., ascending=..)].  Rows whose key is NaN go last
    ([na_position='last']); the others are ordered by key.  The descending
    order is the reverse of a sort of the reversed rows, as pandas computes
    it.  Rows with equal keys keep their relative order here; nothing below
    depends on how ties are broken. *)
Definition cell_leb (a b : cell) : bool :=
  match a, b with
  | Float x, Float y => float_le x y
  | Str x, Str y => String.leb x y
  | _, _ => false
  end.

Fixpoint insert_by {A : Type} (leb : A -> A -> bool) (x : A) (l : list A) : list A :=
  match l with
  | [] => [x]
  | y :: l' => if leb x y then x :: y :: l' else y :: insert_by leb x l'
  end.

Definition sort_by {A : Type} (leb : A -> A -> bool) (l : list A) : list A :=
  fold_right (insert_by leb) [] l.

Definition sort_values (df : DataFrame) (by_ : string) (ascending : bool) : result DataFrame :=
  if negb (has_column df by_) then Raise (KeyError [by_]) else
  let key := fun r => row_get r by_ in
  let present := List.filter (fun r => negb (is_nan (key r))) (rows df) in
  let missing := List.filter (fun r => is_nan (key r)) (rows df) in
  if negb (orb (forallb is_float (map key present)) (forallb is_str (map key present)))
  then Raise (TypeError "'<' not supported between 'str' and 'float'")
  else
    let leb := fun a b => cell_leb (key a) (key b) in
    let sorted := if ascending then sort_by leb present
                  else rev (sort_by leb (rev present)) in
    Ok (mkDataFrame (columns df) (sorted ++ missing)).

(** [df.head(n)]: the first [n] rows, or all but the last [-n] for a negative
    [n]. *)
Definition df_head (n : Z) (df : DataFrame) : DataFrame :=
  mkDataFrame (columns df)
    (if (0 <=? n)%Z then firstn (Z.to_nat n) (rows df)
     else firstn (length (rows df) - Z.to_nat (- n))%nat (rows df)).

(** ** The interpreter state *)

(** What the program hands to the plotting libraries. *)
Inductive artist : Type :=
| PltPlot (xs ys : list pyfloat) (fmt : string) (linewidth zorder : Z)
| SnsScatterplot (x y : string) (data : DataFrame) (zorder : Z)
| SnsHistplot (series : list cell) (label bins : string)
| SnsBoxplot (x y : string) (hue : option string) (data : DataFrame)
| SnsBarplot (x y : string) (data : DataFrame).

(** A figure: its title and axis labels, and what was drawn on it, in the
    order of the calls. *)
Record Figure : Type := mkFigure {
  fig_title : string;
  fig_xlabel : string;
  fig_ylabel : string;
  fig_artists : list artist
}.

Definition empty_figure : Figure := mkFigure "" "" "" [].

Record image : Type := mkImage {
  img_figure : Figure;
  img_dpi : Z
}.

(** Values stored in matplotlib's rcParams. *)
Inductive rcval : Type :=
| RInt (n : Z)
| RPair (a b : Z)
| RStr (s : string)
| RBool (b : bool).

(** Calls that reach the outside world, in the order they happen. *)
Inductive event : Type :=
| EvHead (url : string) (timeout : Z)
| EvReadJson (url : string)
| EvPrint (text : string) (e : option exn)
| EvShow (open_figures : list Figure).

Record pystate : Type := mkState {
  rcParams : gmap string rcval;
  figures : list Figure;          (* open figures, the current one first *)
  dirs : gset string;
  files : gmap string image;
  trace : list event
}.

Definition set_rcParams (rc : gmap string rcval) (st : pystate) : pystate :=
  mkState rc (figures st) (dirs st) (files st) (trace st).
Definition set_figures (fs : list Figure) (st : pystate) : pystate :=
  mkState (rcParams st) fs (dirs st) (files st) (trace st).
Definition set_dirs (ds : gset string) (st : pystate) : pystate :=
  mkState (rcParams st) (figures st) ds (files st) (trace st).
Definition set_files (fl : gmap string image) (st : pystate) : pystate :=
  mkState (rcParams st) (figures st) (dirs st) fl (trace st).
Definition log_event (ev : event) (st : pystate) : pystate :=
  mkState (rcParams st) (figures st) (dirs st) (files st) (trace st ++ [ev]).

(** What lies outside the program.

    The network: the outcome of [requests.head(url)] and of
    [pd.read_json(url)].

    The plotting libraries: [seaborn_refuses w st a] is the exception seaborn
    raises when it is asked for [a] in state [st] (once the column names have
    been resolved), and [savefig_refuses w st fname dpi] the exception
    matplotlib raises when it is asked to save the current figure of [st]
    under [fname]: a missing directory, a figure that cannot be rendered.
    Either is [None] when the call goes through. *)
Inductive head_outcome : Type :=
| Response (status : Z)
| HeadRaises (e : exn).

Record world : Type := mkWorld {
  http_head : string -> head_outcome;
  json_table : string -> result DataFrame;
  seaborn_refuses : pystate -> artist -> option exn;
  savefig_refuses : pystate -> string -> Z -> option exn
}.

(** ** The state-and-exception monad

    A statement maps a state to a result and the state it leaves behind; an
    exception keeps the effects that happened before it. *)

Definition M (S A : Type) : Type := S -> result A * S.

Definition ret {S A : Type} (a : A) : M S A := fun s => (Ok a, s).

Definition bind {S A B : Type} (m : M S A) (k : A -> M S B) : M S B :=
  fun s => match m s with
           | (Ok a, s') => k a s'
           | (Raise e, s') => (Raise e, s')
           end.

Definition raise {S A : Type} (e : exn) : M S A := fun s => (Raise e, s).

Definition lift {S A : Type} (r : result A) : M S A := fun s => (r, s).

Definition modify {S : Type} (f : S -> S) : M S unit := fun s => (Ok tt, f s).

(** A call that the outside may refuse: the exception, if any, is raised
    with the state as it is. *)
Definition unless_refused {S : Type} (refusal : S -> option exn) : M S unit :=
  fun s => match refusal s with
           | Some e => (Raise e, s)
           | None => (Ok tt, s)
           end.

Declare Scope py_scope.
Delimit Scope py_scope with py.
Notation "x <- m ;; k" := (bind m (fun x => k))
  (at level 100, m at next level, right associativity) : py_scope.
Notation "m ;; k" := (bind m (fun _ => k))
  (at level 100, right associativity) : py_scope.
Local Open Scope py_scope.

(** [try: body except C1 as e: h1 except C2 as e: h2 ...]: the first handler
    whose class matches runs; an exception no handler matches propagates. *)
Definition try_except {S A : Type} (body : M S A)
    (handlers : list ((exn -> bool) * (exn -> M S A))) : M S A :=
  fun s => match body s with
           | (Ok a, s') => (Ok a, s')
           | (Raise e, s') =>
               match List.find (fun h => fst h e) handlers with
               | Some h => snd h e s'
               | None => (Raise e, s')
               end
           end.

(** A local variable of type [L] next to the interpreter state. *)
Definition with_local {L S A : Type} (init : L) (m : M (L * S) A) : M S A :=
  fun s => let '(r, (_, s')) := m (init, s) in (r, s').

Definition get_local {L S : Type} : M (L * S) L := fun ls => (Ok (fst ls), ls).

Definition on_state {L S A : Type} (m : M S A) : M (L * S) A :=
  fun ls => let '(r, s') := m (snd ls) in (r, (fst ls, s')).

(** [xs.append(e)]: [e] is evaluated first; when it raises, [xs] is
    unchanged. *)
Definition append_local {S A : Type} (m : M S A) : M (list A * S) unit :=
  fun ls => match m (snd ls) with
            | (Ok a, s') => (Ok tt, (fst ls ++ [a], s'))
            | (Raise e, s') => (Raise e, (fst ls, s'))
            end.

Definition print (text : string) (e : option exn) : M pystate unit :=
  modify (log_event (EvPrint text e)).

(** ** matplotlib.pyplot *)

Module plt.

(** [plt.figure()]: a new figure, which becomes the current one. *)
Definition figure : M pystate unit :=
  modify (fun st => set_figures (empty_figure :: figures st) st).

(** Calls that draw act on the current figure; one is created when none is
    open. *)
Definition on_current (f : Figure -> Figure) : M pystate unit :=
  modify (fun st => match figures st with
                    | [] => set_figures [f empty_figure] st
                    | g :: gs => set_figures (f g :: gs) st
                    end).

Definition add_artist (a : artist) : M pystate unit :=
  on_current (fun g => mkFigure (fig_title g) (fig_xlabel g) (fig_ylabel g)
                                (fig_artists g ++ [a])).

Definition title (t : string) : M pystate unit :=
  on_current (fun g => mkFigure t (fig_xlabel g) (fig_ylabel g) (fig_artists g)).
Definition xlabel (t : string) : M pystate unit :=
  on_current (fun g => mkFigure (fig_title g) t (fig_ylabel g) (fig_artists g)).
Definition ylabel (t : string) : M pystate unit :=
  on_current (fun g => mkFigure (fig_title g) (fig_xlabel g) t (fig_artists g)).

(** [plt.plot(xs, ys, fmt, linewidth=.., zorder=..)] *)
Definition plot (xs ys : list pyfloat) (fmt : string) (linewidth zorder : Z) : M pystate unit :=
  add_artist (PltPlot xs ys fmt linewidth zorder).

(** The file [savefig] writes.  The format is taken from the extension of
    the name; a name without one (or ending in a dot) gets the default
    format: its trailing dots are dropped and [.png] is appended. *)
Definition savefig_target (fname : string) : string :=
  match os_path.extension fname with
  | EmptyString | String _ EmptyString => PyStr.rstrip_char "." fname +:+ ".png"
  | _ => fname
  end.

(** [plt.savefig(fname, dpi=..)]: unless matplotlib refuses, the current
    figure is written to the file, replacing a file of that name.  A refused
    save writes nothing. *)
Definition savefig (w : world) (fname : string) (dpi : Z) : M pystate unit :=
  on_current (fun g => g) ;;
  unless_refused (fun st => savefig_refuses w st fname dpi) ;;
  modify (fun st => match figures st with
                    | g :: _ => set_files (<[savefig_target fname := mkImage g dpi]> (files st)) st
                    | [] => st
                    end).

(** [plt.show()] displays the open figures. *)
Definition show : M pystate unit :=
  modify (fun st => log_event (EvShow (figures st)) st).

(** [plt.close()] closes the current figure. *)
Definition close : M pystate unit :=
  modify (fun st => set_figures (tail (figures st)) st).

End plt.

(** ** seaborn

    A plotting function given [data] and column names resolves each name in
    [data]; a name that is not a column is a [ValueError] ("Could not
    interpret value ... for ..."), not a [KeyError].  With the names
    resolved, it draws unless it refuses the data. *)

Module sns.

Definition resolve (data : DataFrame) (param name : string) : M pystate unit :=
  if has_column data name then ret tt else raise (ValueError name).

Definition draw (w : world) (a : artist) : M pystate unit :=
  unless_refused (fun st => seaborn_refuses w st a) ;;
  plt.add_artist a.

Definition scatterplot (w : world) (x y : string) (data : DataFrame) (zorder : Z)
    : M pystate unit :=
  resolve data "x" x ;;
  resolve data "y" y ;;
  draw w (SnsScatterplot x y data zorder).

Definition histplot (w : world) (series : list cell) (label bins : string) : M pystate unit :=
  draw w (SnsHistplot series label bins).

Definition boxplot (w : world) (x y : string) (hue : option string) (data : DataFrame)
    : M pystate unit :=
  resolve data "x" x ;;
  resolve data "y" y ;;
  match hue with
  | Some h => resolve data "hue" h
  | None => ret tt
  end ;;
  draw w (SnsBoxplot x y hue data).

Definition barplot (w : world) (x y : string) (data : DataFrame) : M pystate unit :=
  resolve data "x" x ;;
  resolve data "y" y ;;
  draw w (SnsBarplot x y data).

(** [sns.set_style(style)] writes the style's parameters into rcParams.  The
    table of a style is seaborn's; it is a parameter [axes_style] here. *)
Definition set_style (axes_style : string -> gmap string rcval) (style : string)
    : M pystate unit :=
  modify (fun st => set_rcParams (axes_style style ∪ rcParams st) st).

End sns.

(** ** os, requests, pandas I/O *)

(** [os.makedirs(path, exist_ok=True)] *)
Definition os_makedirs (path : string) : M pystate unit :=
  fun st =>
    if bool_decide (is_Some (files st !! path)) then (Raise (FileExistsError path), st)
    else (Ok tt, set_dirs ({[path]} ∪ dirs st) st).

(** [requests.head(url, timeout=..)] followed by [raise_for_status()]: a
    status from 400 to 599 raises an [HTTPError], which is a
    [RequestException]. *)
Definition requests_head (w : world) (url : string) (timeout : Z) : M pystate Z :=
  modify (log_event (EvHead url timeout)) ;;
  match http_head w url with
  | Response status => ret status
  | HeadRaises e => raise e
  end.

Definition raise_for_status (status : Z) : M pystate unit :=
  if ((400 <=? status) && (status <? 600))%Z
  then raise (RequestException "HTTPError")
  else ret tt.

(** [pd.read_json(url)] *)
Definition pd_read_json (w : world) (url : string) : M pystate DataFrame :=
  modify (log_event (EvReadJson url)) ;;
  lift (json_table w url).

(** ** The class [Plotter]

    The object holds one attribute.  The chart operations are the same text
    in both source files and differ only through [__save_plot_to_file],
    which they reach through [self]; they are written once, over that
    method. *)

Record Plotter : Type := mkPlotter {
  plot_dir : string
}.

Section Charts.

Variable w : world.
Variable __save_plot_to_file : Plotter -> string -> M pystate string.

Definition __show_and_close_plot (self : Plotter) : M pystate unit :=
  plt.show ;;
  plt.close.

Definition __plot_setup (self : Plotter) (title xlabel ylabel : string) : M pystate unit :=
  plt.title title ;;
  plt.xlabel xlabel ;;
  plt.ylabel ylabel.

Definition draw_scatterplot (self : Plotter) (data : DataFrame) (x y : string)
    (add_line : bool) : M pystate string :=
  plt.figure ;;
  let title := "Scatter plot " +:+ x +:+ " vs " +:+ y in
  (if add_line then
     xs <- lift (df_getitem data x) ;;
     xmax <- lift (series_max xs) ;;
     ys <- lift (df_getitem data y) ;;
     ymax <- lift (series_max ys) ;;
     hi <- lift (py_max xmax ymax) ;;
     max_limit <- lift (py_mul hi (11 # 10)) ;;
     xs <- lift (df_getitem data x) ;;
     xmin <- lift (series_min xs) ;;
     ys <- lift (df_getitem data y) ;;
     ymin <- lift (series_min ys) ;;
     lo <- lift (py_min xmin ymin) ;;
     min_limit <- lift (py_mul lo (9 # 10)) ;;
     plt.plot [min_limit; max_limit] [min_limit; max_limit] "r--" 1 1
   else ret tt) ;;
  __plot_setup self title x y ;;
  sns.scatterplot w x y data 2 ;;
  path <- __save_plot_to_file self title ;;
  __show_and_close_plot self ;;
  ret path.

Definition draw_histogram (self : Plotter) (data : DataFrame) (column : string)
    (bins : string) : M pystate string :=
  plt.figure ;;
  series <- lift (df_getitem data column) ;;
  sns.histplot w series column bins ;;
  let title := "Histogram for " +:+ column in
  __plot_setup self title "Degrees" "Frequency" ;;
  path <- __save_plot_to_file self title ;;
  __show_and_close_plot self ;;
  ret path.

Definition draw_boxplots (self : Plotter) (data : DataFrame) (columns : list string)
    (title : string) : M pystate string :=
  plt.figure ;;
  selected <- lift (df_select data columns) ;;
  melted <- lift (pd_melt selected "variable" "value") ;;
  sns.boxplot w "variable" "value" None melted ;;
  let title := "Boxplots for " +:+ title in
  __plot_setup self title "" "Degrees" ;;
  path <- __save_plot_to_file self title ;;
  __show_and_close_plot self ;;
  ret path.

Definition draw_top_bottom_data (self : Plotter) (data : DataFrame) (column : string)
    (cnt : Z) (top : bool) : M pystate string :=
  plt.figure ;;
  sorted <- lift (sort_values data column top) ;;
  let values := df_head cnt sorted in
  sns.barplot w column "name" values ;;
  let order := if top then "best" else "worst" in
  let title := "Top " +:+ pretty cnt +:+ " " +:+ order +:+ " results for " +:+ column in
  __plot_setup self title "Degrees" "" ;;
  path <- __save_plot_to_file self title ;;
  __show_and_close_plot self ;;
  ret path.

End Charts.

(** The parts of the class that are the same text in both files. *)

Section Methods.

Variable axes_style : string -> gmap string rcval.

Definition __set_plot_params (self : Plotter) : M pystate unit :=
  modify (fun st => set_rcParams (<["axes.titlesize" := RInt 18]> (rcParams st)) st) ;;
  modify (fun st => set_rcParams (<["axes.titlepad" := RInt 20]> (rcParams st)) st) ;;
  sns.set_style axes_style "whitegrid" ;;
  modify (fun st => set_rcParams (<["figure.figsize" := RPair 10 6]> (rcParams st)) st).

(** [Plotter()] *)
Definition __init__ : M pystate Plotter :=
  let self := mkPlotter "plots" in
  os_makedirs (plot_dir self) ;;
  __set_plot_params self ;;
  ret self.

End Methods.

Definition __check_url (w : world) (self : Plotter) (url : string) : M pystate bool :=
  try_except
    (status <- requests_head w url 5 ;;
     raise_for_status status ;;
     ret true)
    [(is_RequestException,
      fun e => print "Failed to connect to URL: " (Some e) ;; ret false)].

(** ** [src/plotter.py]: the extended variant *)

Module plotter.

Definition __save_plot_to_file (w : world) (self : Plotter) (filename : string)
    : M pystate string :=
  let filename := PyStr.replace " " "_" filename in
  let filepath := os_path.join (plot_dir self) filename +:+ ".png" in
  plt.savefig w filepath 300 ;;
  ret filepath.

Definition draw_scatterplot (w : world) := draw_scatterplot w (__save_plot_to_file w).
Definition draw_histogram (w : world) := draw_histogram w (__save_plot_to_file w).
Definition draw_boxplots (w : world) := draw_boxplots w (__save_plot_to_file w).
Definition draw_top_bottom_data (w : world) := draw_top_bottom_data w (__save_plot_to_file w).

Definition draw_combined_boxplots (w : world) (self : Plotter) (data : DataFrame)
    (columns_1 columns_2 : list string) (title : string) : M pystate string :=
  plt.figure ;;
  selected_1 <- lift (df_select data columns_1) ;;
  floor_data <- lift (pd_melt selected_1 "metric" "value") ;;
  let floor_data := df_setitem_scalar floor_data "type" (Str "Floor") in
  selected_2 <- lift (df_select data columns_2) ;;
  ceiling_data <- lift (pd_melt selected_2 "metric" "value") ;;
  let ceiling_data := df_setitem_scalar ceiling_data "type" (Str "Ceiling") in
  let combined_data := pd_concat floor_data ceiling_data in
  metric <- lift (df_getitem combined_data "Metric") ;;
  let combined_data :=
    df_setitem combined_data "Metric"
      (series_str_replace "ceiling_" "" (series_str_replace "floor_" "" metric)) in
  sns.boxplot w "metric" "value" (Some "type") combined_data ;;
  let title := "Boxplots for " +:+ title in
  __plot_setup self title "" "Degrees" ;;
  path <- __save_plot_to_file w self title ;;
  __show_and_close_plot self ;;
  ret path.

(** The [try] block of [draw_plots]; [plot_paths] is the local variable. *)
Definition draw_plots_body (w : world) (self : Plotter) (df : DataFrame)
    (floor_columns ceiling_columns : list string) : M (list string * pystate) unit :=
  append_local (draw_scatterplot w self df "gt_corners" "rb_corners" true) ;;
  append_local (draw_scatterplot w self df "gt_corners" "mean" false) ;;
  append_local (draw_scatterplot w self df "floor_mean" "ceiling_mean" false) ;;
  append_local (draw_histogram w self df "mean" "auto") ;;
  append_local (draw_histogram w self df "floor_mean" "auto") ;;
  append_local (draw_histogram w self df "ceiling_mean" "auto") ;;
  append_local (draw_boxplots w self df ["min"; "mean"; "max"] "stats") ;;
  append_local (draw_boxplots w self df ["mean"; "floor_mean"; "ceiling_mean"] "means") ;;
  append_local (draw_boxplots w self df floor_columns "floor stats") ;;
  append_local (draw_boxplots w self df ceiling_columns "ceiling stats") ;;
  append_local (draw_combined_boxplots w self df floor_columns ceiling_columns
                  "Floor vs Ceiling") ;;
  append_local (draw_top_bottom_data w self df "mean" 10 true) ;;
  append_local (draw_top_bottom_data w self df "mean" 10 false).

Definition draw_plots (w : world) (self : Plotter) (file_path : string)
    : M pystate (list string) :=
  ok <- __check_url w self file_path ;;
  if negb ok then
    print "URL is not accessible" None ;;
    ret []
  else
  (* [loaded] is [None] where a handler returns the empty list *)
  loaded <- try_except
              (df <- pd_read_json w file_path ;;
               ret (Some df))
              [(is_ValueError,
                fun e => print "Failed to read JSON: " (Some e) ;; ret None);
               (is_Exception,
                fun e => print "An error occurred: " (Some e) ;; ret None)] ;;
  match loaded with
  | None => ret []
  | Some df =>
      let floor_columns := ["floor_min"; "floor_mean"; "floor_max"] in
      let ceiling_columns := ["ceiling_min"; "ceiling_mean"; "ceiling_max"] in
      with_local []
        (try_except
           (draw_plots_body w self df floor_columns ceiling_columns)
           [(is_KeyError,
             fun e => on_state (print "Failed to draw plot: " (Some e)))] ;;
         get_local)
  end.

End plotter.

(** ** [src/ChartDrawer.py]: the basic variant *)

Module ChartDrawer.

Definition __save_plot_to_file (w : world) (self : Plotter) (filename : string)
    : M pystate string :=
  let filepath := os_path.join (plot_dir self) filename +:+ ".png" in
  plt.savefig w filepath 300 ;;
  ret filepath.

Definition draw_scatterplot (w : world) := draw_scatterplot w (__save_plot_to_file w).
Definition draw_histogram (w : world) := draw_histogram w (__save_plot_to_file w).
Definition draw_boxplots (w : world) := draw_boxplots w (__save_plot_to_file w).
Definition draw_top_bottom_data (w : world) := draw_top_bottom_data w (__save_plot_to_file w).

Definition draw_plots_body (w : world) (self : Plotter) (df : DataFrame)
    : M (list string * pystate) unit :=
  append_local (draw_scatterplot w self df "gt_corners" "rb_corners" true) ;;
  append_local (draw_scatterplot w self df "floor_mean" "ceiling_mean" false) ;;
  append_local (draw_histogram w self df "mean" "auto") ;;
  append_local (draw_histogram w self df "floor_mean" "auto") ;;
  append_local (draw_histogram w self df "ceiling_mean" "auto") ;;
  append_local (draw_boxplots w self df ["mean"; "floor_mean"; "ceiling_mean"] "means") ;;
  append_local (draw_boxplots w self df ["min"; "mean"; "max"] "stats") ;;
  append_local (draw_top_bottom_data w self df "mean" 10 true) ;;
  append_local (draw_top_bottom_data w self df "mean" 10 false).

Definition draw_plots (w : world) (self : Plotter) (file_path : string)
    : M pystate (list string) :=
  ok <- __check_url w self file_path ;;
  if negb ok then
    print "URL is not accessible" None ;;
    ret []
  else
  (* [loaded] is [None] where a handler returns the empty list *)
  loaded <- try_except
              (df <- pd_read_json w file_path ;;
               ret (Some df))
              [(is_ValueError,
                fun e => print "Failed to read JSON: " (Some e) ;; ret None);
               (is_Exception,
                fun e => print "An error occurred: " (Some e) ;; ret None)] ;;
  match loaded with
  | None => ret []
  | Some df =>
      with_local []
        (try_except
           (draw_plots_body w self df)
           [(is_KeyError,
             fun e => on_state (print "Failed to draw plot: " (Some e)))] ;;
         get_local)
  end.

End ChartDrawer.

(** * Specification vocabulary *)

(** The path a chart of a given title is saved under, in each variant. *)
Definition extended_path (self : Plotter) (title : string) : string :=
  os_path.join (plot_dir self) (PyStr.replace " " "_" title) +:+ ".png".

Definition basic_path (self : Plotter) (title : string) : string :=
  os_path.join (plot_dir self) title +:+ ".png".

(** A save method that asks for the current figure to be written under
    [path_of self title] and returns that path; both variants are of this
    form. *)
Definition save_with (w : world) (path_of : Plotter -> string -> string)
    : Plotter -> string -> M pystate string :=
  fun self title => plt.savefig w (path_of self title) 300 ;; ret (path_of self title).

(** The state with [g] opened on top of the open figures of [st]. *)
Definition with_figure (g : Figure) (st : pystate) : pystate :=
  set_figures (g :: figures st) st.

(** The state in which a current figure exists: [st], or [st] with a new
    empty figure when none is open. *)
Definition opened (st : pystate) : pystate :=
  set_figures (match figures st with [] => [empty_figure] | fs => fs end) st.

(** The figure [plt.savefig] writes: the current one, or a new empty one. *)
Definition current_figure (st : pystate) : Figure :=
  hd empty_figure (figures st).

(** The net effect of a chart operation that succeeds: the figure is written
    to the file, shown, and closed again. *)
Definition chart_effect (path : string) (fig : Figure) (st : pystate) : pystate :=
  log_event (EvShow (fig :: figures st))
            (set_files (<[plt.savefig_target path := mkImage fig 300]> (files st)) st).

(** The end of a chart operation, with [fig] the figure it has built on top
    of [st]: the save may be refused, which leaves the figure open. *)
Definition finish_chart (w : world) (path : string) (fig : Figure) (st : pystate)
    : result string * pystate :=
  match savefig_refuses w (with_figure fig st) path 300 with
  | Some e => (Raise e, with_figure fig st)
  | None => (Ok path, chart_effect path fig st)
  end.

(** A drawing call on the figure [before]: seaborn may refuse [a], which
    leaves the figure as it is; otherwise the operation goes on with
    [rest]. *)
Definition draw_then (w : world) (st : pystate) (before : Figure) (a : artist)
    (rest : result string * pystate) : result string * pystate :=
  match seaborn_refuses w (with_figure before st) a with
  | Some e => (Raise e, with_figure before st)
  | None => rest
  end.

Definition space_to_underscore (c : Ascii.ascii) : Ascii.ascii :=
  if Ascii.eqb " "%char c then "_"%char else c.

(** A title is plain when it holds no separator and at least one character
    other than a dot; the titles of the batch are. *)
Fixpoint only_dots (s : string) : bool :=
  match s with
  | EmptyString => true
  | String c s' => Ascii.eqb c "." && only_dots s'
  end.

Definition plain_title (t : string) : bool :=
  negb (PyStr.contains_char "/" t) && negb (only_dots t).

(** rcParams after [__set_plot_params], from rcParams before it. *)
Definition rendering_defaults (axes_style : string -> gmap string rcval)
    (rc : gmap string rcval) : gmap string rcval :=
  <["figure.figsize" := RPair 10 6]>
    (axes_style "whitegrid" ∪ <["axes.titlepad" := RInt 20]> (<["axes.titlesize" := RInt 18]> rc)).

(** The ends of the reference line of a scatter plot with [add_line], for
    columns of floats: the program's two expressions, on doubles. *)
Definition max_limit_of (xs ys : list cell) : pyfloat :=
  let a := fold_float float_lt xs in
  let b := fold_float float_lt ys in
  float_mul (if float_lt a b then b else a) (float_literal (11 # 10)).

Definition min_limit_of (xs ys : list cell) : pyfloat :=
  let a := fold_float (fun a x => float_lt x a) xs in
  let b := fold_float (fun a x => float_lt x a) ys in
  float_mul (if float_lt b a then b else a) (float_literal (9 # 10)).

(** The same for any two columns: the computation of the two ends as the
    program orders it, with the exception it stops at. *)
Definition and_then {A B : Type} (r : result A) (k : A -> result B) : result B :=
  match r with
  | Ok a => k a
  | Raise e => Raise e
  end.

Definition reference_limits (data : DataFrame) (x y : string) : result (pyfloat * pyfloat) :=
  and_then (df_getitem data x) (fun xs =>
  and_then (series_max xs) (fun xmax =>
  and_then (df_getitem data y) (fun ys =>
  and_then (series_max ys) (fun ymax =>
  and_then (py_max xmax ymax) (fun hi =>
  and_then (py_mul hi (11 # 10)) (fun max_limit =>
  and_then (df_getitem data x) (fun xs' =>
  and_then (series_min xs') (fun xmin =>
  and_then (df_getitem data y) (fun ys' =>
  and_then (series_min ys') (fun ymin =>
  and_then (py_min xmin ymin) (fun lo =>
  and_then (py_mul lo (9 # 10)) (fun min_limit =>
  Ok (min_limit, max_limit))))))))))))).

(** The reference line between two limits, and what a scatter plot draws
    before its points: that line when it is asked for. *)
Definition reference_line (limits : pyfloat * pyfloat) : artist :=
  PltPlot [fst limits; snd limits] [fst limits; snd limits] "r--" 1 1.

Definition scatter_underlay (data : DataFrame) (x y : string) (add_line : bool)
    : result (list artist) :=
  if add_line then and_then (reference_limits data x y) (fun l => Ok [reference_line l])
  else Ok [].

(** [m] can only return [a]: whenever it returns, the value is [a]. *)
Definition yields {S A : Type} (m : M S A) (a : A) : Prop :=
  forall s x s', m s = (Ok x, s') -> x = a.

(** A piece of the batch appends [ps] to [plot_paths] when it completes, and
    a proper prefix of [ps] when it raises. *)
Definition extends_by (m : M (list string * pystate) unit) (ps : list string) : Prop :=
  forall l st r l' st', m (l, st) = (r, (l', st')) ->
    match r with
    | Ok _ => l' = l ++ ps
    | Raise _ => exists k, (k < length ps)%nat /\ l' = l ++ firstn k ps
    end.

Definition is_KeyError_result {A : Type} (r : result A) : bool :=
  match r with
  | Raise e => is_KeyError e
  | Ok _ => false
  end.

(** The columns the batch expects; all but [name] hold numbers. *)
Definition basic_columns : list string :=
  ["gt_corners"; "rb_corners"; "mean"; "floor_mean"; "ceiling_mean"; "min"; "max"; "name"].

Definition extended_columns : list string :=
  basic_columns ++ ["floor_min"; "floor_max"; "ceiling_min"; "ceiling_max"].

(** A column of finite numbers and missing entries, and one of finite
    numbers only. *)
Definition is_finite (c : cell) : bool :=
  match c with
  | Float (Fin _) | Float FNaN => true
  | _ => false
  end.

Definition finite_column (df : DataFrame) (c : string) : bool :=
  forallb is_finite (column_values df c).

Definition number_column (df : DataFrame) (c : string) : bool :=
  forallb is_number (column_values df c).

(** A column of doubles and missing entries: each number is one that a
    double holds exactly, as every number of a float column is, and every
    integer of an integer column up to 2^53. *)
Definition is_double (c : cell) : bool :=
  match c with
  | Float (Fin q) =>
      match round_double q with
      | Fin r => Qeq_bool r q
      | _ => false
      end
  | Float FNaN => true
  | _ => false
  end.

Definition double_column (df : DataFrame) (c : string) : bool :=
  forallb is_double (column_values df c).

Definition well_formed (expected : list string) (df : DataFrame) : bool :=
  forallb (has_column df) expected
  && forallb (fun c => orb (String.eqb c "name") (finite_column df c)) expected.

(** The titles of the batch, in order. *)
Definition extended_titles : list string :=
  ["Scatter plot gt_corners vs rb_corners";
   "Scatter plot gt_corners vs mean";
   "Scatter plot floor_mean vs ceiling_mean";
   "Histogram for mean";
   "Histogram for floor_mean";
   "Histogram for ceiling_mean";
   "Boxplots for stats";
   "Boxplots for means";
   "Boxplots for floor stats";
   "Boxplots for ceiling stats";
   "Boxplots for Floor vs Ceiling";
   "Top 10 best results for mean";
   "Top 10 worst results for mean"].

Definition basic_titles : list string :=
  ["Scatter plot gt_corners vs rb_corners";
   "Scatter plot floor_mean vs ceiling_mean";
   "Histogram for mean";
   "Histogram for floor_mean";
   "Histogram for ceiling_mean";
   "Boxplots for means";
   "Boxplots for stats";
   "Top 10 best results for mean";
   "Top 10 worst results for mean"].

(** The numbers of a column, and the least and greatest of a list. *)
Definition numbers (s : list cell) : list Q :=
  flat_map (fun c => match c with Float (Fin q) => [q] | _ => [] end) s.

Definition Qlist_min (l : list Q) : option Q :=
  match l with
  | [] => None
  | q :: l' => Some (fold_left Qmin l' q)
  end.

Definition Qlist_max (l : list Q) : option Q :=
  match l with
  | [] => None
  | q :: l' => Some (fold_left Qmax l' q)
  end.

(** The drawing order of an artist, where the program sets one: an artist of
    lower order is drawn beneath one of higher order. *)
Definition artist_zorder (a : artist) : option Z :=
  match a with
  | PltPlot _ _ _ _ z => Some z
  | SnsScatterplot _ _ _ z => Some z
  | _ => None
  end.

(** Whether a file exists. *)
Definition file_exists (st : pystate) (path : string) : bool :=
  match files st !! path with
  | Some _ => true
  | None => false
  end.

(** Reading a chart back from the file system. *)
Definition saved_artists (st : pystate) (path : string) : option (list artist) :=
  (fun i => fig_artists (img_figure i)) <$> files st !! path.

Definition barplot_rows (st : pystate) (path : string) : option (list row) :=
  match saved_artists st path with
  | Some [SnsBarplot _ _ data] => Some (rows data)
  | _ => None
  end.

(** Row [r] holds a number in column [c]. *)
Definition has_number (c : string) (r : row) : Prop := exists q, row_get r c = Num q.

(** Row [r] has a key in column [c] no greater than that of [r']. *)
Definition key_le (c : string) (r r' : row) : Prop :=
  exists q q', row_get r c = Num q /\ row_get r' c = Num q' /\ (q <= q')%Q.

(** [selected] holds [n] rows of [all] (all of them when there are fewer)
    whose keys are the smallest (largest) in column [c]. *)
Definition smallest_rows (c : string) (n : nat) (all selected : list row) : Prop :=
  exists rest, Permutation all (selected ++ rest)
    /\ length selected = Nat.min n (length all)
    /\ forall r r', In r selected -> In r' rest -> key_le c r r'.

Definition largest_rows (c : string) (n : nat) (all selected : list row) : Prop :=
  exists rest, Permutation all (selected ++ rest)
    /\ length selected = Nat.min n (length all)
    /\ forall r r', In r selected -> In r' rest -> key_le c r' r.

(** Claim C2 as the specification words it, for the "best" chart: the chart
    drawn with [top = true] holds the [n] rows with the largest values. *)
Definition best_chart_holds_largest (w : world) (self : Plotter) (df : DataFrame)
    (column : string) (n : nat) (st : pystate) : Prop :=
  forall path st',
    ChartDrawer.draw_top_bottom_data w self df column (Z.of_nat n) true st = (Ok path, st') ->
    exists selected, barplot_rows st' path = Some selected
      /\ largest_rows column n (rows df) selected.


(** Whether the reachability check fails, read off the network's answer. *)
Definition unreachable (w : world) (url : string) : Prop :=
  match http_head w url with
  | Response status => (400 <= status < 600)%Z
  | HeadRaises e => is_RequestException e = true
  end.

Definition reachable (w : world) (url : string) : Prop :=
  match http_head w url with
  | Response status => ~ (400 <= status < 600)%Z
  | HeadRaises e => False
  end.

(** ** Vocabulary of the further properties *)

(** A chart operation is all or nothing: when it returns, it returns [path]
    and has written its figure, shown and closed it; when it raises, the
    figure it opened is still open and nothing else has changed. *)
Definition chart_operation (m : M pystate string) (path : string) : Prop :=
  forall st r st', m st = (r, st') ->
    match r with
    | Ok p => p = path /\ exists fig, st' = chart_effect path fig st
    | Raise _ => exists g, st' = with_figure g st
    end.

(** The same of one outcome of an operation started in [st]. *)
Definition all_or_nothing (path : string) (st : pystate) (x : result string * pystate) : Prop :=
  match fst x with
  | Ok p => p = path /\ exists fig, snd x = chart_effect path fig st
  | Raise _ => exists g, snd x = with_figure g st
  end.

(** What a chart operation draws does not depend on the state it starts
    from: every run that returns has saved the same figure. *)
Definition chart_fixed (m : M pystate string) (path : string) : Prop :=
  exists fig, forall st p st', m st = (Ok p, st') -> st' = chart_effect path fig st.

(** Events that stay inside the process. *)
Definition local_event (ev : event) : Prop :=
  match ev with
  | EvShow _ | EvPrint _ _ => True
  | EvHead _ _ | EvReadJson _ => False
  end.

(** From [st] to [st'] the rendering defaults and the directories are
    untouched, no file outside [ps] has changed or disappeared, and nothing
    has reached the network. *)
Definition confined_to (ps : list string) (st st' : pystate) : Prop :=
  rcParams st' = rcParams st
  /\ dirs st' = dirs st
  /\ (forall p, ~ In p ps -> files st' !! p = files st !! p)
  /\ (forall p, is_Some (files st !! p) -> is_Some (files st' !! p))
  /\ exists evs, trace st' = trace st ++ evs /\ Forall local_event evs.

(** A piece of the batch keeps within the files [ps]. *)
Definition batch_confined (m : M (list string * pystate) unit) (ps : list string) : Prop :=
  forall l st r l' st', m (l, st) = (r, (l', st')) -> confined_to ps st st'.

(** What [draw_plots] may have done between [st] and [st'] on [url], with
    [ps] the files of its charts: one HEAD request, then at most one read of
    the same URL, then only local events; and it kept within [ps]. *)
Definition batch_footprint (url : string) (ps : list string) (st st' : pystate) : Prop :=
  rcParams st' = rcParams st
  /\ dirs st' = dirs st
  /\ (forall p, ~ In p ps -> files st' !! p = files st !! p)
  /\ (forall p, is_Some (files st !! p) -> is_Some (files st' !! p))
  /\ exists reads evs,
       trace st' = trace st ++ EvHead url 5 :: reads ++ evs
       /\ (reads = [] \/ reads = [EvReadJson url])
       /\ Forall local_event evs.

(** A piece of the batch keeps [plot_paths] a list of existing files, and
    leaves the open figures as they were unless it raises, when one more is
    open. *)
Definition batch_tidy (m : M (list string * pystate) unit) : Prop :=
  forall l st r l' st', m (l, st) = (r, (l', st')) ->
    (Forall (fun p => is_Some (files st !! p)) l ->
     Forall (fun p => is_Some (files st' !! p)) l')
    /\ match r with
       | Ok _ => figures st' = figures st
       | Raise _ => exists g, figures st' = g :: figures st
       end.

(** What [os.path.join] puts before a relative name. *)
Definition join_prefix (d : string) : string :=
  if orb (String.eqb d "") (PyStr.endswith "/" d) then d else d +:+ "/".

(** The long form of the columns [cs] of a table: one row per column and
    table row, with the column's label and that row's value. *)
Definition long_form (df : DataFrame) (cs : list string) : list row :=
  flat_map (fun c => map (fun r => [("variable", Str c); ("value", row_get r c)]) (rows df)) cs.

(** The rows of a table that have a value in column [c], and those that
    have none. *)
Definition present_rows (df : DataFrame) (c : string) : list row :=
  List.filter (fun r => negb (is_nan (row_get r c))) (rows df).

Definition missing_rows (df : DataFrame) (c : string) : list row :=
  List.filter (fun r => is_nan (row_get r c)) (rows df).

(** Writing a list of files in order, a later one replacing an earlier one
    of the same name; and the image a path ends up with. *)
Definition write_all (w : list (string * image)) (fl : gmap string image)
    : gmap string image :=
  fold_left (fun m kv => <[fst kv := snd kv]> m) w fl.

Definition last_written (w : list (string * image)) (p : string) (before : option image)
    : option image :=
  fold_left (fun acc kv => if String.eqb (fst kv) p then Some (snd kv) else acc) w before.

(** A piece of the batch that completes has written the files [written], in
    that order, whatever the state it started from. *)
Definition batch_writes (m : M (list string * pystate) unit)
    (written : list (string * image)) : Prop :=
  forall l st l' st', m (l, st) = (Ok tt, (l', st')) ->
    files st' = write_all written (files st).

(** * Sample data *)

Module Sample.

Definition mkrow (name : string) (gt rb mean mn mx fmn fm fmx cmn cm cmx : Q) : row :=
  [("name", Str name); ("gt_corners", Num gt); ("rb_corners", Num rb);
   ("mean", Num mean); ("min", Num mn); ("max", Num mx);
   ("floor_min", Num fmn); ("floor_mean", Num fm); ("floor_max", Num fmx);
   ("ceiling_min", Num cmn); ("ceiling_mean", Num cm); ("ceiling_max", Num cmx)].

Definition room_a : row := mkrow "a" 4 4 (3 # 2) 1 2 0 1 2 1 2 3.
Definition room_b : row := mkrow "b" 6 5 (1 # 2) 0 1 0 1 2 1 2 3.
Definition room_c : row := mkrow "c" 8 8 (5 # 2) 1 3 0 1 2 1 2 3.

(** A table with every expected column. *)
Definition table : DataFrame :=
  mkDataFrame
    ["name"; "gt_corners"; "rb_corners"; "mean"; "min"; "max";
     "floor_min"; "floor_mean"; "floor_max"; "ceiling_min"; "ceiling_mean"; "ceiling_max"]
    [room_a; room_b; room_c].

(** The same table without one column. *)
Definition drop_column (c : string) (df : DataFrame) : DataFrame :=
  mkDataFrame (List.filter (fun k => negb (String.eqb k c)) (columns df))
              (map (List.filter (fun kv => negb (String.eqb (fst kv) c))) (rows df)).

(** The sample table with a fourth room whose [mean] is missing. *)
Definition gappy : DataFrame :=
  mkDataFrame (columns table)
    [room_a; [("name", Str "d"); ("gt_corners", Num 4); ("rb_corners", Num 4)];
     room_b; room_c].

(** A table of one room that has its corners only: every other number is
    missing. *)
Definition gappy_only : DataFrame :=
  mkDataFrame (columns table)
    [[("name", Str "d"); ("gt_corners", Num 3); ("rb_corners", Num 4)]].

Definition url : string := "http://example.org/deviation.json".

(** Libraries that refuse two things and nothing else: seaborn a box plot of
    a frame whose values hold no number at all, matplotlib a save into a
    directory that does not exist. *)
Definition seaborn (st : pystate) (a : artist) : option exn :=
  match a with
  | SnsBoxplot _ y _ data =>
      if existsb (fun r => is_number (row_get r y)) (rows data) then None
      else Some (ValueError "boxplot")
  | _ => None
  end.

Definition savefig (st : pystate) (fname : string) (dpi : Z) : option exn :=
  let d := os_path.dirname fname in
  if String.eqb d "" || bool_decide (d ∈ dirs st) then None
  else Some (FileNotFoundError fname).

Definition serving (df : DataFrame) : world :=
  mkWorld (fun _ => Response 200) (fun _ => Ok df) seaborn savefig.

Definition offline : world :=
  mkWorld (fun _ => HeadRaises (RequestException "ConnectionError"))
          (fun _ => Ok table) seaborn savefig.

Definition garbled : world :=
  mkWorld (fun _ => Response 200) (fun _ => Raise (ValueError "Expected object or value"))
          seaborn savefig.

Definition no_style : string -> gmap string rcval := fun _ => ∅.

(** Two entries of seaborn's whitegrid style stand for its table. *)
Definition whitegrid : string -> gmap string rcval :=
  fun _ => <["axes.grid" := RBool true]> (<["axes.facecolor" := RStr "white"]> ∅).

Definition fresh : pystate := mkState ∅ [] ∅ ∅ [].

(** The state a constructed object works in: the plot directory exists. *)
Definition ready : pystate := snd (__init__ no_style fresh).

(** A session: construct the object, then run the batch on [url]. *)
Definition extended_session (w : world) : M pystate (list string) :=
  self <- __init__ no_style ;;
  plotter.draw_plots w self url.

Definition basic_session (w : world) : M pystate (list string) :=
  self <- __init__ no_style ;;
  ChartDrawer.draw_plots w self url.

End Sample.

(** * The monad *)

Lemma bind_ok {S A B : Type} (m : M S A) (k : A -> M S B) (s s' : S) (a : A) :
  m s = (Ok a, s') -> bind m k s = k a s'.
Proof. intros H. unfold bind. rewrite H. reflexivity. Qed.

Lemma bind_raise {S A B : Type} (m : M S A) (k : A -> M S B) (s s' : S) (e : exn) :
  m s = (Raise e, s') -> bind m k s = (Raise e, s').
Proof. intros H. unfold bind. rewrite H. reflexivity. Qed.

(** * Strings and paths *)

Lemma append_cons (x : ascii) (a b : string) : String x a +:+ b = String x (a +:+ b).
Proof. reflexivity. Qed.

Lemma append_assoc (a b c : string) : (a +:+ b) +:+ c = a +:+ (b +:+ c).
Proof.
  induction a as [|x a IH]; [reflexivity|].
  rewrite !append_cons. now f_equal.
Qed.

Lemma append_length (a b : string) :
  String.length (a +:+ b) = (String.length a + String.length b)%nat.
Proof.
  induction a as [|x a IH]; [reflexivity|].
  rewrite append_cons. cbn [String.length]. now rewrite IH.
Qed.

Lemma append_inj_r (a b s : string) : a +:+ s = b +:+ s -> a = b.
Proof.
  revert b. induction a as [|x a IH]; intros [|y b] H.
  - reflexivity.
  - apply (f_equal String.length) in H. rewrite !append_length in H. cbn in H. lia.
  - apply (f_equal String.length) in H. rewrite !append_length in H. cbn in H. lia.
  - rewrite !append_cons in H. injection H as -> H. f_equal. auto.
Qed.

Lemma replace_space_map (s : string) :
  PyStr.replace " " "_" s = PyStr.map_chars space_to_underscore s.
Proof.
  unfold PyStr.replace.
  induction s as [|c s IH]; [reflexivity|].
  cbn [PyStr.replace_from PyStr.startswith PyStr.map_chars].
  unfold space_to_underscore at 1.
  destruct (Ascii.eqb " " c); cbn; rewrite IH; reflexivity.
Qed.

Lemma map_space_no_space (s : string) :
  PyStr.contains_char " " (PyStr.map_chars space_to_underscore s) = false.
Proof.
  induction s as [|c s IH]; [reflexivity|].
  cbn [PyStr.map_chars PyStr.contains_char]. rewrite IH.
  unfold space_to_underscore.
  destruct (Ascii.eqb " " c) eqn:E; [reflexivity|]. rewrite E. reflexivity.
Qed.

Lemma space_to_underscore_other (c d : ascii) :
  d <> " "%char -> d <> "_"%char ->
  Ascii.eqb d (space_to_underscore c) = Ascii.eqb d c.
Proof.
  intros H1 H2. unfold space_to_underscore.
  destruct (Ascii.eqb_spec " " c) as [<-|Hc]; [|reflexivity].
  destruct (Ascii.eqb_spec d "_"), (Ascii.eqb_spec d " "); congruence.
Qed.

Lemma replace_space_plain (t : string) :
  plain_title (PyStr.replace " " "_" t) = plain_title t.
Proof.
  rewrite replace_space_map. unfold plain_title. f_equal; f_equal.
  - induction t as [|c t IH]; [reflexivity|].
    cbn [PyStr.map_chars PyStr.contains_char].
    rewrite space_to_underscore_other by discriminate. now rewrite IH.
  - induction t as [|c t IH]; [reflexivity|].
    cbn [PyStr.map_chars only_dots]. rewrite IH. f_equal.
    rewrite (Ascii.eqb_sym (space_to_underscore c)), (Ascii.eqb_sym c).
    apply space_to_underscore_other; discriminate.
Qed.

Lemma contains_char_app (c : ascii) (a b : string) :
  PyStr.contains_char c (a +:+ b) = PyStr.contains_char c a || PyStr.contains_char c b.
Proof.
  induction a as [|x a IH]; [reflexivity|].
  rewrite append_cons. cbn [PyStr.contains_char]. rewrite IH.
  now destruct (Ascii.eqb c x).
Qed.

Lemma basename_plain (s : string) :
  PyStr.contains_char "/" s = false -> os_path.basename s = s.
Proof.
  destruct s as [|c s]; [reflexivity|]. cbn [PyStr.contains_char os_path.basename].
  rewrite (Ascii.eqb_sym c). destruct (Ascii.eqb "/" c); [discriminate|].
  now intros ->.
Qed.

Lemma basename_app (a b : string) :
  PyStr.contains_char "/" b = false ->
  os_path.basename (a +:+ b) = os_path.basename a +:+ b.
Proof.
  intros Hb. induction a as [|c a IH]; [now apply basename_plain|].
  rewrite append_cons. cbn [os_path.basename].
  rewrite contains_char_app, Hb, orb_false_r.
  destruct (PyStr.contains_char "/" a); [exact IH|].
  destruct (Ascii.eqb c "/"); reflexivity.
Qed.

Lemma basename_slash (a : string) : os_path.basename (a +:+ "/") = "".
Proof.
  induction a as [|c a IH]; [reflexivity|].
  rewrite append_cons. cbn [os_path.basename].
  rewrite contains_char_app. cbn. rewrite orb_true_r. exact IH.
Qed.

Lemma endswith_slash (d : string) :
  PyStr.endswith "/" d = true -> exists d', d = d' +:+ "/".
Proof.
  unfold PyStr.endswith, String.rev. cbn [String.rev_app].
  assert (H : forall acc,
             PyStr.startswith "/" (String.rev_app d acc) = true ->
             (d = "" /\ PyStr.startswith "/" acc = true) \/ exists d', d = d' +:+ "/").
  { induction d as [|c d IH]; intros acc H; [now left|].
    right. cbn [String.rev_app] in H. destruct (IH _ H) as [[-> Hc]|[d' ->]].
    - exists "". cbn [PyStr.startswith] in Hc.
      destruct (Ascii.eqb_spec "/" c) as [<-|]; [reflexivity | discriminate].
    - exists (String c d'). reflexivity. }
  intros E. destruct (H "" E) as [[_ Habs]|Hd]; [discriminate | exact Hd].
Qed.

Lemma basename_join_prefix (d s : string) :
  PyStr.contains_char "/" s = false -> os_path.basename (join_prefix d +:+ s) = s.
Proof.
  intros Hs. rewrite (basename_app _ _ Hs). unfold join_prefix.
  destruct (String.eqb_spec d "") as [->|Hd]; [reflexivity|]. cbn [orb].
  destruct (PyStr.endswith "/" d) eqn:E.
  - destruct (endswith_slash d E) as [d' ->]. now rewrite basename_slash.
  - now rewrite basename_slash.
Qed.

Lemma join_relative (d t : string) :
  PyStr.startswith "/" t = false -> os_path.join d t = join_prefix d +:+ t.
Proof.
  intros H. unfold os_path.join, join_prefix. rewrite H.
  destruct (String.eqb d "" || PyStr.endswith "/" d); [reflexivity|].
  now rewrite append_assoc.
Qed.

Lemma no_slash_relative (t : string) :
  PyStr.contains_char "/" t = false -> PyStr.startswith "/" t = false.
Proof.
  destruct t as [|c t]; [reflexivity|]. cbn [PyStr.contains_char PyStr.startswith].
  destruct (Ascii.eqb "/" c); [discriminate | reflexivity].
Qed.

Lemma ext_scan_png (named : bool) (t : string) :
  os_path.ext_scan named (t +:+ ".png") = if named || negb (only_dots t) then ".png" else "".
Proof.
  revert named. induction t as [|c t IH]; intros named.
  - cbn. now destruct named.
  - rewrite append_cons. cbn [os_path.ext_scan only_dots].
    destruct (Ascii.eqb c ".").
    + rewrite contains_char_app. cbn [PyStr.contains_char Ascii.eqb]. cbn.
      rewrite orb_true_r. apply IH.
    + rewrite IH. cbn. now rewrite orb_true_r.
Qed.

Lemma rstrip_png (s : string) : PyStr.rstrip_char "." (s +:+ ".png") = s +:+ ".png".
Proof.
  induction s as [|c s IH]; [reflexivity|].
  rewrite append_cons. cbn [PyStr.rstrip_char]. rewrite IH.
  destruct s; reflexivity.
Qed.

(** A name that ends in [.png] is written as it is, unless what precedes
    [.png] in its last component is empty or dots only: then it has no
    extension, and a second [.png] is appended. *)
Lemma savefig_target_png (s : string) :
  plt.savefig_target (s +:+ ".png")
  = if only_dots (os_path.basename s) then s +:+ ".png.png" else s +:+ ".png".
Proof.
  unfold plt.savefig_target, os_path.extension.
  rewrite basename_app by reflexivity. rewrite ext_scan_png. cbn [orb].
  destruct (only_dots (os_path.basename s)); cbn [negb].
  - rewrite rstrip_png. now rewrite append_assoc.
  - reflexivity.
Qed.

Lemma savefig_target_plain (d t : string) :
  plain_title t = true ->
  plt.savefig_target (os_path.join d t +:+ ".png") = os_path.join d t +:+ ".png".
Proof.
  unfold plain_title. intros H. apply andb_prop in H as [Hs Hd].
  apply negb_true_iff in Hs, Hd.
  rewrite savefig_target_png, (join_relative d t (no_slash_relative t Hs)).
  now rewrite (basename_join_prefix d t Hs), Hd.
Qed.

Lemma extended_target (self : Plotter) (t : string) :
  plain_title t = true ->
  plt.savefig_target (extended_path self t) = extended_path self t.
Proof.
  intros H. apply savefig_target_plain. now rewrite replace_space_plain.
Qed.

Lemma basic_target (self : Plotter) (t : string) :
  plain_title t = true ->
  plt.savefig_target (basic_path self t) = basic_path self t.
Proof. apply savefig_target_plain. Qed.

(** * Saving a figure *)

Lemma savefig_spec (w : world) (fname : string) (dpi : Z) (st : pystate) :
  plt.savefig w fname dpi st
  = match savefig_refuses w (opened st) fname dpi with
    | Some e => (Raise e, opened st)
    | None =>
        (Ok tt, set_files (<[plt.savefig_target fname := mkImage (current_figure st) dpi]>
                             (files st)) (opened st))
    end.
Proof.
  unfold plt.savefig, plt.on_current, unless_refused, modify, bind, opened, current_figure.
  destruct st as [rc figs ds fl tr]; destruct figs as [|g gs]; cbn;
    destruct (savefig_refuses w _ fname dpi); reflexivity.
Qed.

Lemma save_with_spec (w : world) path_of (self : Plotter) (title : string) (st : pystate) :
  save_with w path_of self title st
  = match savefig_refuses w (opened st) (path_of self title) 300 with
    | Some e => (Raise e, opened st)
    | None =>
        (Ok (path_of self title),
         set_files (<[plt.savefig_target (path_of self title)
                      := mkImage (current_figure st) 300]> (files st)) (opened st))
    end.
Proof.
  unfold save_with, bind. rewrite savefig_spec.
  destruct (savefig_refuses w (opened st) (path_of self title) 300); reflexivity.
Qed.

Lemma extended_save_eq (w : world) : plotter.__save_plot_to_file w = save_with w extended_path.
Proof. reflexivity. Qed.

Lemma basic_save_eq (w : world) : ChartDrawer.__save_plot_to_file w = save_with w basic_path.
Proof. reflexivity. Qed.

Lemma map_chars_length (f : ascii -> ascii) (s : string) :
  String.length (PyStr.map_chars f s) = String.length s.
Proof. induction s as [|c s IH]; [reflexivity|]. cbn. now rewrite IH. Qed.

Lemma savefig_target_cases (s : string) :
  plt.savefig_target (s +:+ ".png") = s +:+ ".png"
  \/ plt.savefig_target (s +:+ ".png") = (s +:+ ".png") +:+ ".png".
Proof.
  rewrite savefig_target_png. destruct (only_dots (os_path.basename s)); [right | now left].
  now rewrite append_assoc.
Qed.




(** * Construction and the rendering defaults *)

Lemma set_plot_params_spec axes_style (self : Plotter) (st : pystate) :
  __set_plot_params axes_style self st
  = (Ok tt, set_rcParams (rendering_defaults axes_style (rcParams st)) st).
Proof. reflexivity. Qed.

Lemma rendering_defaults_idemp axes_style (rc : gmap string rcval) :
  rendering_defaults axes_style (rendering_defaults axes_style rc)
  = rendering_defaults axes_style rc.
Proof.
  apply map_eq; intros k. unfold rendering_defaults.
  repeat (rewrite lookup_insert || rewrite lookup_union).
  repeat case_decide; try reflexivity;
    destruct (axes_style "whitegrid" !! k); try reflexivity;
    destruct (rc !! k); reflexivity.
Qed.

Lemma init_spec axes_style (st : pystate) :
  __init__ axes_style st
  = if bool_decide (is_Some (files st !! "plots"))
    then (Raise (FileExistsError "plots"), st)
    else (Ok (mkPlotter "plots"),
          mkState (rendering_defaults axes_style (rcParams st)) (figures st)
                  ({["plots"]} ∪ dirs st) (files st) (trace st)).
Proof.
  unfold __init__, bind, os_makedirs. cbn [plot_dir].
  destruct (bool_decide (is_Some (files st !! "plots"))); reflexivity.
Qed.

(** C10. Constructing the component a second time leaves the state the first
    construction produced: the rendering defaults (title size 18, title
    padding 20, the whitegrid style, figure size 10 by 6) are written again
    with the same values, and the plot directory already exists. *)
Theorem init_twice_same_state axes_style (st st1 : pystate) (self : Plotter)
    (Hinit : __init__ axes_style st = (Ok self, st1)) :
  __init__ axes_style st1 = (Ok self, st1)
  /\ snd (__set_plot_params axes_style self st1) = st1
  /\ rcParams st1 !! "figure.figsize" = Some (RPair 10 6)
  /\ (forall k v, axes_style "whitegrid" !! k = Some v -> k <> "figure.figsize" ->
        rcParams st1 !! k = Some v)
  /\ (axes_style "whitegrid" !! "axes.titlesize" = None ->
        rcParams st1 !! "axes.titlesize" = Some (RInt 18))
  /\ (axes_style "whitegrid" !! "axes.titlepad" = None ->
        rcParams st1 !! "axes.titlepad" = Some (RInt 20)).
Proof.
  rewrite init_spec in Hinit.
  destruct (bool_decide (is_Some (files st !! "plots"))) eqn:Hfile; [discriminate|].
  injection Hinit as <- <-.
  split; [|split; [|split; [|split; [|split]]]].
  - rewrite init_spec. cbn [files rcParams figures dirs trace]. rewrite Hfile.
    rewrite rendering_defaults_idemp.
    assert (Hdirs : {["plots"]} ∪ ({["plots"]} ∪ dirs st) = {["plots"]} ∪ dirs st)
      by (rewrite (assoc_L (∪)); f_equal; apply union_idemp_L).
    rewrite Hdirs. reflexivity.
  - rewrite set_plot_params_spec. unfold set_rcParams. cbn.
    rewrite rendering_defaults_idemp. reflexivity.
  - cbn. unfold rendering_defaults. apply lookup_insert_eq.
  - intros k v Hk Hne. cbn. unfold rendering_defaults.
    rewrite lookup_insert_ne by congruence.
    apply lookup_union_Some_l. exact Hk.
  - intros Hk. cbn. unfold rendering_defaults.
    rewrite lookup_insert_ne by discriminate.
    rewrite lookup_union_r by exact Hk.
    rewrite lookup_insert_ne by discriminate.
    apply lookup_insert_eq.
  - intros Hk. cbn. unfold rendering_defaults.
    rewrite lookup_insert_ne by discriminate.
    rewrite lookup_union_r by exact Hk.
    apply lookup_insert_eq.
Qed.

Lemma init_twice_same_state_witness :
  exists st1,
    __init__ Sample.whitegrid Sample.fresh = (Ok (mkPlotter "plots"), st1)
    /\ __init__ Sample.whitegrid st1 = (Ok (mkPlotter "plots"), st1)
    /\ rcParams st1 !! "axes.titlesize" = Some (RInt 18).
Proof.
  eexists. split; [reflexivity|].
  pose proof (init_twice_same_state Sample.whitegrid Sample.fresh _ (mkPlotter "plots")
                eq_refl) as (H1 & _ & _ & _ & H2 & _).
  split; [exact H1|]. apply H2. reflexivity.
Defined.

(** * Reachability and parsing *)

Lemma check_url_spec (w : world) (self : Plotter) (url : string) (st : pystate) :
  __check_url w self url st
  = let st1 := log_event (EvHead url 5) st in
    let refused e := (Ok false, log_event (EvPrint "Failed to connect to URL: " (Some e)) st1) in
    match http_head w url with
    | Response status =>
        if ((400 <=? status) && (status <? 600))%Z
        then refused (RequestException "HTTPError")
        else (Ok true, st1)
    | HeadRaises e => if is_RequestException e then refused e else (Raise e, st1)
    end.
Proof.
  unfold __check_url, try_except, requests_head, raise_for_status, bind, modify, raise, ret.
  cbn zeta. destruct (http_head w url) as [status|e].
  - destruct ((400 <=? status) && (status <? 600))%Z; reflexivity.
  - cbn. destruct e; reflexivity.
Qed.

Lemma check_url_false_iff (w : world) (self : Plotter) (url : string) (st : pystate) :
  fst (__check_url w self url st) = Ok false <-> unreachable w url.
Proof.
  rewrite check_url_spec. unfold unreachable. cbn zeta.
  destruct (http_head w url) as [status|e].
  - destruct ((400 <=? status) && (status <? 600))%Z eqn:E; cbn.
    + split; [intros _; lia | reflexivity].
    + split; [discriminate | intros ?; lia].
  - destruct (is_RequestException e); cbn; split; congruence.
Qed.

Lemma check_url_true_iff (w : world) (self : Plotter) (url : string) (st : pystate) :
  fst (__check_url w self url st) = Ok true <-> reachable w url.
Proof.
  rewrite check_url_spec. unfold reachable. cbn zeta.
  destruct (http_head w url) as [status|e].
  - destruct ((400 <=? status) && (status <? 600))%Z eqn:E; cbn.
    + split; [discriminate | intros ?; lia].
    + split; [intros _; lia | reflexivity].
  - destruct (is_RequestException e); cbn; split; try discriminate; tauto.
Qed.

Lemma check_url_true_state (w : world) (self : Plotter) (url : string) (st : pystate) :
  fst (__check_url w self url st) = Ok true ->
  __check_url w self url st = (Ok true, log_event (EvHead url 5) st).
Proof.
  rewrite check_url_spec. cbn zeta.
  destruct (http_head w url) as [status|e].
  - destruct ((400 <=? status) && (status <? 600))%Z; [discriminate | reflexivity].
  - destruct (is_RequestException e); discriminate.
Qed.

Lemma check_url_false_state (w : world) (self : Plotter) (url : string) (st : pystate) :
  fst (__check_url w self url st) = Ok false ->
  exists e, __check_url w self url st
            = (Ok false, log_event (EvPrint "Failed to connect to URL: " (Some e))
                                   (log_event (EvHead url 5) st)).
Proof.
  rewrite check_url_spec. cbn zeta.
  destruct (http_head w url) as [status|e].
  - destruct ((400 <=? status) && (status <? 600))%Z; [eexists; reflexivity | discriminate].
  - destruct (is_RequestException e); [eexists; reflexivity | discriminate].
Qed.

(** C5. When the reachability check fails, [draw_plots] returns the empty
    list and raises nothing; all it did was the HEAD request and two lines of
    log: no JSON was read, no figure opened, no file written. *)
Theorem unreachable_url_returns_empty (w : world) (self : Plotter) (url : string)
    (st : pystate) (Hcheck : fst (__check_url w self url st) = Ok false) :
  exists e st',
    plotter.draw_plots w self url st = (Ok [], st')
    /\ ChartDrawer.draw_plots w self url st = (Ok [], st')
    /\ trace st' = trace st ++ [EvHead url 5;
                                EvPrint "Failed to connect to URL: " (Some e);
                                EvPrint "URL is not accessible" None]
    /\ files st' = files st
    /\ figures st' = figures st.
Proof.
  destruct (check_url_false_state w self url st Hcheck) as [e He].
  exists e. eexists.
  unfold plotter.draw_plots, ChartDrawer.draw_plots.
  rewrite !(bind_ok _ _ _ _ _ He). cbn [negb].
  split; [reflexivity|]. split; [reflexivity|].
  cbn. rewrite <- !app_assoc. auto.
Qed.

Lemma unreachable_url_returns_empty_witness :
  fst (__check_url Sample.offline (mkPlotter "plots") Sample.url Sample.fresh) = Ok false
  /\ exists e st',
       plotter.draw_plots Sample.offline (mkPlotter "plots") Sample.url Sample.fresh = (Ok [], st')
       /\ ChartDrawer.draw_plots Sample.offline (mkPlotter "plots") Sample.url Sample.fresh
          = (Ok [], st')
       /\ trace st' = trace Sample.fresh
                      ++ [EvHead Sample.url 5;
                          EvPrint "Failed to connect to URL: " (Some e);
                          EvPrint "URL is not accessible" None]
       /\ files st' = files Sample.fresh
       /\ figures st' = figures Sample.fresh.
Proof.
  split; [reflexivity|].
  apply (unreachable_url_returns_empty Sample.offline (mkPlotter "plots") Sample.url Sample.fresh).
  reflexivity.
Defined.

(** C6. When the URL is reachable and reading the table raises (a
    [ValueError] for malformed JSON, or any other exception), [draw_plots]
    logs the error and returns the empty list; no figure is opened and no
    file written. *)
Theorem unparsable_body_returns_empty (w : world) (self : Plotter) (url : string)
    (st : pystate) (e : exn)
    (Hcheck : fst (__check_url w self url st) = Ok true)
    (Hjson : json_table w url = Raise e) :
  exists st',
    plotter.draw_plots w self url st = (Ok [], st')
    /\ ChartDrawer.draw_plots w self url st = (Ok [], st')
    /\ trace st' = trace st ++ [EvHead url 5; EvReadJson url;
                                EvPrint (if is_ValueError e then "Failed to read JSON: "
                                         else "An error occurred: ") (Some e)]
    /\ files st' = files st
    /\ figures st' = figures st.
Proof.
  pose proof (check_url_true_state w self url st Hcheck) as He.
  exists (log_event (EvPrint (if is_ValueError e then "Failed to read JSON: "
                              else "An error occurred: ") (Some e))
            (log_event (EvReadJson url) (log_event (EvHead url 5) st))).
  unfold plotter.draw_plots, ChartDrawer.draw_plots.
  rewrite !(bind_ok _ _ _ _ _ He). cbn [negb].
  unfold try_except, pd_read_json, bind, modify, lift, ret. rewrite Hjson.
  destruct e; cbn; rewrite <- ?app_assoc; auto.
Qed.

Lemma unparsable_body_returns_empty_witness :
  exists st',
    plotter.draw_plots Sample.garbled (mkPlotter "plots") Sample.url Sample.fresh = (Ok [], st')
    /\ ChartDrawer.draw_plots Sample.garbled (mkPlotter "plots") Sample.url Sample.fresh
       = (Ok [], st')
    /\ trace st' = [EvHead Sample.url 5; EvReadJson Sample.url;
                    EvPrint "Failed to read JSON: " (Some (ValueError "Expected object or value"))]
    /\ files st' = files Sample.fresh
    /\ figures st' = figures Sample.fresh.
Proof.
  apply (unparsable_body_returns_empty Sample.garbled (mkPlotter "plots") Sample.url
           Sample.fresh (ValueError "Expected object or value")); reflexivity.
Defined.

(** * The chart operations

    Each operation is brought to a normal form: what it looks up, what it
    asks the libraries for and on which figure, and how it ends. *)

Lemma bind_assoc {S A B C : Type} (m : M S A) (f : A -> M S B) (g : B -> M S C) (s : S) :
  bind (bind m f) g s = bind m (fun x => bind (f x) g) s.
Proof. unfold bind. destruct (m s) as [[a|e] s']; reflexivity. Qed.

Lemma run_ret {S A B : Type} (a : A) (k : A -> M S B) (s : S) : bind (ret a) k s = k a s.
Proof. reflexivity. Qed.

Lemma run_figure {A : Type} (k : unit -> M pystate A) (st : pystate) :
  bind plt.figure k st = k tt (with_figure empty_figure st).
Proof. reflexivity. Qed.

Lemma run_lift {A B : Type} (r : result A) (k : A -> M pystate B) (st : pystate) :
  bind (lift r) k st = match r with Ok a => k a st | Raise e => (Raise e, st) end.
Proof. unfold bind, lift. now destruct r. Qed.

Lemma run_on_current {A : Type} (f : Figure -> Figure) (k : unit -> M pystate A)
    (g : Figure) (st : pystate) :
  bind (plt.on_current f) k (with_figure g st) = k tt (with_figure (f g) st).
Proof. reflexivity. Qed.

Lemma run_setup {A : Type} (self : Plotter) (title xlabel ylabel : string)
    (k : unit -> M pystate A) (g : Figure) (st : pystate) :
  bind (__plot_setup self title xlabel ylabel) k (with_figure g st)
  = k tt (with_figure (mkFigure title xlabel ylabel (fig_artists g)) st).
Proof. reflexivity. Qed.

Lemma run_resolve {A : Type} (data : DataFrame) (param name : string)
    (k : unit -> M pystate A) (st : pystate) :
  bind (sns.resolve data param name) k st
  = if has_column data name then k tt st else (Raise (ValueError name), st).
Proof. unfold bind, sns.resolve. now destruct (has_column data name). Qed.

Lemma run_draw (w : world) (a : artist) (k : unit -> M pystate string)
    (g : Figure) (st : pystate) :
  bind (sns.draw w a) k (with_figure g st)
  = draw_then w st g a
      (k tt (with_figure (mkFigure (fig_title g) (fig_xlabel g) (fig_ylabel g)
                                   (fig_artists g ++ [a])) st)).
Proof.
  unfold draw_then, sns.draw, unless_refused. unfold bind at 1 2.
  destruct (seaborn_refuses w (with_figure g st) a); reflexivity.
Qed.

Section ChartFacts.

Variable w : world.
Variable path_of : Plotter -> string -> string.
Lemma chart_tail_spec (self : Plotter) (title : string) (g : Figure) (st : pystate) :
  (path <- save_with w path_of self title ;; __show_and_close_plot self ;; ret path)
    (with_figure g st)
  = finish_chart w (path_of self title) g st.
Proof.
  unfold finish_chart, bind at 1. rewrite save_with_spec.
  change (opened (with_figure g st)) with (with_figure g st).
  destruct (savefig_refuses w (with_figure g st) (path_of self title) 300); reflexivity.
Qed.

(** A histogram: pandas looks the column up, seaborn draws it, the figure is
    given its title and labels and saved. *)
Lemma draw_histogram_spec (self : Plotter) (df : DataFrame) (c bins : string) (st : pystate) :
  let title := "Histogram for " +:+ c in
  let a := SnsHistplot (column_values df c) c bins in
  draw_histogram w (save_with w path_of) self df c bins st
  = if has_column df c
    then draw_then w st empty_figure a
           (finish_chart w (path_of self title) (mkFigure title "Degrees" "Frequency" [a]) st)
    else (Raise (KeyError [c]), with_figure empty_figure st).
Proof.
  cbn zeta. unfold draw_histogram, sns.histplot, df_getitem.
  rewrite run_figure, run_lift.
  destruct (has_column df c); [|reflexivity].
  rewrite run_draw, run_setup. cbn [fig_artists empty_figure app].
  now rewrite chart_tail_spec.
Qed.

(** Box plots: pandas selects the columns and melts them, seaborn draws the
    long form. *)
Lemma draw_boxplots_spec (self : Plotter) (df : DataFrame) (cs : list string)
    (label : string) (st : pystate) :
  let title := "Boxplots for " +:+ label in
  draw_boxplots w (save_with w path_of) self df cs label st
  = match and_then (df_select df cs) (fun selected => pd_melt selected "variable" "value") with
    | Raise e => (Raise e, with_figure empty_figure st)
    | Ok melted =>
        let a := SnsBoxplot "variable" "value" None melted in
        draw_then w st empty_figure a
          (finish_chart w (path_of self title) (mkFigure title "" "Degrees" [a]) st)
    end.
Proof.
  cbn zeta. unfold draw_boxplots, sns.boxplot.
  rewrite run_figure, run_lift.
  destruct (df_select df cs) as [selected|e]; [|reflexivity]. cbn [and_then].
  rewrite run_lift. unfold pd_melt.
  destruct (has_column selected "value"); [reflexivity|]. cbn beta iota.
  rewrite !bind_assoc, run_resolve.
  change (has_column _ "variable") with true. cbn iota.
  rewrite !bind_assoc, run_resolve.
  change (has_column _ "value") with true. cbn iota.
  rewrite !bind_assoc, run_ret.
  rewrite run_draw, run_setup. cbn [fig_artists empty_figure app].
  now rewrite chart_tail_spec.
Qed.

(** A scatter plot: with [add_line], pandas computes the two limits and the
    line is drawn first; the figure is given its title and labels; seaborn
    resolves the two names and draws the points. *)
Lemma draw_scatterplot_spec (self : Plotter) (df : DataFrame) (x y : string)
    (add_line : bool) (st : pystate) :
  let title := "Scatter plot " +:+ x +:+ " vs " +:+ y in
  let points := SnsScatterplot x y df 2 in
  draw_scatterplot w (save_with w path_of) self df x y add_line st
  = match scatter_underlay df x y add_line with
    | Raise e => (Raise e, with_figure empty_figure st)
    | Ok line =>
        if has_column df x then
          if has_column df y then
            draw_then w st (mkFigure title x y line) points
              (finish_chart w (path_of self title) (mkFigure title x y (line ++ [points])) st)
          else (Raise (ValueError y), with_figure (mkFigure title x y line) st)
        else (Raise (ValueError x), with_figure (mkFigure title x y line) st)
    end.
Proof.
  cbn zeta. unfold draw_scatterplot, sns.scatterplot, scatter_underlay, reference_limits.
  rewrite run_figure.
  assert (Hrest : forall line,
             (__plot_setup self ("Scatter plot " +:+ x +:+ " vs " +:+ y) x y ;;
              (sns.resolve df "x" x ;; sns.resolve df "y" y ;;
               sns.draw w (SnsScatterplot x y df 2)) ;;
              path <- save_with w path_of self ("Scatter plot " +:+ x +:+ " vs " +:+ y) ;;
              __show_and_close_plot self ;; ret path)
               (with_figure (mkFigure "" "" "" line) st)
             = if has_column df x then
                 if has_column df y then
                   draw_then w st (mkFigure ("Scatter plot " +:+ x +:+ " vs " +:+ y) x y line)
                     (SnsScatterplot x y df 2)
                     (finish_chart w (path_of self ("Scatter plot " +:+ x +:+ " vs " +:+ y))
                        (mkFigure ("Scatter plot " +:+ x +:+ " vs " +:+ y) x y
                           (line ++ [SnsScatterplot x y df 2])) st)
                 else (Raise (ValueError y),
                       with_figure (mkFigure ("Scatter plot " +:+ x +:+ " vs " +:+ y) x y line)
                         st)
               else (Raise (ValueError x),
                     with_figure (mkFigure ("Scatter plot " +:+ x +:+ " vs " +:+ y) x y line)
                       st)).
  { intros line. rewrite run_setup. cbn [fig_artists].
    rewrite !bind_assoc, run_resolve.
    destruct (has_column df x); [|reflexivity].
    rewrite !bind_assoc, run_resolve.
    destruct (has_column df y); [|reflexivity].
    rewrite run_draw. cbn [fig_title fig_xlabel fig_ylabel fig_artists].
    now rewrite chart_tail_spec. }
  destruct add_line.
  - repeat (rewrite bind_assoc, run_lift;
            try lazymatch goal with
                | |- match ?r with Ok _ => _ | Raise _ => _ end = _ =>
                    destruct r; cbn [and_then]; [cbn beta iota | reflexivity]
                end).
    unfold plt.plot, plt.add_artist. rewrite run_on_current.
    cbn [reference_line fst snd fig_title fig_xlabel fig_ylabel fig_artists empty_figure app].
    exact (Hrest _).
  - rewrite run_ret. exact (Hrest []).
Qed.

Lemma head_columns (cnt : Z) (df : DataFrame) : columns (df_head cnt df) = columns df.
Proof. reflexivity. Qed.

Lemma sort_values_columns (df sorted : DataFrame) (c : string) (ascending : bool) :
  sort_values df c ascending = Ok sorted ->
  has_column df c = true /\ columns sorted = columns df.
Proof.
  unfold sort_values. destruct (has_column df c); [|discriminate]. cbn [negb].
  match goal with |- (if ?b then _ else _) = _ -> _ => destruct b end; [discriminate|].
  intros [= <-]. auto.
Qed.

(** A bar chart: pandas sorts by the column and keeps the first rows;
    seaborn resolves the column and [name] in them and draws the bars. *)
Lemma draw_top_bottom_data_spec (self : Plotter) (df : DataFrame) (column : string)
    (cnt : Z) (top : bool) (st : pystate) :
  let title := "Top " +:+ pretty cnt +:+ " " +:+ (if top then "best" else "worst")
               +:+ " results for " +:+ column in
  draw_top_bottom_data w (save_with w path_of) self df column cnt top st
  = match sort_values df column top with
    | Raise e => (Raise e, with_figure empty_figure st)
    | Ok sorted =>
        let a := SnsBarplot column "name" (df_head cnt sorted) in
        if has_column df "name"
        then draw_then w st empty_figure a
               (finish_chart w (path_of self title) (mkFigure title "Degrees" "" [a]) st)
        else (Raise (ValueError "name"), with_figure empty_figure st)
    end.
Proof.
  cbn zeta. unfold draw_top_bottom_data, sns.barplot.
  rewrite run_figure, run_lift.
  destruct (sort_values df column top) as [sorted|e] eqn:Hsort; [|reflexivity].
  destruct (sort_values_columns _ _ _ _ Hsort) as [Hcol Hcols].
  cbn beta iota.
  assert (Hhas : forall c, has_column (df_head cnt sorted) c = has_column df c)
    by (intros c; unfold has_column; now rewrite head_columns, Hcols).
  rewrite !bind_assoc, run_resolve, Hhas, Hcol.
  rewrite !bind_assoc, run_resolve, Hhas.
  destruct (has_column df "name"); [|reflexivity].
  rewrite run_draw, run_setup. cbn [fig_artists empty_figure app].
  now rewrite chart_tail_spec.
Qed.

End ChartFacts.

(** * The combined box plot of the extended variant *)

Lemma df_select_ok (df : DataFrame) (cs : list string) :
  forallb (has_column df) cs = true ->
  df_select df cs
  = Ok (mkDataFrame cs (map (fun r => map (fun c => (c, row_get r c)) cs) (rows df))).
Proof.
  intros H. unfold df_select.
  assert (E : List.filter (fun c => negb (has_column df c)) cs = []).
  { induction cs as [|c cs IH]; [reflexivity|].
    cbn in H |- *. apply andb_prop in H as [Hc Hcs]. rewrite Hc. cbn. auto. }
  rewrite E. reflexivity.
Qed.

Lemma df_select_missing (df : DataFrame) (cs : list string) :
  forallb (has_column df) cs = false ->
  exists missing, df_select df cs = Raise (KeyError missing).
Proof.
  intros H. unfold df_select.
  destruct (List.filter (fun c => negb (has_column df c)) cs) as [|m ms] eqn:E.
  - exfalso. induction cs as [|c cs IH]; [discriminate|].
    cbn in H, E. destruct (has_column df c); cbn in H, E; [auto | discriminate].
  - eexists; reflexivity.
Qed.

(** [df[cs]] returns a frame with the columns asked for, exactly when the
    table has them all; otherwise it raises a [KeyError]. *)
Lemma df_select_cases (df : DataFrame) (cs : list string) :
  match df_select df cs with
  | Ok selected =>
      forallb (has_column df) cs = true
      /\ selected = mkDataFrame cs (map (fun r => map (fun c => (c, row_get r c)) cs) (rows df))
  | Raise e => forallb (has_column df) cs = false /\ is_KeyError e = true
  end.
Proof.
  destruct (forallb (has_column df) cs) eqn:H.
  - rewrite (df_select_ok _ _ H). auto.
  - destruct (df_select_missing _ _ H) as [missing ->]. auto.
Qed.

Lemma pd_melt_ok (df : DataFrame) (var_name value_name : string) :
  has_column df value_name = false ->
  pd_melt df var_name value_name
  = Ok (mkDataFrame [var_name; value_name]
          (flat_map (fun c => map (fun r => [(var_name, Str c); (value_name, row_get r c)])
                                  (rows df))
                    (columns df))).
Proof. intros H. unfold pd_melt. now rewrite H. Qed.

Lemma has_column_In (df : DataFrame) (c : string) : has_column df c = true -> In c (columns df).
Proof.
  unfold has_column. intros H. apply existsb_exists in H as (k & Hk & E).
  apply String.eqb_eq in E. now subst.
Qed.

(** The frame the combined box plot builds has the columns [metric],
    [value] and [type], whatever the table. *)
Lemma combined_columns (a b : list row) :
  columns (pd_concat (df_setitem_scalar (mkDataFrame ["metric"; "value"] a) "type" (Str "Floor"))
                     (df_setitem_scalar (mkDataFrame ["metric"; "value"] b) "type"
                        (Str "Ceiling")))
  = ["metric"; "value"; "type"].
Proof. reflexivity. Qed.

(** The operation raises before it draws anything, on every table: a
    [KeyError] from the selection of the columns or from the lookup of
    [Metric], or the [ValueError] of a melt of a column named [value]. *)
Lemma combined_boxplots_never_returns (w : world) (self : Plotter) (data : DataFrame)
    (columns_1 columns_2 : list string) (title : string) (st : pystate) :
  exists e,
    plotter.draw_combined_boxplots w self data columns_1 columns_2 title st
    = (Raise e, with_figure empty_figure st)
    /\ (is_KeyError e = true
        \/ (is_ValueError e = true /\ In "value" (columns_1 ++ columns_2))).
Proof.
  unfold plotter.draw_combined_boxplots. rewrite run_figure, run_lift.
  pose proof (df_select_cases data columns_1) as H1.
  destruct (df_select data columns_1) as [s1|e1]; [|exists e1; tauto].
  destruct H1 as [_ ->]. rewrite run_lift.
  destruct (pd_melt _ "metric" "value") as [m1|e1] eqn:M1; unfold pd_melt in M1;
    destruct (has_column _ "value") eqn:V1 in M1; try discriminate.
  2:{ injection M1 as <-. eexists. split; [reflexivity|]. right. split; [reflexivity|].
      apply in_or_app. left. exact (has_column_In _ _ V1). }
  injection M1 as <-. rewrite run_lift.
  pose proof (df_select_cases data columns_2) as H2.
  destruct (df_select data columns_2) as [s2|e2]; [|exists e2; tauto].
  destruct H2 as [_ ->]. rewrite run_lift.
  destruct (pd_melt _ "metric" "value") as [m2|e2] eqn:M2; unfold pd_melt in M2;
    destruct (has_column _ "value") eqn:V2 in M2; try discriminate.
  2:{ injection M2 as <-. eexists. split; [reflexivity|]. right. split; [reflexivity|].
      apply in_or_app. right. exact (has_column_In _ _ V2). }
  injection M2 as <-. rewrite run_lift.
  exists (KeyError ["Metric"]). split; [reflexivity | now left].
Qed.

Lemma combined_boxplots_fail_on_Metric (w : world) (self : Plotter) (data : DataFrame)
    (title : string) (st : pystate) :
  forallb (has_column data) ["floor_min"; "floor_mean"; "floor_max"] = true ->
  forallb (has_column data) ["ceiling_min"; "ceiling_mean"; "ceiling_max"] = true ->
  plotter.draw_combined_boxplots w self data
      ["floor_min"; "floor_mean"; "floor_max"]
      ["ceiling_min"; "ceiling_mean"; "ceiling_max"] title st
  = (Raise (KeyError ["Metric"]), set_figures (empty_figure :: figures st) st).
Proof.
  intros Hfloor Hceiling.
  unfold plotter.draw_combined_boxplots. rewrite run_figure, run_lift.
  rewrite (df_select_ok _ _ Hfloor), run_lift, pd_melt_ok by reflexivity.
  rewrite run_lift, (df_select_ok _ _ Hceiling), run_lift, pd_melt_ok by reflexivity.
  rewrite run_lift. reflexivity.
Qed.

(** C3. On a table that has the floor and the ceiling columns,
    [draw_combined_boxplots] raises [KeyError] for the label [Metric]: the
    frame it built names that column [metric].  It has opened a figure and
    written no file.  And for no table and no column lists does it return a
    path: it raises a [KeyError], or, when a column named [value] is among
    those asked for, possibly the [ValueError] of the melt; no file is
    written. *)
Theorem combined_boxplots_raises_KeyError (w : world) (self : Plotter) (data : DataFrame)
    (title : string) (st : pystate)
    (Hfloor : forallb (has_column data) ["floor_min"; "floor_mean"; "floor_max"] = true)
    (Hceiling : forallb (has_column data) ["ceiling_min"; "ceiling_mean"; "ceiling_max"] = true) :
  plotter.draw_combined_boxplots w self data
      ["floor_min"; "floor_mean"; "floor_max"]
      ["ceiling_min"; "ceiling_mean"; "ceiling_max"] title st
  = (Raise (KeyError ["Metric"]), set_figures (empty_figure :: figures st) st)
  /\ (forall data' columns_1 columns_2 title' st0 r st1,
        plotter.draw_combined_boxplots w self data' columns_1 columns_2 title' st0 = (r, st1) ->
        (is_KeyError_result r = true
         \/ (In "value" (columns_1 ++ columns_2) /\ exists what, r = Raise (ValueError what)))
        /\ files st1 = files st0).
Proof.
  split.
  - apply combined_boxplots_fail_on_Metric; assumption.
  - intros data' c1 c2 title' st0 r st1 H.
    destruct (combined_boxplots_never_returns w self data' c1 c2 title' st0) as (e & E & He).
    rewrite E in H. injection H as <- <-. split; [|reflexivity].
    destruct He as [He|[He Hin]]; [now left|]. right. split; [exact Hin|].
    destruct e; try discriminate. eexists; reflexivity.
Qed.

Lemma combined_boxplots_raises_KeyError_witness :
  plotter.draw_combined_boxplots (Sample.serving Sample.table) (mkPlotter "plots") Sample.table
      ["floor_min"; "floor_mean"; "floor_max"]
      ["ceiling_min"; "ceiling_mean"; "ceiling_max"] "Floor vs Ceiling" Sample.ready
  = (Raise (KeyError ["Metric"]), set_figures [empty_figure] Sample.ready).
Proof.
  apply (combined_boxplots_raises_KeyError (Sample.serving Sample.table) (mkPlotter "plots")
           Sample.table "Floor vs Ceiling" Sample.ready); reflexivity.
Defined.

(** * The shape of a chart operation *)

Lemma all_or_nothing_finish (w : world) (path : string) (fig : Figure) (st : pystate) :
  all_or_nothing path st (finish_chart w path fig st).
Proof.
  unfold all_or_nothing, finish_chart.
  destruct (savefig_refuses w (with_figure fig st) path 300); cbn; eauto.
Qed.

Lemma all_or_nothing_raise (path : string) (e : exn) (g : Figure) (st : pystate) :
  all_or_nothing path st (Raise e, with_figure g st).
Proof. unfold all_or_nothing. cbn. eauto. Qed.

Lemma all_or_nothing_draw (w : world) (path : string) (g : Figure) (a : artist)
    (st : pystate) (rest : result string * pystate) :
  all_or_nothing path st rest -> all_or_nothing path st (draw_then w st g a rest).
Proof.
  intros H. unfold draw_then.
  destruct (seaborn_refuses w (with_figure g st) a); [apply all_or_nothing_raise | exact H].
Qed.

Lemma chart_operation_of (m : M pystate string) (path : string) :
  (forall st, all_or_nothing path st (m st)) -> chart_operation m path.
Proof.
  intros H st r st' E. specialize (H st). unfold all_or_nothing in H.
  rewrite E in H. exact H.
Qed.

Create HintDb chart.
#[local] Hint Resolve all_or_nothing_finish all_or_nothing_raise all_or_nothing_draw : chart.

Section Operations.

Variable w : world.
Variable path_of : Plotter -> string -> string.

Lemma draw_scatterplot_operation (self : Plotter) (df : DataFrame) (x y : string) (b : bool) :
  chart_operation (draw_scatterplot w (save_with w path_of) self df x y b)
                  (path_of self ("Scatter plot " +:+ x +:+ " vs " +:+ y)).
Proof.
  apply chart_operation_of. intros st. rewrite draw_scatterplot_spec. cbn zeta.
  destruct (scatter_underlay df x y b); [|auto with chart].
  destruct (has_column df x), (has_column df y); auto with chart.
Qed.

Lemma draw_histogram_operation (self : Plotter) (df : DataFrame) (c bins : string) :
  chart_operation (draw_histogram w (save_with w path_of) self df c bins)
                  (path_of self ("Histogram for " +:+ c)).
Proof.
  apply chart_operation_of. intros st. rewrite draw_histogram_spec. cbn zeta.
  destruct (has_column df c); auto with chart.
Qed.

Lemma draw_boxplots_operation (self : Plotter) (df : DataFrame) (cs : list string)
    (label : string) :
  chart_operation (draw_boxplots w (save_with w path_of) self df cs label)
                  (path_of self ("Boxplots for " +:+ label)).
Proof.
  apply chart_operation_of. intros st. rewrite draw_boxplots_spec. cbn zeta.
  destruct (and_then _ _); auto with chart.
Qed.

Lemma draw_top_bottom_data_operation (self : Plotter) (df : DataFrame) (column : string)
    (cnt : Z) (top : bool) :
  chart_operation (draw_top_bottom_data w (save_with w path_of) self df column cnt top)
                  (path_of self ("Top " +:+ pretty cnt +:+ " "
                                 +:+ (if top then "best" else "worst")
                                 +:+ " results for " +:+ column)).
Proof.
  apply chart_operation_of. intros st. rewrite draw_top_bottom_data_spec. cbn zeta.
  destruct (sort_values df column top); [|auto with chart].
  destruct (has_column df "name"); auto with chart.
Qed.

End Operations.

Lemma draw_combined_boxplots_operation (w : world) (self : Plotter) (df : DataFrame)
    (c1 c2 : list string) (label : string) :
  chart_operation (plotter.draw_combined_boxplots w self df c1 c2 label)
                  (extended_path self ("Boxplots for " +:+ label)).
Proof.
  intros st r st' H.
  destruct (combined_boxplots_never_returns w self df c1 c2 label st) as (e & E & _).
  rewrite E in H. injection H as <- <-. now exists empty_figure.
Qed.

(** * What an operation can return *)

Lemma chart_operation_yields (m : M pystate string) (path : string) :
  chart_operation m path -> yields m path.
Proof. intros H s x s' E. exact (proj1 (H _ _ _ E)). Qed.

(** * The batch: [plot_paths] grows by the paths of the operations that ran *)

Lemma extends_by_append (m : M pystate string) (p : string) :
  yields m p -> extends_by (append_local m) [p].
Proof.
  intros Hm l st r l' st' H. unfold append_local in H. cbn [fst snd] in H.
  destruct (m st) as [[a|e] s1] eqn:E; injection H as <- <- <-.
  - rewrite (Hm st a s1 E). reflexivity.
  - exists 0%nat. cbn. split; [lia | now rewrite app_nil_r].
Qed.

Lemma extends_by_bind (m1 m2 : M (list string * pystate) unit) (ps1 ps2 : list string) :
  extends_by m1 ps1 -> extends_by m2 ps2 ->
  extends_by (m1 ;; m2) (ps1 ++ ps2).
Proof.
  intros H1 H2 l st r l' st' H. unfold bind in H.
  destruct (m1 (l, st)) as [[[]|e] [l1 st1]] eqn:E1.
  - specialize (H1 _ _ _ _ _ E1). cbn in H1. subst l1.
    specialize (H2 _ _ _ _ _ H). destruct r as [[]|e].
    + rewrite H2. now rewrite app_assoc.
    + destruct H2 as (k & Hk & ->). exists (length ps1 + k)%nat.
      split; [rewrite length_app; lia|].
      rewrite firstn_app_2. now rewrite app_assoc.
  - injection H as <- <- <-.
    specialize (H1 _ _ _ _ _ E1). cbn in H1. destruct H1 as (k & Hk & ->).
    exists k. split; [rewrite length_app; lia|].
    rewrite firstn_app. replace (k - length ps1)%nat with 0%nat by lia.
    cbn. now rewrite app_nil_r.
Qed.

Lemma extends_by_cons (m : M pystate string) (rest : M (list string * pystate) unit)
    (p : string) (ps : list string) :
  yields m p -> extends_by rest ps ->
  extends_by (append_local m ;; rest) (p :: ps).
Proof.
  intros Hm Hrest. change (p :: ps) with ([p] ++ ps).
  apply extends_by_bind; [apply extends_by_append|]; assumption.
Qed.

Ltac chart_yields path_of :=
  apply chart_operation_yields;
  first [ apply (draw_scatterplot_operation _ path_of)
        | apply (draw_histogram_operation _ path_of)
        | apply (draw_boxplots_operation _ path_of)
        | apply draw_combined_boxplots_operation
        | apply (draw_top_bottom_data_operation _ path_of) ].

Lemma extended_body_extends (w : world) (self : Plotter) (df : DataFrame) :
  extends_by (plotter.draw_plots_body w self df
                ["floor_min"; "floor_mean"; "floor_max"]
                ["ceiling_min"; "ceiling_mean"; "ceiling_max"])
             (map (extended_path self) extended_titles).
Proof.
  unfold plotter.draw_plots_body. cbn [map extended_titles].
  repeat (apply extends_by_cons; [chart_yields extended_path|]).
  apply extends_by_append. chart_yields extended_path.
Qed.

Lemma basic_body_extends (w : world) (self : Plotter) (df : DataFrame) :
  extends_by (ChartDrawer.draw_plots_body w self df) (map (basic_path self) basic_titles).
Proof.
  unfold ChartDrawer.draw_plots_body. cbn [map basic_titles].
  repeat (apply extends_by_cons; [chart_yields basic_path|]).
  apply extends_by_append. chart_yields basic_path.
Qed.

(** How the [try] block of the batch can end: the body completes; it raises
    a [KeyError], which is logged; or it raises something else, which
    propagates. *)
Lemma batch_handler_cases (body : M (list string * pystate) unit) (st st' : pystate)
    (r : result (list string)) :
  with_local []
    (try_except body
       [(is_KeyError, fun e => on_state (print "Failed to draw plot: " (Some e)))] ;;
     get_local) st = (r, st') ->
  (exists l, body ([], st) = (Ok tt, (l, st')) /\ r = Ok l)
  \/ (exists e l s1, body ([], st) = (Raise e, (l, s1)) /\ is_KeyError e = true
        /\ r = Ok l /\ st' = log_event (EvPrint "Failed to draw plot: " (Some e)) s1)
  \/ (exists e l, body ([], st) = (Raise e, (l, st')) /\ is_KeyError e = false /\ r = Raise e).
Proof.
  intros H. unfold with_local, bind, try_except, get_local in H.
  destruct (body ([], st)) as [[[]|e] [l s1]] eqn:E; cbn in H.
  - injection H as <- <-. left. eauto.
  - destruct (is_KeyError e) eqn:K; cbn in H; injection H as <- <-.
    + right. left. exists e, l, s1. auto.
    + right. right. exists e, l. auto.
Qed.

Lemma batch_result (body : M (list string * pystate) unit) (ps paths : list string)
    (st st' : pystate) :
  extends_by body ps ->
  with_local []
    (try_except body
       [(is_KeyError, fun e => on_state (print "Failed to draw plot: " (Some e)))] ;;
     get_local) st = (Ok paths, st') ->
  exists k, paths = firstn k ps.
Proof.
  intros Hb H.
  destruct (batch_handler_cases _ _ _ _ H)
    as [(l & E & [= ->])|[(e & l & s1 & E & _ & [= ->] & _)|(e & l & _ & _ & [=])]];
    apply Hb in E; cbn in E.
  - exists (length ps). subst l. now rewrite firstn_all.
  - destruct E as (k & _ & ->). now exists k.
Qed.

Lemma draw_plots_returns_prefix (w : world) (self : Plotter) (url : string)
    (st st' : pystate) (paths : list string) :
  (plotter.draw_plots w self url st = (Ok paths, st') ->
   exists k, paths = firstn k (map (extended_path self) extended_titles))
  /\ (ChartDrawer.draw_plots w self url st = (Ok paths, st') ->
      exists k, paths = firstn k (map (basic_path self) basic_titles)).
Proof.
  split; intros H.
  - unfold plotter.draw_plots in H. unfold bind at 1 in H.
    destruct (__check_url w self url st) as [[[|]|e] s1]; cbn [negb] in H; try discriminate.
    + unfold bind at 1 in H.
      destruct (try_except _ _ s1) as [[[df|]|e] s2]; try discriminate.
      * exact (batch_result _ _ _ _ _ (extended_body_extends w self df) H).
      * injection H as <- _. now exists 0%nat.
    + cbn in H. injection H as <- _. now exists 0%nat.
  - unfold ChartDrawer.draw_plots in H. unfold bind at 1 in H.
    destruct (__check_url w self url st) as [[[|]|e] s1]; cbn [negb] in H; try discriminate.
    + unfold bind at 1 in H.
      destruct (try_except _ _ s1) as [[[df|]|e] s2]; try discriminate.
      * exact (batch_result _ _ _ _ _ (basic_body_extends w self df) H).
      * injection H as <- _. now exists 0%nat.
    + cbn in H. injection H as <- _. now exists 0%nat.
Qed.

(** C9. Every path in the list [draw_plots] returns, in either variant and
    whatever the network answers, begins with the output directory [plots]
    and ends with [.png]. *)
Theorem returned_paths_under_plots axes_style (st0 st1 : pystate) (self : Plotter)
    (w : world) (url : string) (st st' : pystate) (paths : list string)
    (Hinit : __init__ axes_style st0 = (Ok self, st1))
    (Hrun : plotter.draw_plots w self url st = (Ok paths, st')
            \/ ChartDrawer.draw_plots w self url st = (Ok paths, st')) :
  Forall (fun p => PyStr.startswith "plots" p = true /\ PyStr.endswith ".png" p = true) paths.
Proof.
  assert (Hself : self = mkPlotter "plots").
  { rewrite init_spec in Hinit. destruct (bool_decide _); congruence. }
  subst self.
  pose proof (draw_plots_returns_prefix w (mkPlotter "plots") url st st' paths) as [He Hb].
  destruct Hrun as [H|H]; [apply He in H | apply Hb in H]; destruct H as [k ->];
    apply Forall_take; repeat constructor.
Qed.

(** * The batch on the sample table *)

Lemma sample_basic_paths :
  fst (ChartDrawer.draw_plots (Sample.serving Sample.table) (mkPlotter "plots") Sample.url
         Sample.ready)
  = Ok (map (basic_path (mkPlotter "plots")) basic_titles).
Proof. vm_compute. reflexivity. Qed.

Lemma sample_basic_run :
  ChartDrawer.draw_plots (Sample.serving Sample.table) (mkPlotter "plots") Sample.url
    Sample.ready
  = (Ok (map (basic_path (mkPlotter "plots")) basic_titles),
     snd (ChartDrawer.draw_plots (Sample.serving Sample.table) (mkPlotter "plots") Sample.url
            Sample.ready)).
Proof. rewrite <- sample_basic_paths. apply surjective_pairing. Qed.

Lemma sample_extended_paths :
  fst (plotter.draw_plots (Sample.serving Sample.table) (mkPlotter "plots") Sample.url
         Sample.ready)
  = Ok (map (extended_path (mkPlotter "plots")) (firstn 10 extended_titles)).
Proof. vm_compute. reflexivity. Qed.

Lemma sample_extended_run :
  plotter.draw_plots (Sample.serving Sample.table) (mkPlotter "plots") Sample.url
    Sample.ready
  = (Ok (map (extended_path (mkPlotter "plots")) (firstn 10 extended_titles)),
     snd (plotter.draw_plots (Sample.serving Sample.table) (mkPlotter "plots") Sample.url
            Sample.ready)).
Proof. rewrite <- sample_extended_paths. apply surjective_pairing. Qed.

Lemma returned_paths_under_plots_witness :
  Forall (fun p => PyStr.startswith "plots" p = true /\ PyStr.endswith ".png" p = true)
         (map (basic_path (mkPlotter "plots")) basic_titles).
Proof.
  exact (returned_paths_under_plots Sample.no_style Sample.fresh _ (mkPlotter "plots")
           (Sample.serving Sample.table) Sample.url Sample.ready _ _
           eq_refl (or_intror sample_basic_run)).
Defined.

(** * The reference line of a scatter plot *)

Lemma pick_max (a x : Q) : (if negb (Qle_bool x a) then x else a) = Qmax a x.
Proof.
  unfold Qmax, GenericMinMax.gmax.
  destruct (Qle_bool x a) eqn:E; cbn.
  - apply Qle_bool_iff in E. destruct (a ?= x)%Q eqn:C; try reflexivity.
    apply Qlt_alt in C. exfalso. exact (Qlt_not_le _ _ C E).
  - destruct (a ?= x)%Q eqn:C; try reflexivity; exfalso.
    + apply Qeq_alt in C. assert (H : (x <= a)%Q) by (rewrite C; apply Qle_refl).
      apply Qle_bool_iff in H. congruence.
    + apply Qgt_alt in C. apply Qlt_le_weak in C. apply Qle_bool_iff in C. congruence.
Qed.

Lemma pick_min (a x : Q) : (if negb (Qle_bool a x) then x else a) = Qmin a x.
Proof.
  unfold Qmin, GenericMinMax.gmin.
  destruct (Qle_bool a x) eqn:E; cbn.
  - apply Qle_bool_iff in E. destruct (a ?= x)%Q eqn:C; try reflexivity.
    apply Qgt_alt in C. exfalso. exact (Qlt_not_le _ _ C E).
  - destruct (a ?= x)%Q eqn:C; try reflexivity; exfalso.
    + apply Qeq_alt in C. assert (H : (a <= x)%Q) by (rewrite C; apply Qle_refl).
      apply Qle_bool_iff in H. congruence.
    + apply Qlt_alt in C. apply Qlt_le_weak in C. apply Qle_bool_iff in C. congruence.
Qed.

Lemma finite_is_float (s : list cell) : forallb is_finite s = true -> forallb is_float s = true.
Proof.
  induction s as [|c s IH]; [reflexivity|]. cbn. intros H.
  apply andb_prop in H as [Hc Hs]. rewrite (IH Hs).
  destruct c as [[q| |b]|t]; try discriminate; reflexivity.
Qed.

Lemma series_max_float (s : list cell) :
  forallb is_finite s = true -> series_max s = Ok (Float (fold_float float_lt s)).
Proof.
  intros H. unfold series_max, series_reduce. now rewrite (finite_is_float _ H).
Qed.

Lemma series_min_float (s : list cell) :
  forallb is_finite s = true ->
  series_min s = Ok (Float (fold_float (fun a x => float_lt x a) s)).
Proof.
  intros H. unfold series_min, series_reduce. now rewrite (finite_is_float _ H).
Qed.

(** On columns of finite numbers and missing entries, the two limits are the
    program's two expressions. *)
Lemma reference_limits_finite (df : DataFrame) (x y : string) :
  has_column df x = true -> has_column df y = true ->
  finite_column df x = true -> finite_column df y = true ->
  reference_limits df x y
  = Ok (min_limit_of (column_values df x) (column_values df y),
        max_limit_of (column_values df x) (column_values df y)).
Proof.
  intros Hx Hy Fx Fy. unfold reference_limits, df_getitem. rewrite Hx, Hy.
  cbn [and_then].
  rewrite (series_max_float _ Fx), (series_max_float _ Fy).
  rewrite (series_min_float _ Fx), (series_min_float _ Fy).
  reflexivity.
Qed.

(** Over a column of finite numbers and missing entries, [fold_float] skips
    the missing entries and folds the numbers. *)
Lemma fold_float_from (pick : pyfloat -> pyfloat -> bool) (f : Q -> Q -> Q)
    (Hpick : forall a x, (if pick (Fin a) (Fin x) then x else a) = f a x)
    (s : list cell) (a : Q) :
  forallb is_finite s = true ->
  fold_left (fun acc c =>
               match c with
               | Float FNaN => acc
               | Float x => match acc with
                            | FNaN => x
                            | a => if pick a x then x else a
                            end
               | Str _ => acc
               end) s (Fin a)
  = Fin (fold_left f (numbers s) a).
Proof.
  revert a. induction s as [|c s IH]; intros a H; [reflexivity|].
  cbn in H. apply andb_prop in H as [Hc Hs].
  destruct c as [[x| |b]|t]; try discriminate; cbn [fold_left numbers flat_map app].
  - rewrite <- (Hpick a x). destruct (pick (Fin a) (Fin x)); now apply IH.
  - now apply IH.
Qed.

Lemma fold_float_numbers (pick : pyfloat -> pyfloat -> bool) (f : Q -> Q -> Q)
    (Hpick : forall a x, (if pick (Fin a) (Fin x) then x else a) = f a x)
    (s : list cell) :
  forallb is_finite s = true ->
  fold_float pick s
  = match numbers s with
    | [] => FNaN
    | q :: l => Fin (fold_left f l q)
    end.
Proof.
  unfold fold_float. induction s as [|c s IH]; intros H; [reflexivity|].
  cbn in H. apply andb_prop in H as [Hc Hs].
  destruct c as [[x| |b]|t]; try discriminate; cbn [fold_left numbers flat_map app].
  - now apply fold_float_from.
  - now apply IH.
Qed.

Lemma fold_float_max (s : list cell) :
  forallb is_finite s = true ->
  fold_float float_lt s
  = match Qlist_max (numbers s) with Some m => Fin m | None => FNaN end.
Proof.
  intros H. rewrite (fold_float_numbers float_lt Qmax pick_max s H).
  destruct (numbers s); reflexivity.
Qed.

Lemma fold_float_min (s : list cell) :
  forallb is_finite s = true ->
  fold_float (fun a x => float_lt x a) s
  = match Qlist_min (numbers s) with Some m => Fin m | None => FNaN end.
Proof.
  intros H. rewrite (fold_float_numbers (fun a x => float_lt x a) Qmin pick_min s H).
  destruct (numbers s); reflexivity.
Qed.

(** [Qlist_min] and [Qlist_max] are the least and the greatest element. *)
Lemma fold_Qmin_le (l : list Q) (q : Q) :
  (fold_left Qmin l q <= q)%Q /\ Forall (fun x => (fold_left Qmin l q <= x)%Q) l.
Proof.
  revert q. induction l as [|x l IH]; intros q; cbn.
  - split; [apply Qle_refl | constructor].
  - destruct (IH (Qmin q x)) as [H1 H2]. split; [|constructor; [|exact H2]].
    + eapply Qle_trans; [exact H1 | apply Q.le_min_l].
    + eapply Qle_trans; [exact H1 | apply Q.le_min_r].
Qed.

Lemma fold_Qmax_ge (l : list Q) (q : Q) :
  (q <= fold_left Qmax l q)%Q /\ Forall (fun x => (x <= fold_left Qmax l q)%Q) l.
Proof.
  revert q. induction l as [|x l IH]; intros q; cbn.
  - split; [apply Qle_refl | constructor].
  - destruct (IH (Qmax q x)) as [H1 H2]. split; [|constructor; [|exact H2]].
    + eapply Qle_trans; [apply Q.le_max_l | exact H1].
    + eapply Qle_trans; [apply Q.le_max_r | exact H1].
Qed.

Lemma Qlist_min_least (l : list Q) (m : Q) :
  Qlist_min l = Some m -> Forall (fun x => (m <= x)%Q) l.
Proof.
  destruct l as [|q l]; [discriminate|]. cbn. intros [= <-].
  destruct (fold_Qmin_le l q). now constructor.
Qed.

Lemma Qlist_max_greatest (l : list Q) (m : Q) :
  Qlist_max l = Some m -> Forall (fun x => (x <= m)%Q) l.
Proof.
  destruct l as [|q l]; [discriminate|]. cbn. intros [= <-].
  destruct (fold_Qmax_ge l q). now constructor.
Qed.

Lemma float_pick (c : bool) (x y : Q) :
  (if c then Fin x else Fin y) = Fin (if c then x else y).
Proof. destruct c; reflexivity. Qed.

(** The two ends of the line, for columns that hold at least one number
    each. *)
Lemma limits_of_numbers (xs ys : list cell) (xmin ymin xmax ymax : Q) :
  forallb is_finite xs = true -> forallb is_finite ys = true ->
  Qlist_min (numbers xs) = Some xmin -> Qlist_min (numbers ys) = Some ymin ->
  Qlist_max (numbers xs) = Some xmax -> Qlist_max (numbers ys) = Some ymax ->
  min_limit_of xs ys = float_mul (Fin (Qmin xmin ymin)) (float_literal (9 # 10))
  /\ max_limit_of xs ys = float_mul (Fin (Qmax xmax ymax)) (float_literal (11 # 10)).
Proof.
  intros Fx Fy E1 E2 E3 E4. split.
  - unfold min_limit_of. rewrite (fold_float_min _ Fx), (fold_float_min _ Fy), E1, E2.
    cbn [float_lt]. rewrite float_pick, pick_min. reflexivity.
  - unfold max_limit_of. rewrite (fold_float_max _ Fx), (fold_float_max _ Fy), E3, E4.
    cbn [float_lt]. rewrite float_pick, pick_max. reflexivity.
Qed.

Lemma Qlist_min_max_defined (l : list Q) :
  l <> [] -> exists lo hi, Qlist_min l = Some lo /\ Qlist_max l = Some hi.
Proof. destruct l; [contradiction|]. intros _. do 2 eexists. split; reflexivity. Qed.

Lemma saved_after_chart (path : string) (fig : Figure) (st : pystate) :
  saved_artists (chart_effect path fig st) (plt.savefig_target path) = Some (fig_artists fig).
Proof.
  unfold saved_artists, chart_effect. cbn [files log_event set_files].
  now rewrite lookup_insert_eq.
Qed.

(** What a chart that went through its last two steps has left behind. *)
Lemma finished_chart (w : world) (st : pystate) (g : Figure) (a : artist)
    (path : string) (fig : Figure) (p : string) (st' : pystate) :
  draw_then w st g a (finish_chart w path fig st) = (Ok p, st') ->
  seaborn_refuses w (with_figure g st) a = None
  /\ savefig_refuses w (with_figure fig st) path 300 = None
  /\ p = path /\ st' = chart_effect path fig st.
Proof.
  unfold draw_then, finish_chart.
  destruct (seaborn_refuses w (with_figure g st) a); [discriminate|].
  destruct (savefig_refuses w (with_figure fig st) path 300); [discriminate|].
  intros [= <- <-]. auto.
Qed.

Lemma chart_goes_through (w : world) (st : pystate) (g : Figure) (a : artist)
    (path : string) (fig : Figure) :
  seaborn_refuses w (with_figure g st) a = None ->
  savefig_refuses w (with_figure fig st) path 300 = None ->
  draw_then w st g a (finish_chart w path fig st) = (Ok path, chart_effect path fig st).
Proof. intros H1 H2. unfold draw_then, finish_chart. now rewrite H1, H2. Qed.

Section ScatterLine.

Variable w : world.
Variable path_of : Plotter -> string -> string.

Lemma scatter_line_spec (self : Plotter) (df : DataFrame) (x y : string) (st : pystate) :
  has_column df x = true -> has_column df y = true ->
  finite_column df x = true -> finite_column df y = true ->
  let title := "Scatter plot " +:+ x +:+ " vs " +:+ y in
  let lo := min_limit_of (column_values df x) (column_values df y) in
  let hi := max_limit_of (column_values df x) (column_values df y) in
  let line := PltPlot [lo; hi] [lo; hi] "r--" 1 1 in
  let points := SnsScatterplot x y df 2 in
  draw_scatterplot w (save_with w path_of) self df x y true st
  = draw_then w st (mkFigure title x y [line]) points
      (finish_chart w (path_of self title) (mkFigure title x y [line; points]) st).
Proof.
  intros Hx Hy Fx Fy. cbn zeta. rewrite draw_scatterplot_spec. cbn zeta.
  unfold scatter_underlay. rewrite (reference_limits_finite df x y Hx Hy Fx Fy).
  cbn [and_then]. now rewrite Hx, Hy.
Qed.

Lemma scatter_line_saved (self : Plotter) (df : DataFrame) (x y : string) (st : pystate)
    (lo hi : pyfloat) :
  has_column df x = true -> has_column df y = true ->
  finite_column df x = true -> finite_column df y = true ->
  min_limit_of (column_values df x) (column_values df y) = lo ->
  max_limit_of (column_values df x) (column_values df y) = hi ->
  let title := "Scatter plot " +:+ x +:+ " vs " +:+ y in
  let line := PltPlot [lo; hi] [lo; hi] "r--" 1 1 in
  let points := SnsScatterplot x y df 2 in
  (forall path st',
      draw_scatterplot w (save_with w path_of) self df x y true st = (Ok path, st') ->
      path = path_of self title
      /\ saved_artists st' (plt.savefig_target path) = Some [line; points])
  /\ (seaborn_refuses w (with_figure (mkFigure title x y [line]) st) points = None ->
      savefig_refuses w (with_figure (mkFigure title x y [line; points]) st)
        (path_of self title) 300 = None ->
      exists st',
        draw_scatterplot w (save_with w path_of) self df x y true st
        = (Ok (path_of self title), st')).
Proof.
  intros Hx Hy Fx Fy <- <-. cbn zeta. rewrite (scatter_line_spec self df x y st Hx Hy Fx Fy).
  cbn zeta. split.
  - intros path st' H. apply finished_chart in H as (_ & _ & -> & ->).
    split; [reflexivity|]. apply saved_after_chart.
  - intros H1 H2. rewrite (chart_goes_through _ _ _ _ _ _ H1 H2). eauto.
Qed.

End ScatterLine.

Lemma double_is_finite (df : DataFrame) (c : string) :
  double_column df c = true -> finite_column df c = true.
Proof.
  unfold double_column, finite_column. generalize (column_values df c).
  induction l as [|x l IH]; [reflexivity|]. cbn [forallb]. intros H.
  apply andb_prop in H as [Hx Hl]. rewrite (IH Hl).
  destruct x as [[q| |b]|s]; try discriminate; reflexivity.
Qed.

(** C8. For a table whose columns [x] and [y] hold doubles, with at
    least one number in each (missing entries are skipped), the scatter plot
    with the reference line draws a dashed line from [(lo, lo)] to
    [(hi, hi)], where [lo] is the smaller of the two column minima times 0.9
    and [hi] the larger of the two column maxima times 1.1, both products
    taken in double arithmetic; the line is drawn beneath the points (order
    1 against order 2).  Whenever the operation returns, the saved chart
    holds that line and the points; and it returns when seaborn accepts the
    points and matplotlib the save.  In both variants. *)
Theorem scatter_reference_line (w : world) (self : Plotter) (df : DataFrame) (x y : string)
    (st : pystate)
    (Hx : has_column df x = true) (Hy : has_column df y = true)
    (Dx : double_column df x = true) (Dy : double_column df y = true)
    (Nx : numbers (column_values df x) <> [])
    (Ny : numbers (column_values df y) <> []) :
  exists xmin ymin xmax ymax,
    Qlist_min (numbers (column_values df x)) = Some xmin
    /\ Qlist_min (numbers (column_values df y)) = Some ymin
    /\ Qlist_max (numbers (column_values df x)) = Some xmax
    /\ Qlist_max (numbers (column_values df y)) = Some ymax
    /\ let lo := float_mul (Fin (Qmin xmin ymin)) (float_literal (9 # 10)) in
       let hi := float_mul (Fin (Qmax xmax ymax)) (float_literal (11 # 10)) in
       let line := PltPlot [lo; hi] [lo; hi] "r--" 1 1 in
       let points := SnsScatterplot x y df 2 in
       let title := "Scatter plot " +:+ x +:+ " vs " +:+ y in
       (forall path st',
           plotter.draw_scatterplot w self df x y true st = (Ok path, st') ->
           path = extended_path self title
           /\ saved_artists st' (plt.savefig_target path) = Some [line; points])
       /\ (forall path st',
             ChartDrawer.draw_scatterplot w self df x y true st = (Ok path, st') ->
             path = basic_path self title
             /\ saved_artists st' (plt.savefig_target path) = Some [line; points])
       /\ (seaborn_refuses w (with_figure (mkFigure title x y [line]) st) points = None ->
           (savefig_refuses w (with_figure (mkFigure title x y [line; points]) st)
              (extended_path self title) 300 = None ->
            exists st',
              plotter.draw_scatterplot w self df x y true st
              = (Ok (extended_path self title), st'))
           /\ (savefig_refuses w (with_figure (mkFigure title x y [line; points]) st)
                 (basic_path self title) 300 = None ->
               exists st',
                 ChartDrawer.draw_scatterplot w self df x y true st
                 = (Ok (basic_path self title), st')))
       /\ artist_zorder line = Some 1
       /\ artist_zorder points = Some 2
       /\ (1 < 2)%Z.
Proof.
  pose proof (double_is_finite df x Dx) as Fx. pose proof (double_is_finite df y Dy) as Fy.
  destruct (Qlist_min_max_defined _ Nx) as (xmin & xmax & E1 & E3).
  destruct (Qlist_min_max_defined _ Ny) as (ymin & ymax & E2 & E4).
  destruct (limits_of_numbers _ _ _ _ _ _ Fx Fy E1 E2 E3 E4) as [Elo Ehi].
  exists xmin, ymin, xmax, ymax.
  split; [exact E1|]. split; [exact E2|]. split; [exact E3|]. split; [exact E4|].
  cbn zeta.
  destruct (scatter_line_saved w extended_path self df x y st _ _ Hx Hy Fx Fy Elo Ehi)
    as [Se Le].
  destruct (scatter_line_saved w basic_path self df x y st _ _ Hx Hy Fx Fy Elo Ehi)
    as [Sb Lb].
  split; [exact Se|]. split; [exact Sb|].
  split; [intros Hdraw; split; [apply Le | apply Lb]; exact Hdraw|].
  split; [reflexivity|]. split; [reflexivity|]. reflexivity.
Qed.

Lemma scatter_reference_line_witness :
  exists lo hi st',
    plotter.draw_scatterplot (Sample.serving Sample.table) (mkPlotter "plots") Sample.table
      "gt_corners" "rb_corners" true Sample.ready
    = (Ok "plots/Scatter_plot_gt_corners_vs_rb_corners.png", st')
    /\ saved_artists st' "plots/Scatter_plot_gt_corners_vs_rb_corners.png"
       = Some [PltPlot [lo; hi] [lo; hi] "r--" 1 1;
               SnsScatterplot "gt_corners" "rb_corners" Sample.table 2]
    /\ lo = float_mul (Fin 4) (float_literal (9 # 10))
    /\ hi = float_mul (Fin 8) (float_literal (11 # 10))
    /\ float_mul (Fin 3) (float_literal (11 # 10))
       = Fin (7430939385161319 # 2251799813685248).
Proof.
  destruct (scatter_reference_line (Sample.serving Sample.table) (mkPlotter "plots")
              Sample.table "gt_corners" "rb_corners" Sample.ready
              eq_refl eq_refl eq_refl eq_refl ltac:(discriminate) ltac:(discriminate))
    as (xmin & ymin & xmax & ymax & E1 & E2 & E3 & E4 & Hsaved & _ & Hlive & _).
  cbn in E1, E2, E3, E4.
  injection E1 as <-. injection E2 as <-. injection E3 as <-. injection E4 as <-.
  destruct (proj1 (Hlive eq_refl) eq_refl) as [st' Hrun].
  destruct (Hsaved _ _ Hrun) as [_ Hfile].
  exists (float_mul (Fin (Qmin 4 4)) (float_literal (9 # 10))),
         (float_mul (Fin (Qmax 8 8)) (float_literal (11 # 10))), st'.
  split; [exact Hrun|]. split; [exact Hfile|].
  split; [reflexivity|]. split; reflexivity.
Defined.

(** * Sorting *)

Lemma in_firstn_in {B : Type} (n : nat) (l : list B) (x : B) : In x (firstn n l) -> In x l.
Proof. intros H. rewrite <- (firstn_skipn n l). apply in_or_app. now left. Qed.

Lemma in_skipn_in {B : Type} (n : nat) (l : list B) (x : B) : In x (skipn n l) -> In x l.
Proof. intros H. rewrite <- (firstn_skipn n l). apply in_or_app. now right. Qed.

Section Sorting.

Context {A : Type}.
Variable leb : A -> A -> bool.

(** The elements the order is total and transitive on. *)
Variable domain : A -> Prop.
Hypothesis leb_total : forall a b, domain a -> domain b -> leb a b = false -> leb b a = true.
Hypothesis leb_trans : forall a b c, domain a -> domain b -> domain c ->
  leb a b = true -> leb b c = true -> leb a c = true.

Lemma insert_by_Permutation (x : A) (l : list A) : Permutation (insert_by leb x l) (x :: l).
Proof.
  induction l as [|y l IH]; cbn; [reflexivity|].
  destruct (leb x y); [reflexivity|].
  rewrite IH. apply perm_swap.
Qed.

Lemma sort_by_Permutation (l : list A) : Permutation (sort_by leb l) l.
Proof.
  induction l as [|x l IH]; cbn; [reflexivity|].
  rewrite insert_by_Permutation. now constructor.
Qed.

Lemma insert_by_sorted (x : A) (l : list A) :
  domain x -> Forall domain l ->
  StronglySorted (fun a b => leb a b = true) l ->
  StronglySorted (fun a b => leb a b = true) (insert_by leb x l).
Proof.
  intros Hx Hl Hs. induction Hs as [|y l Hs IH Hy]; cbn.
  - repeat constructor.
  - apply Forall_cons_1 in Hl as [Dy Dl].
    destruct (leb x y) eqn:E.
    + constructor; [constructor; assumption|].
      constructor; [exact E|].
      rewrite List.Forall_forall in Hy, Dl |- *. intros z Hz.
      apply (leb_trans x y z); auto.
    + constructor; [auto|].
      rewrite List.Forall_forall in Hy |- *. intros z Hz.
      apply (Permutation_in _ (insert_by_Permutation x l)) in Hz.
      destruct Hz as [<-|Hz]; [apply leb_total; assumption | auto].
Qed.

Lemma sort_by_sorted (l : list A) :
  Forall domain l -> StronglySorted (fun a b => leb a b = true) (sort_by leb l).
Proof.
  induction l as [|x l IH]; cbn; intros H; [constructor|].
  apply Forall_cons_1 in H as [Hx Hl].
  apply insert_by_sorted; auto.
  rewrite List.Forall_forall in Hl |- *. intros z Hz. apply Hl.
  exact (Permutation_in _ (sort_by_Permutation l) Hz).
Qed.

(** In a sorted list, what comes first is below what comes after. *)
Lemma sorted_firstn_skipn (l : list A) (n : nat) (a b : A) :
  StronglySorted (fun a b => leb a b = true) l ->
  In a (firstn n l) -> In b (skipn n l) -> leb a b = true.
Proof.
  intros Hs. revert n. induction Hs as [|y l Hs IH Hy]; intros n Ha Hb.
  - destruct n; contradiction.
  - destruct n as [|n]; [contradiction|]. cbn in Ha, Hb.
    destruct Ha as [<-|Ha]; [|eauto].
    rewrite List.Forall_forall in Hy. apply Hy.
    rewrite <- (firstn_skipn n l). apply in_or_app. now right.
Qed.

End Sorting.

Lemma row_leb_total (c : string) (a b : row) :
  has_number c a -> has_number c b ->
  cell_leb (row_get a c) (row_get b c) = false ->
  cell_leb (row_get b c) (row_get a c) = true.
Proof.
  intros [x Hx] [y Hy]. rewrite Hx, Hy. cbn. intros H.
  apply Qle_bool_iff. apply Qlt_le_weak. apply Qnot_le_lt.
  intros Hle. apply Qle_bool_iff in Hle. congruence.
Qed.

Lemma row_leb_trans (c : string) (a b d : row) :
  has_number c a -> has_number c b -> has_number c d ->
  cell_leb (row_get a c) (row_get b c) = true ->
  cell_leb (row_get b c) (row_get d c) = true ->
  cell_leb (row_get a c) (row_get d c) = true.
Proof.
  intros [x Hx] [y Hy] [z Hz]. rewrite Hx, Hy, Hz. cbn.
  rewrite !Qle_bool_iff. apply Qle_trans.
Qed.

Lemma row_leb_key_le (c : string) (a b : row) :
  has_number c a -> has_number c b ->
  cell_leb (row_get a c) (row_get b c) = true -> key_le c a b.
Proof.
  intros [x Hx] [y Hy] H. exists x, y. rewrite Hx, Hy in H. cbn in H.
  apply Qle_bool_iff in H. auto.
Qed.

Lemma number_column_rows (df : DataFrame) (c : string) :
  number_column df c = true -> Forall (has_number c) (rows df).
Proof.
  unfold number_column, column_values. intros H.
  rewrite forallb_forall in H. apply List.Forall_forall. intros r Hr.
  specialize (H (row_get r c) (in_map _ _ _ Hr)). unfold has_number.
  destruct (row_get r c) as [[q| |b]|s]; try discriminate. now exists q.
Qed.

Lemma number_column_finite (df : DataFrame) (c : string) :
  number_column df c = true -> finite_column df c = true.
Proof.
  unfold number_column, finite_column. generalize (column_values df c).
  induction l as [|x l IH]; [reflexivity|]. cbn. intros H.
  apply andb_prop in H as [Hx Hl]. rewrite (IH Hl).
  destruct x as [[q| |b]|s]; try discriminate; reflexivity.
Qed.

Lemma filter_all {B : Type} (p : B -> bool) (l : list B) :
  forallb p l = true -> List.filter p l = l.
Proof.
  induction l as [|x l IH]; [reflexivity|]. cbn. intros H.
  apply andb_prop in H as [Hx Hl]. rewrite Hx. f_equal. auto.
Qed.

Lemma filter_none {B : Type} (p : B -> bool) (l : list B) :
  forallb (fun x => negb (p x)) l = true -> List.filter p l = [].
Proof.
  induction l as [|x l IH]; [reflexivity|]. cbn. intros H.
  apply andb_prop in H as [Hx Hl]. apply negb_true_iff in Hx. rewrite Hx. auto.
Qed.

Lemma map_filter_key (key : row -> cell) (p : cell -> bool) (rs : list row) :
  map key (List.filter (fun r => p (key r)) rs) = List.filter p (map key rs).
Proof.
  induction rs as [|r rs IH]; [reflexivity|]. cbn.
  destruct (p (key r)); cbn; now rewrite IH.
Qed.

Lemma filter_keeps_floats (p : cell -> bool) (cs : list cell) :
  forallb is_float cs = true -> forallb is_float (List.filter p cs) = true.
Proof.
  induction cs as [|c cs IH]; [reflexivity|]. cbn. intros H.
  apply andb_prop in H as [Hc Hcs]. destruct (p c); cbn; [rewrite Hc|]; auto.
Qed.

Lemma present_rows_have_numbers (df : DataFrame) (c : string) :
  finite_column df c = true ->
  Forall (has_number c) (present_rows df c).
Proof.
  unfold finite_column, column_values, present_rows. intros H.
  apply List.Forall_forall. intros r Hr. apply filter_In in Hr as [Hr Hn].
  rewrite forallb_forall in H. specialize (H _ (in_map _ _ _ Hr)). unfold has_number.
  destruct (row_get r c) as [[q| |b]|s]; try discriminate. now exists q.
Qed.

(** On a column of finite numbers and missing entries, [sort_values] orders
    the rows that have a value and puts the others after them. *)
Lemma sort_values_finite (df : DataFrame) (c : string) (ascending : bool) :
  has_column df c = true -> finite_column df c = true ->
  sort_values df c ascending
  = Ok (mkDataFrame (columns df)
          ((let leb := fun a b => cell_leb (row_get a c) (row_get b c) in
            if ascending then sort_by leb (present_rows df c)
            else rev (sort_by leb (rev (present_rows df c))))
           ++ missing_rows df c)).
Proof.
  intros Hc Hf. unfold sort_values. rewrite Hc. cbn [negb].
  rewrite (map_filter_key (fun r => row_get r c) (fun k => negb (is_nan k))).
  unfold finite_column, column_values in Hf.
  rewrite (filter_keeps_floats _ _ (finite_is_float _ Hf)). reflexivity.
Qed.

Lemma number_column_present (df : DataFrame) (c : string) :
  number_column df c = true -> present_rows df c = rows df /\ missing_rows df c = [].
Proof.
  intros Hn.
  assert (Hall : forallb (fun r => negb (is_nan (row_get r c))) (rows df) = true).
  { unfold number_column, column_values in Hn. rewrite forallb_forall in Hn |- *.
    intros r Hr. specialize (Hn _ (in_map _ _ _ Hr)).
    destruct (row_get r c) as [[q| |b]|s]; try discriminate; reflexivity. }
  split.
  - apply filter_all. exact Hall.
  - apply (filter_none (fun r => is_nan (row_get r c))). exact Hall.
Qed.

(** On a column of numbers, [sort_values] sorts all the rows. *)
Lemma sort_values_numbers (df : DataFrame) (c : string) (ascending : bool) :
  has_column df c = true -> number_column df c = true ->
  sort_values df c ascending
  = Ok (mkDataFrame (columns df)
          (let leb := fun a b => cell_leb (row_get a c) (row_get b c) in
           if ascending then sort_by leb (rows df)
           else rev (sort_by leb (rev (rows df))))).
Proof.
  intros Hc Hn. rewrite (sort_values_finite df c ascending Hc (number_column_finite _ _ Hn)).
  destruct (number_column_present df c Hn) as [-> ->]. cbn zeta. now rewrite app_nil_r.
Qed.

(** * The top and bottom bar charts *)

Lemma ascending_selects_smallest (c : string) (n : nat) (rs : list row) :
  Forall (has_number c) rs ->
  smallest_rows c n rs
    (firstn n (sort_by (fun a b => cell_leb (row_get a c) (row_get b c)) rs)).
Proof.
  intros Hrs. set (leb := fun a b => cell_leb (row_get a c) (row_get b c)).
  pose proof (sort_by_Permutation leb rs) as Hperm.
  exists (skipn n (sort_by leb rs)). split; [|split].
  - rewrite firstn_skipn. now symmetry.
  - rewrite length_firstn. now rewrite (Permutation_length Hperm).
  - intros r r' Hr Hr'.
    assert (Hsorted := sort_by_sorted leb (has_number c)
                         (row_leb_total c) (row_leb_trans c) rs Hrs).
    rewrite List.Forall_forall in Hrs.
    apply row_leb_key_le.
    + apply Hrs. apply (Permutation_in _ Hperm). eapply in_firstn_in; exact Hr.
    + apply Hrs. apply (Permutation_in _ Hperm). eapply in_skipn_in; exact Hr'.
    + exact (sorted_firstn_skipn leb _ n r r' Hsorted Hr Hr').
Qed.

Lemma descending_selects_largest (c : string) (n : nat) (rs : list row) :
  Forall (has_number c) rs ->
  largest_rows c n rs
    (firstn n (rev (sort_by (fun a b => cell_leb (row_get a c) (row_get b c)) (rev rs)))).
Proof.
  intros Hrs. set (leb := fun a b => cell_leb (row_get a c) (row_get b c)).
  set (s := sort_by leb (rev rs)).
  assert (Hperm : Permutation s rs).
  { unfold s. rewrite sort_by_Permutation. symmetry. apply Permutation_rev. }
  assert (Hrev : Forall (has_number c) (rev rs)).
  { rewrite List.Forall_forall in Hrs |- *. intros r Hr. apply Hrs. now apply in_rev. }
  assert (Hsorted := sort_by_sorted leb (has_number c)
                       (row_leb_total c) (row_leb_trans c) (rev rs) Hrev).
  fold s in Hsorted.
  exists (skipn n (rev s)). split; [|split].
  - rewrite firstn_skipn. rewrite <- Hperm. apply Permutation_rev.
  - rewrite length_firstn, length_rev. now rewrite (Permutation_length Hperm).
  - intros r r' Hr Hr'.
    rewrite firstn_rev in Hr. rewrite skipn_rev in Hr'.
    apply in_rev in Hr. apply in_rev in Hr'.
    rewrite List.Forall_forall in Hrs.
    apply row_leb_key_le.
    + apply Hrs. apply (Permutation_in _ Hperm). eapply in_firstn_in; exact Hr'.
    + apply Hrs. apply (Permutation_in _ Hperm). eapply in_skipn_in; exact Hr.
    + exact (sorted_firstn_skipn leb _ _ r' r Hsorted Hr' Hr).
Qed.

Lemma head_of_nat (n : nat) (df : DataFrame) :
  df_head (Z.of_nat n) df = mkDataFrame (columns df) (firstn n (rows df)).
Proof.
  unfold df_head. destruct (Z.leb_spec 0 (Z.of_nat n)); [|lia].
  now rewrite Nat2Z.id.
Qed.

Lemma sorted_head_selection (df : DataFrame) (c : string) (n : nat) (top : bool) :
  has_column df c = true -> number_column df c = true ->
  exists sorted,
    sort_values df c top = Ok sorted
    /\ columns (df_head (Z.of_nat n) sorted) = columns df
    /\ (if top then smallest_rows c n (rows df) (rows (df_head (Z.of_nat n) sorted))
        else largest_rows c n (rows df) (rows (df_head (Z.of_nat n) sorted))).
Proof.
  intros Hc Hn. eexists. split; [apply sort_values_numbers; assumption|].
  rewrite head_of_nat. cbn [columns rows]. split; [reflexivity|].
  pose proof (number_column_rows df c Hn) as Hrows.
  destruct top.
  - now apply ascending_selects_smallest.
  - now apply descending_selects_largest.
Qed.

Section BarCharts.

Variable w : world.
Variable path_of : Plotter -> string -> string.

(** A bar chart that returns has saved the bars of the first rows of the
    sorted table; and it returns when the table can be sorted and has a
    [name] column, seaborn accepts the bars and matplotlib the save. *)
Lemma bar_chart_returns (self : Plotter) (df : DataFrame) (column : string) (cnt : Z)
    (top : bool) (st : pystate) (p : string) (st' : pystate) :
  draw_top_bottom_data w (save_with w path_of) self df column cnt top st = (Ok p, st') ->
  let title := "Top " +:+ pretty cnt +:+ " " +:+ (if top then "best" else "worst")
               +:+ " results for " +:+ column in
  exists sorted,
    sort_values df column top = Ok sorted
    /\ has_column df "name" = true
    /\ p = path_of self title
    /\ st' = chart_effect (path_of self title)
               (mkFigure title "Degrees" "" [SnsBarplot column "name" (df_head cnt sorted)]) st.
Proof.
  rewrite draw_top_bottom_data_spec. cbn zeta.
  destruct (sort_values df column top) as [sorted|e]; [|discriminate].
  destruct (has_column df "name"); [|discriminate].
  intros H. apply finished_chart in H as (_ & _ & -> & ->). eauto.
Qed.

Lemma bar_chart_goes_through (self : Plotter) (df sorted : DataFrame) (column : string)
    (cnt : Z) (top : bool) (st : pystate) :
  let title := "Top " +:+ pretty cnt +:+ " " +:+ (if top then "best" else "worst")
               +:+ " results for " +:+ column in
  let bars := SnsBarplot column "name" (df_head cnt sorted) in
  sort_values df column top = Ok sorted ->
  has_column df "name" = true ->
  seaborn_refuses w (with_figure empty_figure st) bars = None ->
  savefig_refuses w (with_figure (mkFigure title "Degrees" "" [bars]) st)
    (path_of self title) 300 = None ->
  draw_top_bottom_data w (save_with w path_of) self df column cnt top st
  = (Ok (path_of self title),
     chart_effect (path_of self title) (mkFigure title "Degrees" "" [bars]) st).
Proof.
  cbn zeta. intros Hsort Hname H1 H2.
  rewrite draw_top_bottom_data_spec. cbn zeta. rewrite Hsort, Hname.
  exact (chart_goes_through _ _ _ _ _ _ H1 H2).
Qed.

End BarCharts.

(** How a batch that completes ran: each operation returned, in turn. *)
Lemma append_bind_ok {A : Type} (m : M pystate A) (rest : M (list A * pystate) unit)
    (l l' : list A) (st st' : pystate) :
  (append_local m ;; rest) (l, st) = (Ok tt, (l', st')) ->
  exists a s1, m st = (Ok a, s1) /\ rest (l ++ [a], s1) = (Ok tt, (l', st')).
Proof.
  unfold bind, append_local. cbn [fst snd].
  destruct (m st) as [[a|e] s1]; [|discriminate]. eauto.
Qed.

Lemma append_ok {A : Type} (m : M pystate A) (l l' : list A) (st st' : pystate) :
  append_local m (l, st) = (Ok tt, (l', st')) ->
  exists a, m st = (Ok a, st') /\ l' = l ++ [a].
Proof.
  unfold append_local. cbn [fst snd].
  destruct (m st) as [[a|e] s1]; [|discriminate]. intros [= <- <-]. eauto.
Qed.

(** The skeleton of [draw_plots], which the two variants share: how a call
    that got to its [try] block ran. *)
Lemma draw_plots_cases
    (draw : world -> Plotter -> string -> M pystate (list string))
    (body : world -> Plotter -> DataFrame -> M (list string * pystate) unit) :
  (forall w self url,
      draw w self url
      = (ok <- __check_url w self url ;;
         if negb ok then print "URL is not accessible" None ;; ret []
         else
           loaded <- try_except
                       (df <- pd_read_json w url ;; ret (Some df))
                       [(is_ValueError,
                         fun e => print "Failed to read JSON: " (Some e) ;; ret None);
                        (is_Exception,
                         fun e => print "An error occurred: " (Some e) ;; ret None)] ;;
           match loaded with
           | None => ret []
           | Some df =>
               with_local []
                 (try_except (body w self df)
                    [(is_KeyError,
                      fun e => on_state (print "Failed to draw plot: " (Some e)))] ;;
                  get_local)
           end)) ->
  forall w self url st r st',
    draw w self url st = (r, st') ->
    (r = Ok [] /\ figures st' = figures st /\ files st' = files st)
    \/ ((exists e, r = Raise e) /\ figures st' = figures st /\ files st' = files st)
    \/ (exists df,
          fst (__check_url w self url st) = Ok true
          /\ json_table w url = Ok df
          /\ with_local []
               (try_except (body w self df)
                  [(is_KeyError,
                    fun e => on_state (print "Failed to draw plot: " (Some e)))] ;;
                get_local)
               (log_event (EvReadJson url) (log_event (EvHead url 5) st)) = (r, st')).
Proof.
  intros Hdraw w self url st r st' H. rewrite Hdraw in H.
  unfold bind at 1 in H.
  pose proof (check_url_spec w self url st) as Hspec. cbn zeta in Hspec.
  destruct (http_head w url) as [status|e].
  - destruct ((400 <=? status) && (status <? 600))%Z eqn:Hstatus.
    + rewrite Hspec in H. cbn in H. injection H as <- <-. left. auto.
    + assert (Hcheck : fst (__check_url w self url st) = Ok true) by now rewrite Hspec.
      rewrite Hspec in H. cbn [negb] in H. unfold bind at 1 in H.
      unfold try_except, pd_read_json, bind, modify, lift, ret in H.
      destruct (json_table w url) as [df|e].
      * right. right. exists df. auto.
      * destruct e; cbn in H; injection H as <- <-; left; auto.
  - rewrite Hspec in H. destruct (is_RequestException e); cbn in H; injection H as <- <-.
    + left. auto.
    + right. left. eauto.
Qed.

Lemma extended_draw_plots_eq (w : world) (self : Plotter) (url : string) :
  plotter.draw_plots w self url
  = (ok <- __check_url w self url ;;
     if negb ok then print "URL is not accessible" None ;; ret []
     else
       loaded <- try_except
                   (df <- pd_read_json w url ;; ret (Some df))
                   [(is_ValueError,
                     fun e => print "Failed to read JSON: " (Some e) ;; ret None);
                    (is_Exception,
                     fun e => print "An error occurred: " (Some e) ;; ret None)] ;;
       match loaded with
       | None => ret []
       | Some df =>
           with_local []
             (try_except (plotter.draw_plots_body w self df
                            ["floor_min"; "floor_mean"; "floor_max"]
                            ["ceiling_min"; "ceiling_mean"; "ceiling_max"])
                [(is_KeyError,
                  fun e => on_state (print "Failed to draw plot: " (Some e)))] ;;
              get_local)
       end).
Proof. reflexivity. Qed.

Lemma basic_draw_plots_eq (w : world) (self : Plotter) (url : string) :
  ChartDrawer.draw_plots w self url
  = (ok <- __check_url w self url ;;
     if negb ok then print "URL is not accessible" None ;; ret []
     else
       loaded <- try_except
                   (df <- pd_read_json w url ;; ret (Some df))
                   [(is_ValueError,
                     fun e => print "Failed to read JSON: " (Some e) ;; ret None);
                    (is_Exception,
                     fun e => print "An error occurred: " (Some e) ;; ret None)] ;;
       match loaded with
       | None => ret []
       | Some df =>
           with_local []
             (try_except (ChartDrawer.draw_plots_body w self df)
                [(is_KeyError,
                  fun e => on_state (print "Failed to draw plot: " (Some e)))] ;;
              get_local)
       end).
Proof. reflexivity. Qed.

(** A call of the basic variant that returns its nine paths read a table
    and ran its [try] block to the end. *)
Lemma basic_complete_run (w : world) (self : Plotter) (url : string) (st st' : pystate)
    (paths : list string) :
  ChartDrawer.draw_plots w self url st = (Ok paths, st') ->
  length paths = 9%nat ->
  exists df,
    fst (__check_url w self url st) = Ok true
    /\ json_table w url = Ok df
    /\ ChartDrawer.draw_plots_body w self df
         ([], log_event (EvReadJson url) (log_event (EvHead url 5) st))
       = (Ok tt, (paths, st')).
Proof.
  intros H L.
  destruct (draw_plots_cases ChartDrawer.draw_plots ChartDrawer.draw_plots_body
              basic_draw_plots_eq w self url st _ _ H)
    as [([= ->] & _)|[([e [=]] & _)|(df & Hc & Hj & Hrun)]]; [discriminate|].
  exists df. split; [exact Hc|]. split; [exact Hj|].
  destruct (batch_handler_cases _ _ _ _ Hrun)
    as [(l & E & [= ->])|[(e & l & s1 & E & _ & [= ->] & _)|(e & l & _ & _ & [=])]].
  - exact E.
  - apply (basic_body_extends w self df) in E. cbn in E. destruct E as (k & Hk & ->).
    rewrite length_firstn in L. cbn in Hk, L. lia.
Qed.

(** In the batch of the basic variant, the two bar charts are drawn from
    column [mean] with ten rows each. *)
Lemma basic_batch_bar_charts (w : world) (url : string) (df : DataFrame)
    (st st' : pystate) (paths : list string) :
  ChartDrawer.draw_plots w (mkPlotter "plots") url st = (Ok paths, st') ->
  length paths = 9%nat ->
  json_table w url = Ok df ->
  number_column df "mean" = true ->
  exists best worst,
    saved_artists st' "plots/Top 10 best results for mean.png"
    = Some [SnsBarplot "mean" "name" best]
    /\ smallest_rows "mean" 10 (rows df) (rows best)
    /\ saved_artists st' "plots/Top 10 worst results for mean.png"
       = Some [SnsBarplot "mean" "name" worst]
    /\ largest_rows "mean" 10 (rows df) (rows worst).
Proof.
  intros Hrun L Hj Hn.
  destruct (basic_complete_run _ _ _ _ _ _ Hrun L) as (df' & _ & Hj' & Hbody).
  rewrite Hj in Hj'. injection Hj' as <-.
  unfold ChartDrawer.draw_plots_body in Hbody.
  do 7 (apply append_bind_ok in Hbody as (? & ? & _ & Hbody)).
  apply append_bind_ok in Hbody as (p8 & s8 & H8 & Hbody).
  apply append_ok in Hbody as (p9 & H9 & _).
  apply (bar_chart_returns w basic_path) in H8 as (asc & Hasc & _ & _ & ->).
  apply (bar_chart_returns w basic_path) in H9 as (desc & Hdesc & _ & _ & ->).
  assert (Hmean : has_column df "mean" = true)
    by (destruct (sort_values_columns _ _ _ _ Hasc); assumption).
  destruct (sorted_head_selection df "mean" 10 true Hmean Hn) as (s1 & E1 & _ & Hbest).
  destruct (sorted_head_selection df "mean" 10 false Hmean Hn) as (s2 & E2 & _ & Hworst).
  rewrite Hasc in E1. injection E1 as <-. rewrite Hdesc in E2. injection E2 as <-.
  exists (df_head 10 asc), (df_head 10 desc).
  split; [|split; [exact Hbest|split; [|exact Hworst]]].
  - unfold saved_artists, chart_effect. cbn [files log_event set_files].
    rewrite lookup_insert_ne by (intros E; vm_compute in E; discriminate).
    change (plt.savefig_target (basic_path (mkPlotter "plots") _))
      with "plots/Top 10 best results for mean.png".
    now rewrite lookup_insert_eq.
  - unfold saved_artists, chart_effect. cbn [files log_event set_files].
    change (plt.savefig_target (basic_path (mkPlotter "plots") _))
      with "plots/Top 10 worst results for mean.png" at 1.
    now rewrite lookup_insert_eq.
Qed.

(** C2, as amended.  On a table whose column holds numbers,
    [draw_top_bottom_data] passes [top] as the sort's [ascending]: with
    [top = true] (the "best" chart) the chart it saves holds the [n] rows
    with the smallest values, with [top = false] (the "worst" chart) the [n]
    rows with the largest, each row carrying its own [name], which labels
    the bar.  This is what the saved chart holds whenever the operation
    returns, and it returns when the table has a [name] column, seaborn
    accepts the bars and matplotlib the save.  Whenever the batch of the
    basic variant returns its nine paths, the files of its last two charts
    hold the ten rows with the smallest and with the largest [mean]. *)
Theorem top_bottom_selection (w : world) (self : Plotter) (df : DataFrame) (column : string)
    (n : nat) (st : pystate)
    (Hcol : has_column df column = true)
    (Hnum : number_column df column = true) :
  (forall top : bool,
      let title := "Top " +:+ pretty (Z.of_nat n) +:+ " " +:+ (if top then "best" else "worst")
                   +:+ " results for " +:+ column in
      exists data,
        columns data = columns df
        /\ (if top then smallest_rows column n (rows df) (rows data)
            else largest_rows column n (rows df) (rows data))
        /\ (forall path st',
               plotter.draw_top_bottom_data w self df column (Z.of_nat n) top st
               = (Ok path, st') ->
               path = extended_path self title
               /\ saved_artists st' (plt.savefig_target path)
                  = Some [SnsBarplot column "name" data])
        /\ (forall path st',
               ChartDrawer.draw_top_bottom_data w self df column (Z.of_nat n) top st
               = (Ok path, st') ->
               path = basic_path self title
               /\ saved_artists st' (plt.savefig_target path)
                  = Some [SnsBarplot column "name" data])
        /\ (has_column df "name" = true ->
            seaborn_refuses w (with_figure empty_figure st) (SnsBarplot column "name" data)
            = None ->
            (savefig_refuses w
               (with_figure (mkFigure title "Degrees" "" [SnsBarplot column "name" data]) st)
               (extended_path self title) 300 = None ->
             exists st',
               plotter.draw_top_bottom_data w self df column (Z.of_nat n) top st
               = (Ok (extended_path self title), st'))
            /\ (savefig_refuses w
                  (with_figure (mkFigure title "Degrees" "" [SnsBarplot column "name" data])
                     st)
                  (basic_path self title) 300 = None ->
                exists st',
                  ChartDrawer.draw_top_bottom_data w self df column (Z.of_nat n) top st
                  = (Ok (basic_path self title), st'))))
  /\ (forall url st0 paths st',
        ChartDrawer.draw_plots w (mkPlotter "plots") url st0 = (Ok paths, st') ->
        length paths = 9%nat ->
        json_table w url = Ok df ->
        number_column df "mean" = true ->
        exists best worst,
          saved_artists st' "plots/Top 10 best results for mean.png"
          = Some [SnsBarplot "mean" "name" best]
          /\ smallest_rows "mean" 10 (rows df) (rows best)
          /\ saved_artists st' "plots/Top 10 worst results for mean.png"
             = Some [SnsBarplot "mean" "name" worst]
          /\ largest_rows "mean" 10 (rows df) (rows worst)).
Proof.
  split.
  - intros top. cbn zeta.
    destruct (sorted_head_selection df column n top Hcol Hnum) as (sorted & Hsort & Hcols & Hsel).
    exists (df_head (Z.of_nat n) sorted).
    split; [exact Hcols|]. split; [exact Hsel|].
    split; [|split].
    + intros path st' H.
      apply (bar_chart_returns w extended_path) in H as (s & Hs & _ & -> & ->).
      rewrite Hsort in Hs. injection Hs as <-.
      split; [reflexivity | apply saved_after_chart].
    + intros path st' H.
      apply (bar_chart_returns w basic_path) in H as (s & Hs & _ & -> & ->).
      rewrite Hsort in Hs. injection Hs as <-.
      split; [reflexivity | apply saved_after_chart].
    + intros Hname Hdraw. split; intros Hsave; eexists.
      * exact (bar_chart_goes_through w extended_path self df sorted column _ top st
                 Hsort Hname Hdraw Hsave).
      * exact (bar_chart_goes_through w basic_path self df sorted column _ top st
                 Hsort Hname Hdraw Hsave).
  - intros url st0 paths st'. apply basic_batch_bar_charts.
Qed.

Lemma top_bottom_selection_witness :
  exists data st',
    ChartDrawer.draw_top_bottom_data (Sample.serving Sample.table) (mkPlotter "plots")
      Sample.table "mean" (Z.of_nat 2) true Sample.ready
    = (Ok "plots/Top 2 best results for mean.png", st')
    /\ saved_artists st' "plots/Top 2 best results for mean.png"
       = Some [SnsBarplot "mean" "name" data]
    /\ smallest_rows "mean" 2 (rows Sample.table) (rows data)
    /\ map (fun r => row_get r "name") (rows data) = [Str "b"; Str "a"].
Proof.
  destruct (proj1 (top_bottom_selection (Sample.serving Sample.table) (mkPlotter "plots")
                     Sample.table "mean" 2 Sample.ready eq_refl eq_refl) true)
    as (data & _ & Hsel & _ & Hsaved & Hlive).
  destruct (proj2 (Hlive eq_refl eq_refl) eq_refl) as [st' Hrun].
  destruct (Hsaved _ _ Hrun) as [_ Hfile].
  exists data, st'. split; [exact Hrun|]. split; [exact Hfile|]. split; [exact Hsel|].
  vm_compute in Hrun. injection Hrun as <-. vm_compute in Hfile.
  injection Hfile as <-. reflexivity.
Defined.

(** C2 as the specification words it fails: with [top = true] and [n = 1]
    the chart of the sample table holds room [b], whose mean 1/2 is the
    smallest, while room [a] with mean 3/2 is left out. *)
Lemma best_chart_holds_smallest_not_largest :
  ~ best_chart_holds_largest (Sample.serving Sample.table) (mkPlotter "plots") Sample.table
      "mean" 1 Sample.ready.
Proof.
  intros H.
  assert (E : ChartDrawer.draw_top_bottom_data (Sample.serving Sample.table)
                (mkPlotter "plots") Sample.table "mean" (Z.of_nat 1) true Sample.ready
              = (Ok "plots/Top 1 best results for mean.png",
                 snd (ChartDrawer.draw_top_bottom_data (Sample.serving Sample.table)
                        (mkPlotter "plots") Sample.table "mean" (Z.of_nat 1) true
                        Sample.ready)))
    by (vm_compute; reflexivity).
  destruct (H _ _ E) as (selected & Hsel & rest & Hperm & _ & Hle).
  vm_compute in Hsel. injection Hsel as <-.
  assert (Ha : In Sample.room_a ([Sample.room_b] ++ rest)).
  { apply (Permutation_in _ Hperm). left. reflexivity. }
  destruct Ha as [Ha|Ha]; [discriminate|].
  destruct (Hle Sample.room_b Sample.room_a (or_introl eq_refl) Ha) as (q & q' & Hq & Hq' & Hqq).
  cbn in Hq, Hq'. injection Hq as <-. injection Hq' as <-.
  revert Hqq. unfold Qle. cbn. lia.
Qed.

(** * The batch on the sample tables *)

(** C1.  On the sample table, which is well formed and has every expected
    column, the extended variant returns ten paths, not thirteen: the
    eleventh operation raises the [KeyError] for [Metric], which ends the
    batch.  The basic variant returns its nine paths. *)
Theorem extended_batch_returns_ten_paths :
  well_formed extended_columns Sample.table = true
  /\ fst (Sample.extended_session (Sample.serving Sample.table) Sample.fresh)
     = Ok ["plots/Scatter_plot_gt_corners_vs_rb_corners.png";
           "plots/Scatter_plot_gt_corners_vs_mean.png";
           "plots/Scatter_plot_floor_mean_vs_ceiling_mean.png";
           "plots/Histogram_for_mean.png";
           "plots/Histogram_for_floor_mean.png";
           "plots/Histogram_for_ceiling_mean.png";
           "plots/Boxplots_for_stats.png";
           "plots/Boxplots_for_means.png";
           "plots/Boxplots_for_floor_stats.png";
           "plots/Boxplots_for_ceiling_stats.png"]
  /\ last (trace (snd (Sample.extended_session (Sample.serving Sample.table) Sample.fresh)))
     = Some (EvPrint "Failed to draw plot: " (Some (KeyError ["Metric"])))
  /\ fst (Sample.basic_session (Sample.serving Sample.table) Sample.fresh)
     = Ok ["plots/Scatter plot gt_corners vs rb_corners.png";
           "plots/Scatter plot floor_mean vs ceiling_mean.png";
           "plots/Histogram for mean.png";
           "plots/Histogram for floor_mean.png";
           "plots/Histogram for ceiling_mean.png";
           "plots/Boxplots for means.png";
           "plots/Boxplots for stats.png";
           "plots/Top 10 best results for mean.png";
           "plots/Top 10 worst results for mean.png"].
Proof. repeat split; vm_compute; reflexivity. Qed.

(** C4.  On the sample table without its [name] column, the basic variant
    draws seven charts and then raises: seaborn reports the missing column
    as a [ValueError], which the [KeyError] handler of the batch does not
    catch, so no list is returned.  The same happens in the extended variant
    without [floor_mean], at the third chart.  Without [min], a column that
    pandas looks up, the batch stops as the claim says and returns the six
    paths before the failing chart. *)
Theorem missing_column_can_escape_the_handler :
  fst (Sample.basic_session (Sample.serving (Sample.drop_column "name" Sample.table))
         Sample.fresh)
  = Raise (ValueError "name")
  /\ forallb (file_exists (snd (Sample.basic_session
                                  (Sample.serving (Sample.drop_column "name" Sample.table))
                                  Sample.fresh)))
             (map (basic_path (mkPlotter "plots")) (firstn 7 basic_titles)) = true
  /\ fst (Sample.extended_session
            (Sample.serving (Sample.drop_column "floor_mean" Sample.table)) Sample.fresh)
     = Raise (ValueError "floor_mean")
  /\ fst (Sample.basic_session (Sample.serving (Sample.drop_column "min" Sample.table))
            Sample.fresh)
     = Ok (map (basic_path (mkPlotter "plots")) (firstn 6 basic_titles)).
Proof. repeat split; vm_compute; reflexivity. Qed.

(** * Further properties *)

(** ** The shape of a chart operation *)

(** X1.  Every chart operation, in both variants, on every table and state
    and whatever the libraries do, either returns the path fixed by its
    title after asking for exactly one file to be written (at 300 dpi), showing the
    figure and closing it again, or raises with one more figure open than
    before and nothing else changed: a failed chart leaves no file behind,
    and it leaks its figure.  The file written is the one matplotlib derives
    from the path: the path itself when the title is plain. *)
Theorem chart_operations_all_or_nothing (w : world) (self : Plotter) (df : DataFrame) :
  (forall x y b,
      chart_operation (plotter.draw_scatterplot w self df x y b)
        (extended_path self ("Scatter plot " +:+ x +:+ " vs " +:+ y))
      /\ chart_operation (ChartDrawer.draw_scatterplot w self df x y b)
           (basic_path self ("Scatter plot " +:+ x +:+ " vs " +:+ y)))
  /\ (forall c bins,
        chart_operation (plotter.draw_histogram w self df c bins)
          (extended_path self ("Histogram for " +:+ c))
        /\ chart_operation (ChartDrawer.draw_histogram w self df c bins)
             (basic_path self ("Histogram for " +:+ c)))
  /\ (forall cs label,
        chart_operation (plotter.draw_boxplots w self df cs label)
          (extended_path self ("Boxplots for " +:+ label))
        /\ chart_operation (ChartDrawer.draw_boxplots w self df cs label)
             (basic_path self ("Boxplots for " +:+ label)))
  /\ (forall (column : string) (cnt : Z) (top : bool),
        let title := "Top " +:+ pretty cnt +:+ " " +:+ (if top then "best" else "worst")
                     +:+ " results for " +:+ column in
        chart_operation (plotter.draw_top_bottom_data w self df column cnt top)
          (extended_path self title)
        /\ chart_operation (ChartDrawer.draw_top_bottom_data w self df column cnt top)
             (basic_path self title))
  /\ (forall path fig st,
        let st' := chart_effect path fig st in
        files st' = <[plt.savefig_target path := mkImage fig 300]> (files st)
        /\ figures st' = figures st
        /\ rcParams st' = rcParams st
        /\ dirs st' = dirs st
        /\ trace st' = trace st ++ [EvShow (fig :: figures st)])
  /\ (forall g st,
        let st' := with_figure g st in
        files st' = files st
        /\ figures st' = g :: figures st
        /\ rcParams st' = rcParams st
        /\ dirs st' = dirs st
        /\ trace st' = trace st)
  /\ (forall title,
        plain_title title = true ->
        plt.savefig_target (extended_path self title) = extended_path self title
        /\ plt.savefig_target (basic_path self title) = basic_path self title).
Proof.
  split; [|split; [|split; [|split; [|split; [|split]]]]].
  - intros x y b.
    split; [apply (draw_scatterplot_operation w extended_path)
           | apply (draw_scatterplot_operation w basic_path)].
  - intros c bins.
    split; [apply (draw_histogram_operation w extended_path)
           | apply (draw_histogram_operation w basic_path)].
  - intros cs label.
    split; [apply (draw_boxplots_operation w extended_path)
           | apply (draw_boxplots_operation w basic_path)].
  - intros column cnt top.
    split; [apply (draw_top_bottom_data_operation w extended_path)
           | apply (draw_top_bottom_data_operation w basic_path)].
  - intros path fig st. cbn. auto.
  - intros g st. cbn. auto.
  - intros title H. split; [now apply extended_target | now apply basic_target].
Qed.

Lemma chart_operations_all_or_nothing_witness :
  plt.savefig_target (extended_path (mkPlotter "plots") "Histogram for mean")
  = "plots/Histogram_for_mean.png"
  /\ plt.savefig_target (basic_path (mkPlotter "plots") "Histogram for mean")
     = "plots/Histogram for mean.png".
Proof.
  exact (proj2 (proj2 (proj2 (proj2 (proj2 (proj2
           (chart_operations_all_or_nothing (Sample.serving Sample.table) (mkPlotter "plots")
              Sample.table))))))
           "Histogram for mean" eq_refl).
Defined.

(** ** What [draw_plots] can touch *)

Lemma is_Some_insert {V : Type} (m : gmap string V) (k p : string) (v : V) :
  p = k \/ is_Some (m !! p) -> is_Some (<[k := v]> m !! p).
Proof.
  intros [->|H]; [rewrite lookup_insert_eq; eauto|].
  rewrite lookup_insert. case_decide; eauto.
Qed.

Lemma confined_to_refl (ps : list string) (st : pystate) : confined_to ps st st.
Proof.
  repeat split; auto. exists []. split; [now rewrite app_nil_r | constructor].
Qed.

Lemma confined_to_trans (ps : list string) (a b c : pystate) :
  confined_to ps a b -> confined_to ps b c -> confined_to ps a c.
Proof.
  intros (R1 & D1 & F1 & S1 & e1 & T1 & L1) (R2 & D2 & F2 & S2 & e2 & T2 & L2).
  split; [congruence|]. split; [congruence|]. split; [|split].
  - intros p Hp. rewrite (F2 p Hp). auto.
  - auto.
  - exists (e1 ++ e2). split; [rewrite T2, T1; now rewrite app_assoc|].
    apply Forall_app. auto.
Qed.

Lemma confined_to_weaken (ps qs : list string) (a b : pystate) :
  (forall p, In p ps -> In p qs) -> confined_to ps a b -> confined_to qs a b.
Proof.
  intros Hsub (R & D & F & S & E). repeat split; auto.
Qed.

Lemma confined_to_chart (path : string) (fig : Figure) (st : pystate) :
  confined_to [plt.savefig_target path] st (chart_effect path fig st).
Proof.
  split; [reflexivity|]. split; [reflexivity|]. split; [|split].
  - intros p Hp. unfold chart_effect. cbn [files log_event set_files].
    apply lookup_insert_ne. intros E. apply Hp. now left.
  - intros p Hp. unfold chart_effect. cbn [files log_event set_files].
    apply is_Some_insert. now right.
  - exists [EvShow (fig :: figures st)]. split; [reflexivity|]. repeat constructor.
Qed.

Lemma confined_to_figure (ps : list string) (g : Figure) (st : pystate) :
  confined_to ps st (with_figure g st).
Proof.
  repeat split; auto. exists []. split; [cbn; now rewrite app_nil_r | constructor].
Qed.

Lemma confined_to_print (ps : list string) (text : string) (e : option exn) (st : pystate) :
  confined_to ps st (log_event (EvPrint text e) st).
Proof.
  repeat split; auto. exists [EvPrint text e]. split; [reflexivity | repeat constructor].
Qed.

Lemma chart_operation_confined (m : M pystate string) (path : string)
    (st st' : pystate) (r : result string) :
  chart_operation m path -> m st = (r, st') -> confined_to [plt.savefig_target path] st st'.
Proof.
  intros Hm H. specialize (Hm _ _ _ H). destruct r as [p|e].
  - destruct Hm as [_ [fig ->]]. apply confined_to_chart.
  - destruct Hm as [g ->]. apply confined_to_figure.
Qed.

Lemma append_local_confined (m : M pystate string) (path : string)
    (l l' : list string) (st st' : pystate) (r : result unit) :
  chart_operation m path ->
  append_local m (l, st) = (r, (l', st')) -> confined_to [plt.savefig_target path] st st'.
Proof.
  intros Hm H. unfold append_local in H. cbn [fst snd] in H.
  destruct (m st) as [[a|e] s1] eqn:E; injection H as <- <- <-;
    exact (chart_operation_confined _ _ _ _ _ Hm E).
Qed.

Lemma batch_confined_append (m : M pystate string) (path : string) (ps : list string) :
  chart_operation m path -> In (plt.savefig_target path) ps ->
  batch_confined (append_local m) ps.
Proof.
  intros Hm Hin l st r l' st' H.
  apply (confined_to_weaken [plt.savefig_target path]); [intros p [<-|[]]; exact Hin|].
  exact (append_local_confined _ _ _ _ _ _ _ Hm H).
Qed.

Lemma batch_confined_bind (m1 m2 : M (list string * pystate) unit) (ps : list string) :
  batch_confined m1 ps -> batch_confined m2 ps -> batch_confined (m1 ;; m2) ps.
Proof.
  intros H1 H2 l st r l' st' H. unfold bind in H.
  destruct (m1 (l, st)) as [[[]|e] [l1 s1]] eqn:E1.
  - exact (confined_to_trans _ _ _ _ (H1 _ _ _ _ _ E1) (H2 _ _ _ _ _ H)).
  - injection H as <- <- <-. exact (H1 _ _ _ _ _ E1).
Qed.

Ltac in_titles :=
  first [ rewrite extended_target by reflexivity | rewrite basic_target by reflexivity ];
  match goal with
  | |- In (?f ?self _) (map (?f ?self) _) => apply (in_map (f self))
  end;
  vm_compute; repeat (first [left; reflexivity | right]).

Ltac chart_shape path_of :=
  first [ apply (draw_scatterplot_operation _ path_of)
        | apply (draw_histogram_operation _ path_of)
        | apply (draw_boxplots_operation _ path_of)
        | apply draw_combined_boxplots_operation
        | apply (draw_top_bottom_data_operation _ path_of) ].

Ltac batch_confined_tac path_of :=
  repeat (apply batch_confined_bind;
          [ eapply batch_confined_append; [ chart_shape path_of | in_titles ] | ]);
  eapply batch_confined_append; [ chart_shape path_of | in_titles ].

Lemma extended_body_confined (w : world) (self : Plotter) (df : DataFrame) :
  batch_confined (plotter.draw_plots_body w self df
                    ["floor_min"; "floor_mean"; "floor_max"]
                    ["ceiling_min"; "ceiling_mean"; "ceiling_max"])
                 (map (extended_path self) extended_titles).
Proof. unfold plotter.draw_plots_body. batch_confined_tac extended_path. Qed.

Lemma basic_body_confined (w : world) (self : Plotter) (df : DataFrame) :
  batch_confined (ChartDrawer.draw_plots_body w self df) (map (basic_path self) basic_titles).
Proof. unfold ChartDrawer.draw_plots_body. batch_confined_tac basic_path. Qed.

Lemma batch_handler_confined (body : M (list string * pystate) unit) (ps : list string)
    (st st' : pystate) (r : result (list string)) :
  batch_confined body ps ->
  with_local []
    (try_except body
       [(is_KeyError, fun e => on_state (print "Failed to draw plot: " (Some e)))] ;;
     get_local) st = (r, st') ->
  confined_to ps st st'.
Proof.
  intros Hb H. unfold with_local, bind, try_except, get_local in H.
  destruct (body ([], st)) as [[[]|e] [l s1]] eqn:E; apply Hb in E; cbn in H.
  - injection H as <- <-. exact E.
  - destruct (is_KeyError e); cbn in H; injection H as <- <-; [|exact E].
    exact (confined_to_trans _ _ _ _ E (confined_to_print _ _ _ _)).
Qed.

Lemma footprint_after_head (url : string) (ps : list string) (st st' : pystate)
    (reads : list event) :
  reads = [] \/ reads = [EvReadJson url] ->
  confined_to ps (fold_left (fun s ev => log_event ev s) (EvHead url 5 :: reads) st) st' ->
  batch_footprint url ps st st'.
Proof.
  intros Hreads (R & D & F & S & evs & T & L).
  assert (E : forall l s, rcParams (fold_left (fun s ev => log_event ev s) l s) = rcParams s
                       /\ dirs (fold_left (fun s ev => log_event ev s) l s) = dirs s
                       /\ files (fold_left (fun s ev => log_event ev s) l s) = files s
                       /\ trace (fold_left (fun s ev => log_event ev s) l s) = trace s ++ l).
  { induction l as [|ev l IH]; intros s; cbn [fold_left].
    - now rewrite app_nil_r.
    - destruct (IH (log_event ev s)) as (E1 & E2 & E3 & E4).
      rewrite E1, E2, E3, E4. cbn. now rewrite <- app_assoc. }
  destruct (E (EvHead url 5 :: reads) st) as (E1 & E2 & E3 & E4).
  rewrite E1 in R. rewrite E2 in D. rewrite E3 in F, S. rewrite E4 in T.
  split; [exact R|]. split; [exact D|]. split; [exact F|]. split; [exact S|].
  exists reads, evs. split; [|split; assumption].
  rewrite T. now rewrite <- app_assoc.
Qed.

Lemma draw_plots_footprint_of (draw : world -> Plotter -> string -> M pystate (list string))
    (body : world -> Plotter -> DataFrame -> M (list string * pystate) unit)
    (ps : Plotter -> list string) :
  (forall w self df, batch_confined (body w self df) (ps self)) ->
  (forall w self url,
      draw w self url
      = (ok <- __check_url w self url ;;
         if negb ok then print "URL is not accessible" None ;; ret []
         else
           loaded <- try_except
                       (df <- pd_read_json w url ;; ret (Some df))
                       [(is_ValueError,
                         fun e => print "Failed to read JSON: " (Some e) ;; ret None);
                        (is_Exception,
                         fun e => print "An error occurred: " (Some e) ;; ret None)] ;;
           match loaded with
           | None => ret []
           | Some df =>
               with_local []
                 (try_except (body w self df)
                    [(is_KeyError,
                      fun e => on_state (print "Failed to draw plot: " (Some e)))] ;;
                  get_local)
           end)) ->
  forall w self url st r st',
    draw w self url st = (r, st') -> batch_footprint url (ps self) st st'.
Proof.
  intros Hbody Hdraw w self url st r st' H. rewrite Hdraw in H.
  unfold bind at 1 in H. rewrite check_url_spec in H. cbn zeta in H.
  assert (Hprint : forall text e s,
             confined_to (ps self) s (log_event (EvPrint text e) s))
    by (intros; apply confined_to_print).
  destruct (http_head w url) as [status|e].
  - destruct ((400 <=? status) && (status <? 600))%Z.
    + cbn in H. injection H as <- <-.
      apply (footprint_after_head url _ _ _ []); [now left|]. cbn [fold_left].
      exact (confined_to_trans _ _ _ _ (Hprint _ _ _) (Hprint _ _ _)).
    + cbn [negb] in H. unfold bind at 1 in H.
      unfold try_except, pd_read_json, bind, modify, lift, ret in H.
      destruct (json_table w url) as [df|e].
      * apply (footprint_after_head url _ _ _ [EvReadJson url]); [now right|].
        cbn [fold_left].
        exact (batch_handler_confined _ _ _ _ _ (Hbody w self df) H).
      * apply (footprint_after_head url _ _ _ [EvReadJson url]); [now right|].
        cbn [fold_left].
        destruct e; cbn in H; injection H as <- <-; apply Hprint.
  - destruct (is_RequestException e).
    + cbn in H. injection H as <- <-.
      apply (footprint_after_head url _ _ _ []); [now left|]. cbn [fold_left].
      exact (confined_to_trans _ _ _ _ (Hprint _ _ _) (Hprint _ _ _)).
    + cbn in H. injection H as <- <-.
      apply (footprint_after_head url _ _ _ []); [now left|]. cbn [fold_left].
      apply confined_to_refl.
Qed.

(** X2.  Whatever the network answers and however [draw_plots] ends (a list,
    or an exception), in either variant: it has sent exactly one HEAD
    request, with a timeout of 5, then read the URL at most once, and nothing
    else has reached the network (no retry); rcParams and the directories
    are untouched; no existing file has disappeared; and no file has changed
    except under the paths of the variant's own charts. *)
Theorem draw_plots_footprint (w : world) (self : Plotter) (url : string) (st : pystate) :
  batch_footprint url (map (extended_path self) extended_titles) st
    (snd (plotter.draw_plots w self url st))
  /\ batch_footprint url (map (basic_path self) basic_titles) st
       (snd (ChartDrawer.draw_plots w self url st)).
Proof.
  split.
  - apply (draw_plots_footprint_of plotter.draw_plots
             (fun w self df => plotter.draw_plots_body w self df
                                 ["floor_min"; "floor_mean"; "floor_max"]
                                 ["ceiling_min"; "ceiling_mean"; "ceiling_max"])
             (fun self => map (extended_path self) extended_titles)
             (extended_body_confined) (fun _ _ _ => eq_refl) w self url st
             (fst (plotter.draw_plots w self url st))).
    apply surjective_pairing.
  - apply (draw_plots_footprint_of ChartDrawer.draw_plots ChartDrawer.draw_plots_body
             (fun self => map (basic_path self) basic_titles)
             (basic_body_confined) (fun _ _ _ => eq_refl) w self url st
             (fst (ChartDrawer.draw_plots w self url st))).
    apply surjective_pairing.
Qed.

(** ** The returned paths exist, and at most one figure stays open *)

Lemma batch_tidy_append (m : M pystate string) (path : string) :
  chart_operation m path -> plt.savefig_target path = path -> batch_tidy (append_local m).
Proof.
  intros Hm Htarget l st r l' st' H. unfold append_local in H. cbn [fst snd] in H.
  destruct (m st) as [[a|e] s1] eqn:E; injection H as <- <- <-;
    specialize (Hm _ _ _ E); cbn in Hm.
  - destruct Hm as [-> [fig ->]]. split; [|reflexivity].
    intros Hl. apply Forall_app. split.
    + rewrite List.Forall_forall in Hl |- *. intros p Hp.
      unfold chart_effect. cbn [files log_event set_files].
      apply is_Some_insert. right. auto.
    + constructor; [|constructor]. unfold chart_effect. rewrite Htarget.
      cbn [files log_event set_files]. apply is_Some_insert. now left.
  - destruct Hm as [g ->]. split; [auto|]. now exists g.
Qed.

Lemma batch_tidy_bind (m1 m2 : M (list string * pystate) unit) :
  batch_tidy m1 -> batch_tidy m2 -> batch_tidy (m1 ;; m2).
Proof.
  intros H1 H2 l st r l' st' H. unfold bind in H.
  destruct (m1 (l, st)) as [[[]|e] [l1 s1]] eqn:E1.
  - destruct (H1 _ _ _ _ _ E1) as [F1 G1]. destruct (H2 _ _ _ _ _ H) as [F2 G2].
    split; [auto|]. destruct r; [congruence|].
    destruct G2 as [g G2]. exists g. congruence.
  - injection H as <- <- <-. exact (H1 _ _ _ _ _ E1).
Qed.

Ltac plain_target :=
  first [ apply extended_target | apply basic_target ]; reflexivity.

Ltac batch_tidy_tac path_of :=
  repeat (apply batch_tidy_bind;
          [ eapply batch_tidy_append; [ chart_shape path_of | plain_target ] | ]);
  eapply batch_tidy_append; [ chart_shape path_of | plain_target ].

Lemma extended_body_tidy (w : world) (self : Plotter) (df : DataFrame) :
  batch_tidy (plotter.draw_plots_body w self df
                ["floor_min"; "floor_mean"; "floor_max"]
                ["ceiling_min"; "ceiling_mean"; "ceiling_max"]).
Proof. unfold plotter.draw_plots_body. batch_tidy_tac extended_path. Qed.

Lemma basic_body_tidy (w : world) (self : Plotter) (df : DataFrame) :
  batch_tidy (ChartDrawer.draw_plots_body w self df).
Proof. unfold ChartDrawer.draw_plots_body. batch_tidy_tac basic_path. Qed.

Lemma batch_handler_tidy (body : M (list string * pystate) unit)
    (st st' : pystate) (r : result (list string)) :
  batch_tidy body ->
  with_local []
    (try_except body
       [(is_KeyError, fun e => on_state (print "Failed to draw plot: " (Some e)))] ;;
     get_local) st = (r, st') ->
  (forall paths, r = Ok paths -> Forall (fun p => is_Some (files st' !! p)) paths)
  /\ (figures st' = figures st \/ exists g, figures st' = g :: figures st).
Proof.
  intros Hb H. unfold with_local, bind, try_except, get_local in H.
  destruct (body ([], st)) as [[[]|e] [l s1]] eqn:E;
    destruct (Hb _ _ _ _ _ E) as [Hf Hg]; cbn in H.
  - injection H as <- <-. split; [|now left].
    intros paths [= <-]. apply Hf. constructor.
  - destruct Hg as [g Hg]. destruct (is_KeyError e); cbn in H; injection H as <- <-.
    + split; [|right; now exists g].
      intros paths [= <-]. apply Hf. constructor.
    + split; [discriminate | right; now exists g].
Qed.

Lemma draw_plots_tidy_of (draw : world -> Plotter -> string -> M pystate (list string))
    (body : world -> Plotter -> DataFrame -> M (list string * pystate) unit) :
  (forall w self df, batch_tidy (body w self df)) ->
  (forall w self url,
      draw w self url
      = (ok <- __check_url w self url ;;
         if negb ok then print "URL is not accessible" None ;; ret []
         else
           loaded <- try_except
                       (df <- pd_read_json w url ;; ret (Some df))
                       [(is_ValueError,
                         fun e => print "Failed to read JSON: " (Some e) ;; ret None);
                        (is_Exception,
                         fun e => print "An error occurred: " (Some e) ;; ret None)] ;;
           match loaded with
           | None => ret []
           | Some df =>
               with_local []
                 (try_except (body w self df)
                    [(is_KeyError,
                      fun e => on_state (print "Failed to draw plot: " (Some e)))] ;;
                  get_local)
           end)) ->
  forall w self url st r st',
    draw w self url st = (r, st') ->
    (forall paths, r = Ok paths -> Forall (fun p => is_Some (files st' !! p)) paths)
    /\ (figures st' = figures st \/ exists g, figures st' = g :: figures st).
Proof.
  intros Hbody Hdraw w self url st r st' H.
  destruct (draw_plots_cases draw body Hdraw w self url st r st' H)
    as [(-> & Hg & _)|[([e ->] & Hg & _)|(df & _ & _ & Hrun)]].
  - split; [intros paths [= <-]; constructor | now left].
  - split; [discriminate | now left].
  - destruct (batch_handler_tidy _ _ _ _ (Hbody w self df) Hrun) as [Hf Hg].
    split; [exact Hf|]. cbn [figures log_event] in Hg. exact Hg.
Qed.

(** X3.  In either variant and for every table and answer of the network:
    each path in the list [draw_plots] returns names a file that exists when
    it returns, also when the batch was cut short; and however the call ends
    it leaves the open figures as they were or exactly one more open. *)
Theorem returned_paths_exist (w : world) (self : Plotter) (url : string) (st : pystate) :
  (forall paths st',
      plotter.draw_plots w self url st = (Ok paths, st') ->
      Forall (fun p => is_Some (files st' !! p)) paths)
  /\ (forall paths st',
        ChartDrawer.draw_plots w self url st = (Ok paths, st') ->
        Forall (fun p => is_Some (files st' !! p)) paths)
  /\ (forall r st',
        plotter.draw_plots w self url st = (r, st')
        \/ ChartDrawer.draw_plots w self url st = (r, st') ->
        figures st' = figures st \/ exists g, figures st' = g :: figures st).
Proof.
  pose proof (draw_plots_tidy_of plotter.draw_plots
                (fun w self df => plotter.draw_plots_body w self df
                                    ["floor_min"; "floor_mean"; "floor_max"]
                                    ["ceiling_min"; "ceiling_mean"; "ceiling_max"])
                extended_body_tidy (fun _ _ _ => eq_refl) w self url st) as He.
  pose proof (draw_plots_tidy_of ChartDrawer.draw_plots ChartDrawer.draw_plots_body
                basic_body_tidy (fun _ _ _ => eq_refl) w self url st) as Hb.
  split; [|split].
  - intros paths st' H. exact (proj1 (He _ _ H) paths eq_refl).
  - intros paths st' H. exact (proj1 (Hb _ _ H) paths eq_refl).
  - intros r st' [H|H]; [exact (proj2 (He _ _ H)) | exact (proj2 (Hb _ _ H))].
Qed.

Lemma returned_paths_exist_witness :
  Forall (fun p => is_Some (files (snd (plotter.draw_plots (Sample.serving Sample.table)
                                          (mkPlotter "plots") Sample.url Sample.ready)) !! p))
         (map (extended_path (mkPlotter "plots")) (firstn 10 extended_titles)).
Proof.
  exact (proj1 (returned_paths_exist (Sample.serving Sample.table) (mkPlotter "plots")
                  Sample.url Sample.ready) _ _ sample_extended_run).
Defined.

(** ** The extended variant never gets past its eleventh chart *)

Lemma prefix_cons (m : M pystate string) (rest : M (list string * pystate) unit)
    (p : string) (ps : list string) :
  yields m p ->
  (forall l st r l' st', rest (l, st) = (r, (l', st')) -> exists k, l' = l ++ firstn k ps) ->
  forall l st r l' st',
    (append_local m ;; rest) (l, st) = (r, (l', st')) ->
    exists k, l' = l ++ firstn k (p :: ps).
Proof.
  intros Hm Hrest l st r l' st' H. unfold bind, append_local in H. cbn [fst snd] in H.
  destruct (m st) as [[a|e] s1] eqn:E.
  - rewrite (Hm _ _ _ E) in H. destruct (Hrest _ _ _ _ _ H) as [k ->].
    exists (S k). cbn [firstn]. now rewrite <- app_assoc.
  - injection H as <- <- <-. exists 0%nat. cbn. now rewrite app_nil_r.
Qed.

Lemma combined_boxplots_append (w : world) (self : Plotter) (df : DataFrame)
    (c1 c2 : list string) (label : string) (l : list string) (st : pystate) :
  exists e,
    append_local (plotter.draw_combined_boxplots w self df c1 c2 label) (l, st)
    = (Raise e, (l, with_figure empty_figure st)).
Proof.
  unfold append_local. cbn [fst snd].
  destruct (combined_boxplots_never_returns w self df c1 c2 label st) as (e & E & _).
  rewrite E. eauto.
Qed.

Lemma combined_boxplots_append_never_ok (w : world) (self : Plotter) (df : DataFrame)
    (c1 c2 : list string) (label : string) (s : list string * pystate) (a : unit)
    (s' : list string * pystate) :
  append_local (plotter.draw_combined_boxplots w self df c1 c2 label) s <> (Ok a, s').
Proof.
  destruct s as [l st].
  destruct (combined_boxplots_append w self df c1 c2 label l st) as [e ->]. discriminate.
Qed.

Lemma prefix_stop (rest : M (list string * pystate) unit) (w : world)
    (self : Plotter) (df : DataFrame) (c1 c2 : list string) (label : string) :
  forall l st r l' st',
    (append_local (plotter.draw_combined_boxplots w self df c1 c2 label) ;; rest) (l, st)
    = (r, (l', st')) ->
    exists k, l' = l ++ firstn k [].
Proof.
  intros l st r l' st' H. unfold bind in H.
  destruct (combined_boxplots_append w self df c1 c2 label l st) as [e E].
  rewrite E in H. injection H as <- <- <-. exists 0%nat. cbn. now rewrite app_nil_r.
Qed.

Lemma never_ok_bind {A B : Type} (m : M (list string * pystate) A)
    (k : A -> M (list string * pystate) B) :
  (forall a s b s', k a s <> (Ok b, s')) ->
  forall s b s', bind m k s <> (Ok b, s').
Proof.
  intros Hk s b s' H. unfold bind in H.
  destruct (m s) as [[a|e] s1]; [exact (Hk _ _ _ _ H) | discriminate].
Qed.

Lemma never_ok_first {A B : Type} (m : M (list string * pystate) A)
    (k : A -> M (list string * pystate) B) :
  (forall s a s', m s <> (Ok a, s')) ->
  forall s b s', bind m k s <> (Ok b, s').
Proof.
  intros Hm s b s' H. unfold bind in H.
  destruct (m s) as [[a|e] s1] eqn:E; [exact (Hm _ _ _ E) | discriminate].
Qed.

(** The [try] block of the extended variant never runs to its end. *)
Lemma extended_body_never_completes (w : world) (self : Plotter) (df : DataFrame)
    (s : list string * pystate) (a : unit) (s' : list string * pystate) :
  plotter.draw_plots_body w self df
    ["floor_min"; "floor_mean"; "floor_max"]
    ["ceiling_min"; "ceiling_mean"; "ceiling_max"] s <> (Ok a, s').
Proof.
  revert s a s'. unfold plotter.draw_plots_body.
  do 10 (apply never_ok_bind; intros _).
  apply never_ok_first. apply combined_boxplots_append_never_ok.
Qed.

Lemma extended_body_within_ten (w : world) (self : Plotter) (df : DataFrame) :
  forall l st r l' st',
    plotter.draw_plots_body w self df
      ["floor_min"; "floor_mean"; "floor_max"]
      ["ceiling_min"; "ceiling_mean"; "ceiling_max"] (l, st) = (r, (l', st')) ->
    exists k, l' = l ++ firstn k (map (extended_path self) (firstn 10 extended_titles)).
Proof.
  unfold plotter.draw_plots_body. cbn [map firstn extended_titles].
  do 10 (apply prefix_cons; [chart_yields extended_path|]).
  apply prefix_stop.
Qed.

Lemma batch_confined_stop (m1 m2 : M (list string * pystate) unit) (ps : list string) :
  batch_confined m1 ps ->
  (forall s a s', m1 s <> (Ok a, s')) ->
  batch_confined (m1 ;; m2) ps.
Proof.
  intros H1 Hnever l st r l' st' H. unfold bind in H.
  destruct (m1 (l, st)) as [[a|e] [l1 s1]] eqn:E1; [destruct (Hnever _ _ _ E1)|].
  injection H as <- <- <-. exact (H1 _ _ _ _ _ E1).
Qed.

Lemma extended_body_confined_to_ten (w : world) (self : Plotter) (df : DataFrame) :
  batch_confined (plotter.draw_plots_body w self df
                    ["floor_min"; "floor_mean"; "floor_max"]
                    ["ceiling_min"; "ceiling_mean"; "ceiling_max"])
                 (map (extended_path self) (firstn 10 extended_titles)).
Proof.
  unfold plotter.draw_plots_body.
  do 10 (apply batch_confined_bind;
         [ eapply batch_confined_append; [ chart_shape extended_path | in_titles ] | ]).
  apply batch_confined_stop; [|apply combined_boxplots_append_never_ok].
  intros l st r l' st' H.
  destruct (combined_boxplots_append w self df
              ["floor_min"; "floor_mean"; "floor_max"]
              ["ceiling_min"; "ceiling_mean"; "ceiling_max"] "Floor vs Ceiling" l st)
    as [e E].
  rewrite E in H. injection H as <- <- <-. apply confined_to_figure.
Qed.

(** X15.  Whatever table the URL serves, the extended variant's [draw_plots]
    never returns more than its first ten paths, in order, and never writes
    or changes the files of its last three charts (the combined box plot and
    the two bar charts): the eleventh operation raises on every table, which
    ends the batch. *)
Theorem extended_batch_never_past_ten (w : world) (self : Plotter) (url : string)
    (st : pystate) :
  (forall paths st',
      plotter.draw_plots w self url st = (Ok paths, st') ->
      exists k, paths = firstn k (map (extended_path self) (firstn 10 extended_titles))
                /\ (length paths <= 10)%nat)
  /\ batch_footprint url (map (extended_path self) (firstn 10 extended_titles)) st
       (snd (plotter.draw_plots w self url st)).
Proof.
  split.
  - intros paths st' H.
    assert (Hk : exists k, paths = firstn k (map (extended_path self)
                                               (firstn 10 extended_titles))).
    { destruct (draw_plots_cases plotter.draw_plots
                  (fun w self df => plotter.draw_plots_body w self df
                                      ["floor_min"; "floor_mean"; "floor_max"]
                                      ["ceiling_min"; "ceiling_mean"; "ceiling_max"])
                  extended_draw_plots_eq w self url st _ _ H)
        as [([= ->] & _)|[([e [=]] & _)|(df & _ & _ & Hrun)]]; [now exists 0%nat|].
      destruct (batch_handler_cases _ _ _ _ Hrun)
        as [(l & E & [= ->])|[(e & l & s1 & E & _ & [= ->] & _)|(e & l & _ & _ & [=])]];
        apply extended_body_within_ten in E; exact E. }
    destruct Hk as [k ->]. exists k. split; [reflexivity|].
    rewrite length_firstn, length_map. cbn. lia.
  - apply (draw_plots_footprint_of plotter.draw_plots
             (fun w self df => plotter.draw_plots_body w self df
                                 ["floor_min"; "floor_mean"; "floor_max"]
                                 ["ceiling_min"; "ceiling_mean"; "ceiling_max"])
             (fun self => map (extended_path self) (firstn 10 extended_titles))
             (extended_body_confined_to_ten) (fun _ _ _ => eq_refl) w self url st
             (fst (plotter.draw_plots w self url st))).
    apply surjective_pairing.
Qed.

Lemma extended_batch_never_past_ten_witness :
  exists k,
    map (extended_path (mkPlotter "plots")) (firstn 10 extended_titles)
    = firstn k (map (extended_path (mkPlotter "plots")) (firstn 10 extended_titles))
    /\ (length (map (extended_path (mkPlotter "plots")) (firstn 10 extended_titles)) <= 10)%nat.
Proof.
  exact (proj1 (extended_batch_never_past_ten (Sample.serving Sample.table)
                  (mkPlotter "plots") Sample.url Sample.ready) _ _ sample_extended_run).
Defined.

(** ** Which exception a missing column raises *)

(** How an operation that has looked everything up can end: it returns its
    path exactly when seaborn accepts the drawing and matplotlib the save,
    and what it raises otherwise is what one of the two refused with. *)
Lemma chart_outcome (w : world) (st : pystate) (g : Figure) (a : artist)
    (path : string) (fig : Figure) :
  let r := fst (draw_then w st g a (finish_chart w path fig st)) in
  (seaborn_refuses w (with_figure g st) a = None ->
   savefig_refuses w (with_figure fig st) path 300 = None -> r = Ok path)
  /\ (forall e, r = Raise e ->
        seaborn_refuses w (with_figure g st) a = Some e
        \/ savefig_refuses w (with_figure fig st) path 300 = Some e).
Proof.
  cbn zeta. unfold draw_then, finish_chart.
  destruct (seaborn_refuses w (with_figure g st) a) as [e1|];
    [|destruct (savefig_refuses w (with_figure fig st) path 300) as [e2|]]; cbn [fst].
  - split; [discriminate|]. intros e [= <-]. now left.
  - split; [discriminate|]. intros e [= <-]. now right.
  - split; [reflexivity | discriminate].
Qed.

Section LookupErrors.

Variable w : world.
Variable path_of : Plotter -> string -> string.

Lemma draw_scatterplot_line_no_x (self : Plotter) (df : DataFrame) (x y : string)
    (st : pystate) :
  has_column df x = false ->
  draw_scatterplot w (save_with w path_of) self df x y true st
  = (Raise (KeyError [x]), with_figure empty_figure st).
Proof.
  intros Hx. rewrite draw_scatterplot_spec. cbn zeta.
  unfold scatter_underlay, reference_limits, df_getitem. now rewrite Hx.
Qed.

Lemma lookup_errors_of (self : Plotter) (df : DataFrame) (st : pystate) :
  (forall c bins,
      has_column df c = false ->
      fst (draw_histogram w (save_with w path_of) self df c bins st) = Raise (KeyError [c]))
  /\ (forall cs label,
        forallb (has_column df) cs = false ->
        is_KeyError_result (fst (draw_boxplots w (save_with w path_of) self df cs label st))
        = true)
  /\ (forall x y,
        has_column df x = false ->
        fst (draw_scatterplot w (save_with w path_of) self df x y false st)
        = Raise (ValueError x))
  /\ (forall x y,
        has_column df x = true -> has_column df y = false ->
        fst (draw_scatterplot w (save_with w path_of) self df x y false st)
        = Raise (ValueError y))
  /\ (forall x y,
        has_column df x = false ->
        fst (draw_scatterplot w (save_with w path_of) self df x y true st)
        = Raise (KeyError [x]))
  /\ (forall x y,
        has_column df x = true -> finite_column df x = true -> has_column df y = false ->
        fst (draw_scatterplot w (save_with w path_of) self df x y true st)
        = Raise (KeyError [y]))
  /\ (forall column cnt top,
        has_column df column = false ->
        fst (draw_top_bottom_data w (save_with w path_of) self df column cnt top st)
        = Raise (KeyError [column]))
  /\ (forall column cnt top,
        has_column df column = true -> finite_column df column = true ->
        has_column df "name" = false ->
        fst (draw_top_bottom_data w (save_with w path_of) self df column cnt top st)
        = Raise (ValueError "name")).
Proof.
  split; [|split; [|split; [|split; [|split; [|split; [|split]]]]]].
  - intros c bins Hc. rewrite draw_histogram_spec. cbn zeta. now rewrite Hc.
  - intros cs label Hcs. rewrite draw_boxplots_spec. cbn zeta.
    destruct (df_select_missing df cs Hcs) as [missing ->]. reflexivity.
  - intros x y Hx. rewrite draw_scatterplot_spec. cbn zeta.
    cbn [scatter_underlay]. now rewrite Hx.
  - intros x y Hx Hy. rewrite draw_scatterplot_spec. cbn zeta.
    cbn [scatter_underlay]. now rewrite Hx, Hy.
  - intros x y Hx. now rewrite draw_scatterplot_line_no_x.
  - intros x y Hx Fx Hy. rewrite draw_scatterplot_spec. cbn zeta.
    unfold scatter_underlay, reference_limits, df_getitem. rewrite Hx, Hy.
    cbn [and_then]. rewrite (series_max_float _ Fx). reflexivity.
  - intros column cnt top Hc. rewrite draw_top_bottom_data_spec. cbn zeta.
    unfold sort_values. now rewrite Hc.
  - intros column cnt top Hc Fc Hname. rewrite draw_top_bottom_data_spec. cbn zeta.
    rewrite (sort_values_finite df column top Hc Fc). now rewrite Hname.
Qed.

Lemma histogram_outcome (self : Plotter) (df : DataFrame) (c bins : string) (st : pystate) :
  has_column df c = true ->
  let title := "Histogram for " +:+ c in
  let a := SnsHistplot (column_values df c) c bins in
  let fig := mkFigure title "Degrees" "Frequency" [a] in
  let r := fst (draw_histogram w (save_with w path_of) self df c bins st) in
  (seaborn_refuses w (with_figure empty_figure st) a = None ->
   savefig_refuses w (with_figure fig st) (path_of self title) 300 = None ->
   r = Ok (path_of self title))
  /\ (forall e, r = Raise e ->
        seaborn_refuses w (with_figure empty_figure st) a = Some e
        \/ savefig_refuses w (with_figure fig st) (path_of self title) 300 = Some e).
Proof.
  intros Hc. cbn zeta. rewrite draw_histogram_spec. cbn zeta. rewrite Hc.
  apply chart_outcome.
Qed.

End LookupErrors.

(** X4.  Which exception a missing column raises depends on who looks the
    column up.  A histogram, a box plot, the reference line of a scatter
    plot and the sort of a bar chart read the table through pandas and raise
    [KeyError]; a scatter plot without reference line and the [name] labels
    of a bar chart hand the names to seaborn, which raises [ValueError].
    All of these are raised before anything is drawn, whatever the libraries
    would do with the data.  A histogram whose column exists raises only
    what seaborn or matplotlib refuse it with, and returns its path when
    both accept.  This holds in both variants. *)
Theorem missing_column_exceptions (w : world) (self : Plotter) (df : DataFrame)
    (st : pystate) :
  (forall c bins,
      has_column df c = false ->
      fst (plotter.draw_histogram w self df c bins st) = Raise (KeyError [c])
      /\ fst (ChartDrawer.draw_histogram w self df c bins st) = Raise (KeyError [c]))
  /\ (forall cs label,
        forallb (has_column df) cs = false ->
        is_KeyError_result (fst (plotter.draw_boxplots w self df cs label st)) = true
        /\ is_KeyError_result (fst (ChartDrawer.draw_boxplots w self df cs label st)) = true)
  /\ (forall x y,
        has_column df x = false ->
        fst (plotter.draw_scatterplot w self df x y false st) = Raise (ValueError x)
        /\ fst (ChartDrawer.draw_scatterplot w self df x y false st) = Raise (ValueError x))
  /\ (forall x y,
        has_column df x = true -> has_column df y = false ->
        fst (plotter.draw_scatterplot w self df x y false st) = Raise (ValueError y)
        /\ fst (ChartDrawer.draw_scatterplot w self df x y false st) = Raise (ValueError y))
  /\ (forall x y,
        has_column df x = false ->
        fst (plotter.draw_scatterplot w self df x y true st) = Raise (KeyError [x])
        /\ fst (ChartDrawer.draw_scatterplot w self df x y true st) = Raise (KeyError [x]))
  /\ (forall x y,
        has_column df x = true -> finite_column df x = true -> has_column df y = false ->
        fst (plotter.draw_scatterplot w self df x y true st) = Raise (KeyError [y])
        /\ fst (ChartDrawer.draw_scatterplot w self df x y true st) = Raise (KeyError [y]))
  /\ (forall column cnt top,
        has_column df column = false ->
        fst (plotter.draw_top_bottom_data w self df column cnt top st)
        = Raise (KeyError [column])
        /\ fst (ChartDrawer.draw_top_bottom_data w self df column cnt top st)
           = Raise (KeyError [column]))
  /\ (forall column cnt top,
        has_column df column = true -> finite_column df column = true ->
        has_column df "name" = false ->
        fst (plotter.draw_top_bottom_data w self df column cnt top st)
        = Raise (ValueError "name")
        /\ fst (ChartDrawer.draw_top_bottom_data w self df column cnt top st)
           = Raise (ValueError "name"))
  /\ (forall c bins,
        has_column df c = true ->
        let title := "Histogram for " +:+ c in
        let a := SnsHistplot (column_values df c) c bins in
        let fig := mkFigure title "Degrees" "Frequency" [a] in
        (seaborn_refuses w (with_figure empty_figure st) a = None ->
         (savefig_refuses w (with_figure fig st) (extended_path self title) 300 = None ->
          fst (plotter.draw_histogram w self df c bins st) = Ok (extended_path self title))
         /\ (savefig_refuses w (with_figure fig st) (basic_path self title) 300 = None ->
             fst (ChartDrawer.draw_histogram w self df c bins st)
             = Ok (basic_path self title)))
        /\ (forall e,
              fst (plotter.draw_histogram w self df c bins st) = Raise e ->
              seaborn_refuses w (with_figure empty_figure st) a = Some e
              \/ savefig_refuses w (with_figure fig st) (extended_path self title) 300
                 = Some e)
        /\ (forall e,
              fst (ChartDrawer.draw_histogram w self df c bins st) = Raise e ->
              seaborn_refuses w (with_figure empty_figure st) a = Some e
              \/ savefig_refuses w (with_figure fig st) (basic_path self title) 300
                 = Some e)).
Proof.
  destruct (lookup_errors_of w extended_path self df st)
    as (E1 & E2 & E3 & E4 & E5 & E6 & E7 & E8).
  destruct (lookup_errors_of w basic_path self df st)
    as (B1 & B2 & B3 & B4 & B5 & B6 & B7 & B8).
  split; [|split; [|split; [|split; [|split; [|split; [|split; [|split]]]]]]].
  - intros c bins H. split; [now apply E1 | now apply B1].
  - intros cs label H. split; [now apply E2 | now apply B2].
  - intros x y H. split; [now apply E3 | now apply B3].
  - intros x y H1 H2. split; [now apply E4 | now apply B4].
  - intros x y H. split; [now apply E5 | now apply B5].
  - intros x y H1 H2 H3. split; [now apply E6 | now apply B6].
  - intros column cnt top H. split; [now apply E7 | now apply B7].
  - intros column cnt top H1 H2 H3. split; [now apply E8 | now apply B8].
  - intros c bins Hc. cbn zeta.
    destruct (histogram_outcome w extended_path self df c bins st Hc) as [Le Re].
    destruct (histogram_outcome w basic_path self df c bins st Hc) as [Lb Rb].
    split; [|split; [exact Re | exact Rb]].
    intros Hdraw. split; intros Hsave; [now apply Le | now apply Lb].
Qed.

Lemma missing_column_exceptions_witness :
  fst (ChartDrawer.draw_top_bottom_data (Sample.serving Sample.table) (mkPlotter "plots")
         (Sample.drop_column "name" Sample.table) "mean" 10 true Sample.ready)
  = Raise (ValueError "name")
  /\ fst (ChartDrawer.draw_scatterplot (Sample.serving Sample.table) (mkPlotter "plots")
            (Sample.drop_column "gt_corners" Sample.table) "gt_corners" "rb_corners" true
            Sample.ready)
     = Raise (KeyError ["gt_corners"])
  /\ fst (ChartDrawer.draw_histogram (Sample.serving Sample.table) (mkPlotter "plots")
            Sample.table "mean" "auto" Sample.ready)
     = Ok "plots/Histogram for mean.png".
Proof.
  pose proof (missing_column_exceptions (Sample.serving Sample.table) (mkPlotter "plots")
                (Sample.drop_column "name" Sample.table) Sample.ready)
    as (_ & _ & _ & _ & _ & _ & _ & H8 & _).
  pose proof (missing_column_exceptions (Sample.serving Sample.table) (mkPlotter "plots")
                (Sample.drop_column "gt_corners" Sample.table) Sample.ready)
    as (_ & _ & _ & _ & H5 & _).
  pose proof (missing_column_exceptions (Sample.serving Sample.table) (mkPlotter "plots")
                Sample.table Sample.ready)
    as (_ & _ & _ & _ & _ & _ & _ & _ & H9).
  split; [|split].
  - exact (proj2 (H8 "mean" 10 true eq_refl eq_refl eq_refl)).
  - exact (proj2 (H5 "gt_corners" "rb_corners" eq_refl)).
  - exact (proj2 (proj1 (H9 "mean" "auto" eq_refl) eq_refl) eq_refl).
Defined.

(** ** A table without the first column of the batch *)

Lemma read_json_ok (w : world) (url : string) (df : DataFrame) (st : pystate) :
  json_table w url = Ok df ->
  try_except
    (df <- pd_read_json w url ;; ret (Some df))
    [(is_ValueError, fun e => print "Failed to read JSON: " (Some e) ;; ret None);
     (is_Exception, fun e => print "An error occurred: " (Some e) ;; ret None)] st
  = (Ok (Some df), log_event (EvReadJson url) st).
Proof.
  intros H. unfold try_except, pd_read_json, bind, modify, lift, ret. rewrite H. reflexivity.
Qed.

Lemma append_local_raise {A : Type} (m : M pystate A) (e : exn) (l : list A)
    (st st' : pystate) :
  m st = (Raise e, st') -> append_local m (l, st) = (Raise e, (l, st')).
Proof. intros H. unfold append_local. cbn [fst snd]. now rewrite H. Qed.

(** Once the URL has answered and the table is read, [draw_plots] is its
    [try] block. *)
Lemma extended_draw_plots_started (w : world) (self : Plotter) (url : string)
    (df : DataFrame) (st : pystate) :
  fst (__check_url w self url st) = Ok true ->
  json_table w url = Ok df ->
  plotter.draw_plots w self url st
  = with_local []
      (try_except (plotter.draw_plots_body w self df
                     ["floor_min"; "floor_mean"; "floor_max"]
                     ["ceiling_min"; "ceiling_mean"; "ceiling_max"])
         [(is_KeyError, fun e => on_state (print "Failed to draw plot: " (Some e)))] ;;
       get_local)
      (log_event (EvReadJson url) (log_event (EvHead url 5) st)).
Proof.
  intros Hcheck Hjson. unfold plotter.draw_plots.
  rewrite (bind_ok _ _ _ _ _ (check_url_true_state w self url st Hcheck)). cbn [negb].
  now rewrite (bind_ok _ _ _ _ _ (read_json_ok w url df _ Hjson)).
Qed.

Lemma basic_draw_plots_started (w : world) (self : Plotter) (url : string)
    (df : DataFrame) (st : pystate) :
  fst (__check_url w self url st) = Ok true ->
  json_table w url = Ok df ->
  ChartDrawer.draw_plots w self url st
  = with_local []
      (try_except (ChartDrawer.draw_plots_body w self df)
         [(is_KeyError, fun e => on_state (print "Failed to draw plot: " (Some e)))] ;;
       get_local)
      (log_event (EvReadJson url) (log_event (EvHead url 5) st)).
Proof.
  intros Hcheck Hjson. unfold ChartDrawer.draw_plots.
  rewrite (bind_ok _ _ _ _ _ (check_url_true_state w self url st Hcheck)). cbn [negb].
  now rewrite (bind_ok _ _ _ _ _ (read_json_ok w url df _ Hjson)).
Qed.

(** X5.  When the table read from a reachable URL has no [gt_corners]
    column (the empty table, read from an empty JSON array, is one), both
    variants return the empty list: the first chart raises the [KeyError],
    which is logged; no file is written, and the figure that chart opened
    stays open. *)
Theorem table_without_first_column (w : world) (self : Plotter) (url : string)
    (df : DataFrame) (st : pystate)
    (Hcheck : fst (__check_url w self url st) = Ok true)
    (Hjson : json_table w url = Ok df)
    (Hmissing : has_column df "gt_corners" = false) :
  exists st',
    plotter.draw_plots w self url st = (Ok [], st')
    /\ ChartDrawer.draw_plots w self url st = (Ok [], st')
    /\ files st' = files st
    /\ figures st' = empty_figure :: figures st
    /\ trace st' = trace st ++ [EvHead url 5; EvReadJson url;
                                EvPrint "Failed to draw plot: " (Some (KeyError ["gt_corners"]))].
Proof.
  eexists. split; [|split; [|split; [|split]]].
  - rewrite (extended_draw_plots_started w self url df st Hcheck Hjson).
    unfold with_local, try_except. unfold bind at 1.
    unfold plotter.draw_plots_body.
    erewrite bind_raise;
      [| apply append_local_raise;
         apply (draw_scatterplot_line_no_x w extended_path); exact Hmissing ].
    reflexivity.
  - rewrite (basic_draw_plots_started w self url df st Hcheck Hjson).
    unfold with_local, try_except. unfold bind at 1.
    unfold ChartDrawer.draw_plots_body.
    erewrite bind_raise;
      [| apply append_local_raise;
         apply (draw_scatterplot_line_no_x w basic_path); exact Hmissing ].
    reflexivity.
  - reflexivity.
  - reflexivity.
  - cbn. now rewrite <- !app_assoc.
Qed.

Lemma table_without_first_column_witness :
  exists st',
    plotter.draw_plots (Sample.serving (mkDataFrame [] [])) (mkPlotter "plots") Sample.url
      Sample.fresh = (Ok [], st')
    /\ ChartDrawer.draw_plots (Sample.serving (mkDataFrame [] [])) (mkPlotter "plots")
         Sample.url Sample.fresh = (Ok [], st')
    /\ files st' = files Sample.fresh
    /\ figures st' = empty_figure :: figures Sample.fresh
    /\ trace st' = trace Sample.fresh
                   ++ [EvHead Sample.url 5; EvReadJson Sample.url;
                       EvPrint "Failed to draw plot: " (Some (KeyError ["gt_corners"]))].
Proof.
  exact (table_without_first_column (Sample.serving (mkDataFrame [] [])) (mkPlotter "plots")
           Sample.url (mkDataFrame [] []) Sample.fresh eq_refl eq_refl eq_refl).
Defined.

(** ** Open figures after the batch *)

(** X6.  On a reachable URL that serves a table, each call of the extended
    variant's [draw_plots] leaves one more figure open than it found,
    however it ends: its [try] block never runs to the end, since the
    combined box plot raises before its figure is closed, and whichever
    chart raises leaves its figure open.  The basic variant leaves the open
    figures as they were exactly when it returns all nine paths; when it
    returns fewer, or raises, one more figure is open. *)
Theorem extended_batch_leaks_a_figure (w : world) (self : Plotter) (url : string)
    (df : DataFrame) (st : pystate)
    (Hcheck : fst (__check_url w self url st) = Ok true)
    (Hjson : json_table w url = Ok df) :
  (exists g, figures (snd (plotter.draw_plots w self url st)) = g :: figures st)
  /\ (forall paths st',
        ChartDrawer.draw_plots w self url st = (Ok paths, st') ->
        (length paths = 9%nat /\ figures st' = figures st)
        \/ ((length paths < 9)%nat /\ exists g, figures st' = g :: figures st))
  /\ (forall e st',
        ChartDrawer.draw_plots w self url st = (Raise e, st') ->
        exists g, figures st' = g :: figures st).
Proof.
  split; [|split].
  - rewrite (extended_draw_plots_started w self url df st Hcheck Hjson).
    match goal with |- context [snd ?run] => destruct run as [r st'] eqn:Hrun end.
    cbn [snd].
    destruct (batch_handler_cases _ _ _ _ Hrun)
      as [(l & E & _)|[(e & l & s1 & E & _ & _ & ->)|(e & l & E & _ & _)]].
    + destruct (extended_body_never_completes _ _ _ _ _ _ E).
    + destruct (extended_body_tidy w self df _ _ _ _ _ E) as [_ [g Hg]].
      exists g. exact Hg.
    + destruct (extended_body_tidy w self df _ _ _ _ _ E) as [_ [g Hg]].
      exists g. exact Hg.
  - intros paths st' H.
    rewrite (basic_draw_plots_started w self url df st Hcheck Hjson) in H.
    destruct (batch_handler_cases _ _ _ _ H)
      as [(l & E & [= ->])|[(e & l & s1 & E & _ & [= ->] & ->)|(e & l & _ & _ & [=])]].
    + left. destruct (basic_body_tidy w self df _ _ _ _ _ E) as [_ Hg].
      apply (basic_body_extends w self df) in E. cbn [app] in E. subst l.
      split; [reflexivity | exact Hg].
    + right. destruct (basic_body_tidy w self df _ _ _ _ _ E) as [_ [g Hg]].
      apply (basic_body_extends w self df) in E. destruct E as (k & Hk & ->).
      split; [|exists g; exact Hg].
      cbn [app]. rewrite length_firstn. cbn in Hk |- *. lia.
  - intros e st' H.
    rewrite (basic_draw_plots_started w self url df st Hcheck Hjson) in H.
    destruct (batch_handler_cases _ _ _ _ H)
      as [(l & _ & [=])|[(e' & l & s1 & _ & _ & [=] & _)|(e' & l & E & _ & _)]].
    destruct (basic_body_tidy w self df _ _ _ _ _ E) as [_ [g Hg]].
    exists g. exact Hg.
Qed.

Lemma extended_batch_leaks_a_figure_witness :
  (exists g,
      figures (snd (plotter.draw_plots (Sample.serving Sample.table) (mkPlotter "plots")
                      Sample.url Sample.ready)) = g :: figures Sample.ready)
  /\ figures (snd (ChartDrawer.draw_plots (Sample.serving Sample.table) (mkPlotter "plots")
                     Sample.url Sample.ready)) = figures Sample.ready.
Proof.
  destruct (extended_batch_leaks_a_figure (Sample.serving Sample.table) (mkPlotter "plots")
              Sample.url Sample.table Sample.ready eq_refl eq_refl) as (He & Hb & _).
  split; [exact He|].
  destruct (Hb _ _ sample_basic_run) as [[_ H]|[Hlt _]]; [exact H|].
  cbn in Hlt. lia.
Defined.

(** ** The reachability check, case by case *)

(** X7.  [__check_url] sends one HEAD request with a timeout of 5 and
    nothing else.  It returns [True] exactly when the server answers with a
    status outside 400..599 (so an informational or redirect status counts
    as reachable); it returns [False], after logging one line, exactly when
    the status is in 400..599 or the request raised a [RequestException];
    and any other exception of the request comes out unchanged.  It never
    touches files, figures or rcParams. *)
Theorem check_url_outcomes (w : world) (self : Plotter) (url : string) (st : pystate) :
  let r := fst (__check_url w self url st) in
  let st' := snd (__check_url w self url st) in
  (r = Ok true <->
   exists status, http_head w url = Response status /\ ~ (400 <= status < 600)%Z)
  /\ (r = Ok false <->
      (exists status, http_head w url = Response status /\ (400 <= status < 600)%Z)
      \/ (exists e, http_head w url = HeadRaises e /\ is_RequestException e = true))
  /\ (forall e, r = Raise e <->
                http_head w url = HeadRaises e /\ is_RequestException e = false)
  /\ (exists e, trace st' = trace st ++ EvHead url 5
                             :: match r with
                                | Ok false => [EvPrint "Failed to connect to URL: " (Some e)]
                                | _ => []
                                end)
  /\ files st' = files st /\ figures st' = figures st
  /\ rcParams st' = rcParams st /\ dirs st' = dirs st.
Proof.
  cbn zeta. rewrite check_url_spec. cbn zeta.
  destruct (http_head w url) as [status|e].
  - destruct ((400 <=? status) && (status <? 600))%Z eqn:E; cbn.
    + assert (Hs : (400 <= status < 600)%Z) by lia.
      split; [split; [discriminate | intros (s & [= <-] & Hn); contradiction]|].
      split; [split; [intros _; left; eauto | reflexivity]|].
      split; [intros e; split; [discriminate | intros [[=] _]]|].
      split; [exists (RequestException "HTTPError"); now rewrite <- app_assoc|].
      auto.
    + assert (Hs : ~ (400 <= status < 600)%Z) by lia.
      split; [split; [intros _; eauto | reflexivity]|].
      split; [split; [discriminate
                     | intros [(s & [= <-] & Hn)|(e & [=] & _)]; contradiction]|].
      split; [intros e; split; [discriminate | intros [[=] _]]|].
      split; [exists (KeyError []); reflexivity|].
      auto.
  - destruct (is_RequestException e) eqn:E; cbn.
    + split; [split; [discriminate | intros (s & [=] & _)]|].
      split; [split; [intros _; right; eauto | reflexivity]|].
      split; [intros e'; split; [discriminate | intros [[= <-] Hn]; congruence]|].
      split; [exists e; now rewrite <- app_assoc|].
      auto.
    + split; [split; [discriminate | intros (s & [=] & _)]|].
      split; [split; [discriminate
                     | intros [(s & [=] & _)|(e' & [= <-] & Hn)]; congruence]|].
      split; [intros e'; split; [intros [= <-]; auto | intros [[= <-] _]; reflexivity]|].
      split; [exists e; reflexivity|].
      auto.
Qed.

(** ** Construction, case by case *)

(** X8.  [Plotter()] fails with [FileExistsError] when a regular file named
    [plots] is in the way, and then it has changed nothing: no rendering
    default has been set.  Otherwise it returns the object with
    [plot_dir = 'plots'], has created that directory, and has changed nothing
    else but rcParams, where every key other than the title size, the title
    padding, the figure size and the keys of the whitegrid style keeps its
    value. *)
Theorem init_outcomes axes_style (st : pystate) :
  (is_Some (files st !! "plots") ->
   __init__ axes_style st = (Raise (FileExistsError "plots"), st))
  /\ (files st !! "plots" = None ->
      exists st',
        __init__ axes_style st = (Ok (mkPlotter "plots"), st')
        /\ dirs st' = {["plots"]} ∪ dirs st
        /\ files st' = files st /\ figures st' = figures st /\ trace st' = trace st
        /\ forall k, k <> "axes.titlesize" -> k <> "axes.titlepad" -> k <> "figure.figsize" ->
                     axes_style "whitegrid" !! k = None ->
                     rcParams st' !! k = rcParams st !! k).
Proof.
  rewrite init_spec. split.
  - intros H. now rewrite (bool_decide_eq_true_2 _ H).
  - intros H. rewrite bool_decide_eq_false_2 by (rewrite H; apply is_Some_None).
    eexists. split; [reflexivity|]. cbn. repeat split.
    intros k H1 H2 H3 Hk. unfold rendering_defaults.
    rewrite lookup_insert_ne by congruence.
    rewrite lookup_union_r by exact Hk.
    rewrite !lookup_insert_ne by congruence. reflexivity.
Qed.

Lemma init_outcomes_witness :
  __init__ Sample.whitegrid (set_files {["plots" := mkImage empty_figure 300]} Sample.fresh)
  = (Raise (FileExistsError "plots"),
     set_files {["plots" := mkImage empty_figure 300]} Sample.fresh)
  /\ exists st',
       __init__ Sample.whitegrid Sample.fresh = (Ok (mkPlotter "plots"), st')
       /\ dirs st' = {["plots"]} ∪ dirs Sample.fresh.
Proof.
  split.
  - apply (proj1 (init_outcomes Sample.whitegrid
                    (set_files {["plots" := mkImage empty_figure 300]} Sample.fresh))).
    cbn. rewrite lookup_singleton_eq. eauto.
  - destruct (proj2 (init_outcomes Sample.whitegrid Sample.fresh) eq_refl)
      as (st' & H1 & H2 & _).
    exists st'. auto.
Defined.

(** ** The files of one batch are distinct *)

Lemma paths_distinct (d : string) (names : list string) :
  Forall (fun t => PyStr.startswith "/" t = false) names ->
  NoDup (map (fun t => t +:+ ".png") names) ->
  NoDup (map (fun t => os_path.join d t +:+ ".png") names).
Proof.
  intros Hrel Hnd.
  assert (E : map (fun t => os_path.join d t +:+ ".png") names
              = map (String.append (join_prefix d)) (map (fun t => t +:+ ".png") names)).
  { rewrite map_map. apply map_ext_in. intros t Ht.
    rewrite List.Forall_forall in Hrel. rewrite (join_relative d t (Hrel t Ht)).
    apply append_assoc. }
  rewrite E.
  change (NoDup (String.append (join_prefix d) <$> map (fun t => t +:+ ".png") names)).
  apply NoDup_fmap_2; [apply String.app_inj | exact Hnd].
Qed.

Lemma batch_paths_distinct (self : Plotter) :
  NoDup (map (extended_path self) extended_titles)
  /\ NoDup (map (basic_path self) basic_titles).
Proof.
  split.
  - change (map (extended_path self) extended_titles)
      with (map (fun t => os_path.join (plot_dir self) t +:+ ".png")
                (map (PyStr.replace " " "_") extended_titles)).
    apply paths_distinct.
    + vm_compute. repeat constructor.
    + apply (bool_decide_unpack _). vm_compute. exact I.
  - change (map (basic_path self) basic_titles)
      with (map (fun t => os_path.join (plot_dir self) t +:+ ".png") basic_titles).
    apply paths_distinct.
    + vm_compute. repeat constructor.
    + apply (bool_decide_unpack _). vm_compute. exact I.
Qed.

(** X9.  For any plot directory, the charts of one batch are saved under
    pairwise different paths, so no chart of a batch overwrites another one,
    and the list [draw_plots] returns never names a file twice. *)
Theorem returned_paths_distinct (w : world) (self : Plotter) (url : string)
    (st st' : pystate) (paths : list string)
    (Hrun : plotter.draw_plots w self url st = (Ok paths, st')
            \/ ChartDrawer.draw_plots w self url st = (Ok paths, st')) :
  NoDup paths
  /\ NoDup (map (extended_path self) extended_titles)
  /\ NoDup (map (basic_path self) basic_titles).
Proof.
  destruct (batch_paths_distinct self) as [He Hb].
  split; [|split; assumption].
  destruct (draw_plots_returns_prefix w self url st st' paths) as [Pe Pb].
  destruct Hrun as [H|H]; [destruct (Pe H) as [k ->] | destruct (Pb H) as [k ->]];
    eapply sublist_NoDup; try apply sublist_take; assumption.
Qed.

Lemma returned_paths_distinct_witness :
  NoDup (map (basic_path (mkPlotter "plots")) basic_titles).
Proof.
  exact (proj1 (returned_paths_distinct (Sample.serving Sample.table) (mkPlotter "plots")
                  Sample.url Sample.ready _ _ (or_intror sample_basic_run))).
Defined.

(** ** What a box plot is drawn from *)

Lemma row_get_selected (r : row) (cs : list string) (c : string) :
  In c cs -> row_get (map (fun k => (k, row_get r k)) cs) c = row_get r c.
Proof.
  induction cs as [|k cs IH]; [contradiction|]. cbn.
  destruct (String.eqb_spec k c) as [->|Hne]; [reflexivity|].
  intros [->|Hin]; [contradiction | auto].
Qed.

Lemma In_has_column (df : DataFrame) (c : string) : In c (columns df) -> has_column df c = true.
Proof.
  intros H. unfold has_column. apply existsb_exists. exists c. split; [exact H|].
  apply String.eqb_refl.
Qed.

Lemma not_In_has_column (df : DataFrame) (c : string) :
  ~ In c (columns df) -> has_column df c = false.
Proof.
  intros H. destruct (has_column df c) eqn:E; [|reflexivity].
  destruct (H (has_column_In _ _ E)).
Qed.

(** Melting the columns [cs] of a table gives their long form, unless one
    of them is named [value]. *)
Lemma melt_selected (df : DataFrame) (cs : list string) :
  pd_melt (mkDataFrame cs (map (fun r => map (fun c => (c, row_get r c)) cs) (rows df)))
          "variable" "value"
  = if has_column (mkDataFrame cs []) "value" then Raise (ValueError "value")
    else Ok (mkDataFrame ["variable"; "value"] (long_form df cs)).
Proof.
  unfold pd_melt, long_form.
  change (has_column (mkDataFrame cs _) "value") with (has_column (mkDataFrame cs []) "value").
  destruct (has_column (mkDataFrame cs []) "value"); [reflexivity|].
  cbn [rows columns]. do 2 f_equal.
  assert (H : forall l, (forall c, In c l -> In c cs) ->
            flat_map (fun c => map (fun r => [("variable", Str c); ("value", row_get r c)])
                                   (map (fun r => map (fun c => (c, row_get r c)) cs) (rows df))) l
            = flat_map (fun c => map (fun r => [("variable", Str c); ("value", row_get r c)])
                                     (rows df)) l).
  { induction l as [|c l IH]; intros Hl; [reflexivity|]. cbn [flat_map].
    rewrite IH by (intros; apply Hl; now right). f_equal.
    rewrite map_map. apply map_ext. intros r.
    rewrite row_get_selected by (apply Hl; now left). reflexivity. }
  apply H. auto.
Qed.

Lemma long_form_length (df : DataFrame) (cs : list string) :
  length (long_form df cs) = (length cs * length (rows df))%nat.
Proof.
  induction cs as [|c cs IH]; [reflexivity|].
  change (long_form df (c :: cs))
    with (map (fun r => [("variable", Str c); ("value", row_get r c)]) (rows df)
          ++ long_form df cs).
  rewrite length_app, length_map. cbn [length Nat.mul]. f_equal. exact IH.
Qed.

Section BoxPlots.

Variable w : world.
Variable path_of : Plotter -> string -> string.

(** What a box plot is, on a table that has the columns. *)
Lemma boxplots_spec_present (self : Plotter) (df : DataFrame) (cs : list string)
    (label : string) (st : pystate) :
  forallb (has_column df) cs = true ->
  let title := "Boxplots for " +:+ label in
  let a := SnsBoxplot "variable" "value" None
             (mkDataFrame ["variable"; "value"] (long_form df cs)) in
  draw_boxplots w (save_with w path_of) self df cs label st
  = if has_column (mkDataFrame cs []) "value"
    then (Raise (ValueError "value"), with_figure empty_figure st)
    else draw_then w st empty_figure a
           (finish_chart w (path_of self title) (mkFigure title "" "Degrees" [a]) st).
Proof.
  intros Hcs. cbn zeta. rewrite draw_boxplots_spec. cbn zeta.
  rewrite (df_select_ok _ _ Hcs). cbn [and_then]. rewrite melt_selected.
  now destruct (has_column (mkDataFrame cs []) "value").
Qed.

Lemma boxplots_saved (self : Plotter) (df : DataFrame) (cs : list string)
    (label : string) (st : pystate) :
  let title := "Boxplots for " +:+ label in
  let a := SnsBoxplot "variable" "value" None
             (mkDataFrame ["variable"; "value"] (long_form df cs)) in
  (forall path st',
      draw_boxplots w (save_with w path_of) self df cs label st = (Ok path, st') ->
      forallb (has_column df) cs = true
      /\ ~ In "value" cs
      /\ path = path_of self title
      /\ saved_artists st' (plt.savefig_target path) = Some [a])
  /\ (forallb (has_column df) cs = true -> ~ In "value" cs ->
      seaborn_refuses w (with_figure empty_figure st) a = None ->
      savefig_refuses w (with_figure (mkFigure title "" "Degrees" [a]) st)
        (path_of self title) 300 = None ->
      exists st',
        draw_boxplots w (save_with w path_of) self df cs label st
        = (Ok (path_of self title), st'))
  /\ (forallb (has_column df) cs = true -> In "value" cs ->
      fst (draw_boxplots w (save_with w path_of) self df cs label st)
      = Raise (ValueError "value")).
Proof.
  cbn zeta. split; [|split].
  - intros path st' H.
    destruct (forallb (has_column df) cs) eqn:Hcs.
    + rewrite (boxplots_spec_present self df cs label st Hcs) in H. cbn zeta in H.
      destruct (has_column (mkDataFrame cs []) "value") eqn:V; [discriminate|].
      apply finished_chart in H as (_ & _ & -> & ->).
      split; [reflexivity|]. split; [|split; [reflexivity | apply saved_after_chart]].
      intros Hin. rewrite (In_has_column (mkDataFrame cs []) "value" Hin) in V. discriminate.
    + rewrite draw_boxplots_spec in H. cbn zeta in H.
      destruct (df_select_missing df cs Hcs) as [missing E]. rewrite E in H. discriminate.
  - intros Hcs Hv H1 H2. rewrite (boxplots_spec_present self df cs label st Hcs). cbn zeta.
    rewrite (not_In_has_column (mkDataFrame cs []) "value" Hv).
    rewrite (chart_goes_through _ _ _ _ _ _ H1 H2). eauto.
  - intros Hcs Hv. rewrite (boxplots_spec_present self df cs label st Hcs). cbn zeta.
    now rewrite (In_has_column (mkDataFrame cs []) "value" Hv).
Qed.

End BoxPlots.

(** X10.  [draw_boxplots] hands seaborn the long form of the columns asked
    for, whatever they hold: a frame with the two columns [variable] and
    [value] and one row per (column, table row) pair, in the order of the
    columns asked and then of the table, so its length is the number of
    columns times the number of rows; seaborn is asked for [variable]
    against [value].  Whenever the operation returns, the table had the
    columns, none of them was named [value], and the saved chart is that
    box plot; it returns when, besides, seaborn accepts the plot and
    matplotlib the save.  With a column named [value] among them pandas
    refuses the melt.  In both variants. *)
Theorem boxplots_draw_the_long_form (w : world) (self : Plotter) (df : DataFrame)
    (cs : list string) (label : string) (st : pystate) :
  let title := "Boxplots for " +:+ label in
  let a := SnsBoxplot "variable" "value" None
             (mkDataFrame ["variable"; "value"] (long_form df cs)) in
  (forall path st',
      plotter.draw_boxplots w self df cs label st = (Ok path, st') ->
      forallb (has_column df) cs = true
      /\ ~ In "value" cs
      /\ path = extended_path self title
      /\ saved_artists st' (plt.savefig_target path) = Some [a])
  /\ (forall path st',
        ChartDrawer.draw_boxplots w self df cs label st = (Ok path, st') ->
        forallb (has_column df) cs = true
        /\ ~ In "value" cs
        /\ path = basic_path self title
        /\ saved_artists st' (plt.savefig_target path) = Some [a])
  /\ (forallb (has_column df) cs = true -> ~ In "value" cs ->
      seaborn_refuses w (with_figure empty_figure st) a = None ->
      (savefig_refuses w (with_figure (mkFigure title "" "Degrees" [a]) st)
         (extended_path self title) 300 = None ->
       exists st',
         plotter.draw_boxplots w self df cs label st = (Ok (extended_path self title), st'))
      /\ (savefig_refuses w (with_figure (mkFigure title "" "Degrees" [a]) st)
            (basic_path self title) 300 = None ->
          exists st',
            ChartDrawer.draw_boxplots w self df cs label st
            = (Ok (basic_path self title), st')))
  /\ (forallb (has_column df) cs = true -> In "value" cs ->
      fst (plotter.draw_boxplots w self df cs label st) = Raise (ValueError "value")
      /\ fst (ChartDrawer.draw_boxplots w self df cs label st) = Raise (ValueError "value"))
  /\ length (long_form df cs) = (length cs * length (rows df))%nat.
Proof.
  cbn zeta.
  destruct (boxplots_saved w extended_path self df cs label st) as (Se & Le & Ve).
  destruct (boxplots_saved w basic_path self df cs label st) as (Sb & Lb & Vb).
  split; [exact Se|]. split; [exact Sb|]. split; [|split].
  - intros Hcs Hv Hdraw. split; intros Hsave; [now apply Le | now apply Lb].
  - intros Hcs Hv. split; [now apply Ve | now apply Vb].
  - apply long_form_length.
Qed.

Lemma boxplots_draw_the_long_form_witness :
  exists st',
    ChartDrawer.draw_boxplots (Sample.serving Sample.table) (mkPlotter "plots") Sample.table
      ["min"; "mean"; "max"] "stats" Sample.ready
    = (Ok "plots/Boxplots for stats.png", st')
    /\ saved_artists st' "plots/Boxplots for stats.png"
       = Some [SnsBoxplot "variable" "value" None
                 (mkDataFrame ["variable"; "value"]
                    (long_form Sample.table ["min"; "mean"; "max"]))]
    /\ length (long_form Sample.table ["min"; "mean"; "max"]) = 9%nat.
Proof.
  destruct (boxplots_draw_the_long_form (Sample.serving Sample.table) (mkPlotter "plots")
              Sample.table ["min"; "mean"; "max"] "stats" Sample.ready)
    as (_ & Hsaved & Hlive & _ & Hlen).
  assert (Hv : ~ In "value" ["min"; "mean"; "max"])
    by (intros [H|[H|[H|[]]]]; discriminate H).
  destruct (proj2 (Hlive eq_refl Hv eq_refl) eq_refl) as [st' Hrun].
  exists st'. split; [exact Hrun|].
  split; [exact (proj2 (proj2 (proj2 (Hsaved _ _ Hrun)))) | exact Hlen].
Defined.

(** ** Rows with a missing value in the bar charts *)

Lemma firstn_within {B : Type} (n : nat) (l k : list B) :
  (n <= length l)%nat -> firstn n (l ++ k) = firstn n l.
Proof.
  intros H. rewrite firstn_app.
  replace (n - length l)%nat with 0%nat by lia. cbn. apply app_nil_r.
Qed.

(** X11.  On a column of finite numbers in which some entries are missing,
    the sort of the bar charts orders the rows that have a value (ascending
    for "best", descending for "worst") and puts the rows without one after
    them, in both directions.  So among the rows with a value the first [n]
    rows of the sorted table hold the [n] smallest ("best") or largest
    ("worst"), and a row without a value is among them only when fewer than
    [n] rows have one.  These first [n] rows are what the chart draws:
    whenever the operation returns, the saved chart holds their bars, and it
    returns when the table has a [name] column, seaborn accepts the bars and
    matplotlib the save.  In both variants. *)
Theorem bar_charts_put_missing_values_last (w : world) (self : Plotter) (df : DataFrame)
    (column : string) (n : nat) (top : bool) (st : pystate)
    (Hcol : has_column df column = true)
    (Hfinite : finite_column df column = true) :
  exists ordered,
    sort_values df column top
    = Ok (mkDataFrame (columns df) (ordered ++ missing_rows df column))
    /\ Permutation ordered (present_rows df column)
    /\ (if top then smallest_rows column n (present_rows df column) (firstn n ordered)
        else largest_rows column n (present_rows df column) (firstn n ordered))
    /\ Forall (has_number column) (present_rows df column)
    /\ Forall (fun r => row_get r column = NaN) (missing_rows df column)
    /\ let data := mkDataFrame (columns df) (firstn n (ordered ++ missing_rows df column)) in
       let bars := SnsBarplot column "name" data in
       let title := "Top " +:+ pretty (Z.of_nat n) +:+ " " +:+ (if top then "best" else "worst")
                    +:+ " results for " +:+ column in
       ((n <= length (present_rows df column))%nat -> rows data = firstn n ordered)
       /\ (forall path st',
             plotter.draw_top_bottom_data w self df column (Z.of_nat n) top st
             = (Ok path, st') ->
             path = extended_path self title
             /\ saved_artists st' (plt.savefig_target path) = Some [bars])
       /\ (forall path st',
             ChartDrawer.draw_top_bottom_data w self df column (Z.of_nat n) top st
             = (Ok path, st') ->
             path = basic_path self title
             /\ saved_artists st' (plt.savefig_target path) = Some [bars])
       /\ (has_column df "name" = true ->
           seaborn_refuses w (with_figure empty_figure st) bars = None ->
           (savefig_refuses w (with_figure (mkFigure title "Degrees" "" [bars]) st)
              (extended_path self title) 300 = None ->
            exists st',
              plotter.draw_top_bottom_data w self df column (Z.of_nat n) top st
              = (Ok (extended_path self title), st'))
           /\ (savefig_refuses w (with_figure (mkFigure title "Degrees" "" [bars]) st)
                 (basic_path self title) 300 = None ->
               exists st',
                 ChartDrawer.draw_top_bottom_data w self df column (Z.of_nat n) top st
                 = (Ok (basic_path self title), st'))).
Proof.
  pose proof (sort_values_finite df column top Hcol Hfinite) as Hsort.
  pose proof (present_rows_have_numbers df column Hfinite) as Hnum.
  cbn zeta in Hsort.
  set (leb := fun a b => cell_leb (row_get a column) (row_get b column)) in *.
  set (ordered := if top then sort_by leb (present_rows df column)
                  else rev (sort_by leb (rev (present_rows df column)))) in *.
  assert (Hperm : Permutation ordered (present_rows df column)).
  { unfold ordered. destruct top.
    - apply sort_by_Permutation.
    - rewrite <- Permutation_rev. rewrite sort_by_Permutation.
      symmetry. apply Permutation_rev. }
  exists ordered. split; [exact Hsort|]. split; [exact Hperm|].
  split; [|split; [exact Hnum|split]].
  - unfold ordered. destruct top.
    + now apply ascending_selects_smallest.
    + now apply descending_selects_largest.
  - unfold missing_rows. apply List.Forall_forall. intros r Hr.
    apply filter_In in Hr as [_ Hr].
    destruct (row_get r column) as [[q| |b]|s]; try discriminate. reflexivity.
  - cbn zeta.
    assert (Hhead : df_head (Z.of_nat n)
                      (mkDataFrame (columns df) (ordered ++ missing_rows df column))
                    = mkDataFrame (columns df)
                        (firstn n (ordered ++ missing_rows df column)))
      by apply head_of_nat.
    split; [|split; [|split]].
    + intros Hn. cbn [rows]. apply firstn_within.
      now rewrite (Permutation_length Hperm).
    + intros path st' H.
      apply (bar_chart_returns w extended_path) in H as (s & Hs & _ & -> & ->).
      rewrite Hsort in Hs. injection Hs as <-. rewrite Hhead.
      split; [reflexivity | apply saved_after_chart].
    + intros path st' H.
      apply (bar_chart_returns w basic_path) in H as (s & Hs & _ & -> & ->).
      rewrite Hsort in Hs. injection Hs as <-. rewrite Hhead.
      split; [reflexivity | apply saved_after_chart].
    + intros Hname Hdraw. rewrite <- Hhead in Hdraw |- *.
      split; intros Hsave; eexists.
      * exact (bar_chart_goes_through w extended_path self df _ column _ top st
                 Hsort Hname Hdraw Hsave).
      * exact (bar_chart_goes_through w basic_path self df _ column _ top st
                 Hsort Hname Hdraw Hsave).
Qed.

Lemma bar_charts_put_missing_values_last_witness :
  exists st' data,
    ChartDrawer.draw_top_bottom_data (Sample.serving Sample.gappy) (mkPlotter "plots")
      Sample.gappy "mean" (Z.of_nat 2) false Sample.ready
    = (Ok "plots/Top 2 worst results for mean.png", st')
    /\ saved_artists st' "plots/Top 2 worst results for mean.png"
       = Some [SnsBarplot "mean" "name" data]
    /\ map (fun r => row_get r "name") (rows data) = [Str "c"; Str "a"].
Proof.
  destruct (bar_charts_put_missing_values_last (Sample.serving Sample.gappy)
              (mkPlotter "plots") Sample.gappy "mean" 2 false Sample.ready eq_refl eq_refl)
    as (ordered & Hsort & _ & _ & _ & _ & _ & _ & Hsaved & Hlive).
  assert (E : exists rs,
             sort_values Sample.gappy "mean" false
             = Ok (mkDataFrame (columns Sample.gappy) rs)
             /\ map (fun r => row_get r "name") (firstn 2 rs) = [Str "c"; Str "a"])
    by (eexists; split; vm_compute; reflexivity).
  destruct E as (rs & E1 & E2). rewrite E1 in Hsort. injection Hsort as Happ.
  destruct (proj2 (Hlive eq_refl eq_refl) eq_refl) as [st' Hrun].
  destruct (Hsaved _ _ Hrun) as [_ Hfile].
  exists st'. eexists. split; [exact Hrun|]. split; [exact Hfile|].
  cbn [rows]. rewrite <- Happ. exact E2.
Defined.

(** ** Running the batch again *)

Lemma write_all_app (w1 w2 : list (string * image)) (fl : gmap string image) :
  write_all (w1 ++ w2) fl = write_all w2 (write_all w1 fl).
Proof. unfold write_all. apply fold_left_app. Qed.

Lemma lookup_write_all (written : list (string * image)) (fl : gmap string image)
    (p : string) :
  write_all written fl !! p = last_written written p (fl !! p).
Proof.
  unfold write_all, last_written. revert fl.
  induction written as [|[k i] written IH]; intros fl; [reflexivity|].
  cbn [fold_left fst snd]. rewrite IH. f_equal.
  rewrite lookup_insert. destruct (String.eqb_spec k p); case_decide; congruence.
Qed.

Lemma last_written_shape (written : list (string * image)) (p : string) :
  (forall o, last_written written p o = o)
  \/ (exists i, forall o, last_written written p o = Some i).
Proof.
  unfold last_written. induction written as [|[k i] written IH]; [now left|].
  cbn [fold_left fst snd]. destruct IH as [IH|[j IH]].
  - destruct (String.eqb k p).
    + right. exists i. intros o. apply IH.
    + left. intros o. apply IH.
  - right. exists j. intros o. apply IH.
Qed.

Lemma write_all_twice (written : list (string * image)) (fl : gmap string image) :
  write_all written (write_all written fl) = write_all written fl.
Proof.
  apply map_eq. intros p. rewrite !lookup_write_all.
  destruct (last_written_shape written p) as [H|[i H]]; now rewrite !H.
Qed.

Section FixedCharts.

Variable w : world.
Variable path_of : Plotter -> string -> string.

(** What a chart operation saves does not depend on the state it runs
    in. *)
Lemma draw_histogram_fixed (self : Plotter) (df : DataFrame) (c bins : string) :
  chart_fixed (draw_histogram w (save_with w path_of) self df c bins)
              (path_of self ("Histogram for " +:+ c)).
Proof.
  eexists. intros st p st' H. rewrite draw_histogram_spec in H. cbn zeta in H.
  destruct (has_column df c); [|discriminate].
  apply finished_chart in H as (_ & _ & _ & ->). reflexivity.
Qed.

Lemma draw_boxplots_fixed (self : Plotter) (df : DataFrame) (cs : list string)
    (label : string) :
  chart_fixed (draw_boxplots w (save_with w path_of) self df cs label)
              (path_of self ("Boxplots for " +:+ label)).
Proof.
  exists (match and_then (df_select df cs)
                  (fun selected => pd_melt selected "variable" "value") with
          | Ok melted => mkFigure ("Boxplots for " +:+ label) "" "Degrees"
                           [SnsBoxplot "variable" "value" None melted]
          | Raise _ => empty_figure
          end).
  intros st p st' H. rewrite draw_boxplots_spec in H. cbn zeta in H.
  destruct (and_then _ _) as [melted|e]; [|discriminate].
  apply finished_chart in H as (_ & _ & _ & ->). reflexivity.
Qed.

Lemma draw_scatterplot_fixed (self : Plotter) (df : DataFrame) (x y : string) (b : bool) :
  chart_fixed (draw_scatterplot w (save_with w path_of) self df x y b)
              (path_of self ("Scatter plot " +:+ x +:+ " vs " +:+ y)).
Proof.
  exists (match scatter_underlay df x y b with
          | Ok line => mkFigure ("Scatter plot " +:+ x +:+ " vs " +:+ y) x y
                         (line ++ [SnsScatterplot x y df 2])
          | Raise _ => empty_figure
          end).
  intros st p st' H. rewrite draw_scatterplot_spec in H. cbn zeta in H.
  destruct (scatter_underlay df x y b) as [line|e]; [|discriminate].
  destruct (has_column df x); [|discriminate].
  destruct (has_column df y); [|discriminate].
  apply finished_chart in H as (_ & _ & _ & ->). reflexivity.
Qed.

Lemma draw_top_bottom_data_fixed (self : Plotter) (df : DataFrame) (column : string)
    (cnt : Z) (top : bool) :
  chart_fixed (draw_top_bottom_data w (save_with w path_of) self df column cnt top)
              (path_of self ("Top " +:+ pretty cnt +:+ " "
                             +:+ (if top then "best" else "worst")
                             +:+ " results for " +:+ column)).
Proof.
  exists (match sort_values df column top with
          | Ok sorted =>
              mkFigure ("Top " +:+ pretty cnt +:+ " " +:+ (if top then "best" else "worst")
                        +:+ " results for " +:+ column) "Degrees" ""
                [SnsBarplot column "name" (df_head cnt sorted)]
          | Raise _ => empty_figure
          end).
  intros st p st' H. rewrite draw_top_bottom_data_spec in H. cbn zeta in H.
  destruct (sort_values df column top) as [sorted|e]; [|discriminate].
  destruct (has_column df "name"); [|discriminate].
  apply finished_chart in H as (_ & _ & _ & ->). reflexivity.
Qed.

End FixedCharts.

Lemma batch_writes_append (m : M pystate string) (path : string) :
  chart_fixed m path -> exists written, batch_writes (append_local m) written.
Proof.
  intros [fig Hfig]. exists [(plt.savefig_target path, mkImage fig 300)].
  intros l st l' st' H. unfold append_local in H. cbn [fst snd] in H.
  destruct (m st) as [[a|e] s1] eqn:E; [|discriminate].
  injection H as _ <-. rewrite (Hfig _ _ _ E). reflexivity.
Qed.

Lemma batch_writes_bind (m1 m2 : M (list string * pystate) unit) :
  (exists w1, batch_writes m1 w1) -> (exists w2, batch_writes m2 w2) ->
  exists written, batch_writes (m1 ;; m2) written.
Proof.
  intros [w1 H1] [w2 H2]. exists (w1 ++ w2).
  intros l st l' st' H. unfold bind in H.
  destruct (m1 (l, st)) as [[[]|e] [l1 s1]] eqn:E1; [|discriminate].
  rewrite write_all_app, <- (H1 _ _ _ _ E1). exact (H2 _ _ _ _ H).
Qed.

Ltac chart_is_fixed path_of :=
  first [ apply (draw_scatterplot_fixed _ path_of)
        | apply (draw_histogram_fixed _ path_of)
        | apply (draw_boxplots_fixed _ path_of)
        | apply (draw_top_bottom_data_fixed _ path_of) ].

(** What a complete batch of the basic variant writes does not depend on the
    state it starts from. *)
Lemma basic_body_writes (w : world) (self : Plotter) (df : DataFrame) :
  exists written, batch_writes (ChartDrawer.draw_plots_body w self df) written.
Proof.
  unfold ChartDrawer.draw_plots_body.
  do 8 (apply batch_writes_bind;
        [ eapply batch_writes_append; chart_is_fixed basic_path | ]).
  eapply batch_writes_append. chart_is_fixed basic_path.
Qed.

(** X12.  When the basic variant's [draw_plots] returns all nine paths, and
    run again on the same URL, serving the same table, returns all nine
    again, the second run returns the same paths and leaves the files
    exactly as the first run left them: every chart is written again under
    its own name with the same content, the earlier file being replaced; no
    file is added, and the open figures are as before the first run. *)
Theorem basic_batch_rerun (w : world) (self : Plotter) (url : string)
    (st st1 st2 : pystate) (paths1 paths2 : list string)
    (Hrun1 : ChartDrawer.draw_plots w self url st = (Ok paths1, st1))
    (Hall1 : length paths1 = 9%nat)
    (Hrun2 : ChartDrawer.draw_plots w self url st1 = (Ok paths2, st2))
    (Hall2 : length paths2 = 9%nat) :
  paths1 = map (basic_path self) basic_titles
  /\ paths2 = paths1
  /\ files st2 = files st1
  /\ figures st1 = figures st
  /\ figures st2 = figures st.
Proof.
  destruct (basic_complete_run _ _ _ _ _ _ Hrun1 Hall1) as (df & _ & Hj & B1).
  destruct (basic_complete_run _ _ _ _ _ _ Hrun2 Hall2) as (df' & _ & Hj' & B2).
  rewrite Hj in Hj'. injection Hj' as <-.
  destruct (basic_body_writes w self df) as [written Hw].
  pose proof (Hw _ _ _ _ B1) as F1. pose proof (Hw _ _ _ _ B2) as F2.
  destruct (basic_body_tidy w self df _ _ _ _ _ B1) as [_ G1].
  destruct (basic_body_tidy w self df _ _ _ _ _ B2) as [_ G2].
  pose proof (basic_body_extends w self df _ _ _ _ _ B1) as P1.
  pose proof (basic_body_extends w self df _ _ _ _ _ B2) as P2.
  cbn [app] in P1, P2. cbn [files figures log_event] in F1, F2, G1, G2.
  split; [exact P1|]. split; [congruence|]. split; [|split; congruence].
  rewrite F2, F1. apply write_all_twice.
Qed.

Lemma sample_basic_rerun :
  fst (ChartDrawer.draw_plots (Sample.serving Sample.table) (mkPlotter "plots") Sample.url
         (snd (ChartDrawer.draw_plots (Sample.serving Sample.table) (mkPlotter "plots")
                 Sample.url Sample.ready)))
  = Ok (map (basic_path (mkPlotter "plots")) basic_titles).
Proof. vm_compute. reflexivity. Qed.

Lemma basic_batch_rerun_witness :
  let run := ChartDrawer.draw_plots (Sample.serving Sample.table) (mkPlotter "plots")
               Sample.url in
  fst (run (snd (run Sample.ready))) = fst (run Sample.ready)
  /\ files (snd (run (snd (run Sample.ready)))) = files (snd (run Sample.ready))
  /\ figures (snd (run (snd (run Sample.ready)))) = figures Sample.ready.
Proof.
  cbn zeta.
  assert (Hrun2 : ChartDrawer.draw_plots (Sample.serving Sample.table) (mkPlotter "plots")
                    Sample.url
                    (snd (ChartDrawer.draw_plots (Sample.serving Sample.table)
                            (mkPlotter "plots") Sample.url Sample.ready))
                  = (Ok (map (basic_path (mkPlotter "plots")) basic_titles),
                     snd (ChartDrawer.draw_plots (Sample.serving Sample.table)
                            (mkPlotter "plots") Sample.url
                            (snd (ChartDrawer.draw_plots (Sample.serving Sample.table)
                                    (mkPlotter "plots") Sample.url Sample.ready)))))
    by (rewrite <- sample_basic_rerun; apply surjective_pairing).
  destruct (basic_batch_rerun _ _ _ _ _ _ _ _ sample_basic_run eq_refl Hrun2 eq_refl)
    as (_ & _ & Hfiles & _ & Hfigs).
  split; [|split; [exact Hfiles | exact Hfigs]].
  rewrite sample_basic_rerun. now rewrite sample_basic_paths.
Defined.

(** ** Titles that share a file *)

Lemma space_to_underscore_idem (c : ascii) :
  space_to_underscore (space_to_underscore c) = space_to_underscore c.
Proof.
  unfold space_to_underscore. destruct (Ascii.eqb " " c) eqn:E; [reflexivity|].
  now rewrite E.
Qed.

Lemma replace_space_idem (t : string) :
  PyStr.replace " " "_" (PyStr.replace " " "_" t) = PyStr.replace " " "_" t.
Proof.
  rewrite !replace_space_map. induction t as [|c t IH]; [reflexivity|].
  cbn [PyStr.map_chars]. now rewrite space_to_underscore_idem, IH.
Qed.

Lemma replace_space_relative (t : string) :
  PyStr.startswith "/" t = false ->
  PyStr.startswith "/" (PyStr.replace " " "_" t) = false.
Proof.
  rewrite replace_space_map. destruct t as [|c t]; [reflexivity|].
  cbn [PyStr.map_chars PyStr.startswith]. unfold space_to_underscore.
  destruct (Ascii.eqb " " c) eqn:E; [reflexivity|]. auto.
Qed.

Lemma basic_paths_apart (self : Plotter) (t : string) :
  PyStr.startswith "/" t = false -> PyStr.contains_char " " t = true ->
  basic_path self (PyStr.replace " " "_" t) <> basic_path self t.
Proof.
  intros Hrel Hspace. unfold basic_path. intros H.
  rewrite (join_relative _ _ Hrel) in H.
  rewrite (join_relative _ _ (replace_space_relative t Hrel)) in H.
  apply append_inj_r in H. apply String.app_inj in H.
  pose proof (map_space_no_space t) as Hno.
  rewrite <- replace_space_map, H in Hno. congruence.
Qed.

Lemma basic_targets_apart (self : Plotter) (t : string) :
  PyStr.startswith "/" t = false -> PyStr.contains_char " " t = true ->
  plt.savefig_target (basic_path self (PyStr.replace " " "_" t))
  <> plt.savefig_target (basic_path self t).
Proof.
  intros Hrel Hspace. pose proof (basic_paths_apart self t Hrel Hspace) as Hne.
  assert (Hlen : String.length (basic_path self (PyStr.replace " " "_" t))
                 = String.length (basic_path self t)).
  { unfold basic_path.
    rewrite (join_relative _ _ Hrel), (join_relative _ _ (replace_space_relative t Hrel)).
    rewrite !append_length. rewrite replace_space_map, map_chars_length. reflexivity. }
  unfold basic_path in *.
  destruct (savefig_target_cases (os_path.join (plot_dir self) (PyStr.replace " " "_" t)))
    as [E1|E1];
    destruct (savefig_target_cases (os_path.join (plot_dir self) t)) as [E2|E2];
    rewrite E1, E2; intros H.
  - exact (Hne H).
  - apply (f_equal String.length) in H.
    repeat rewrite append_length in H. repeat rewrite append_length in Hlen.
    change (String.length ".png") with 4%nat in H, Hlen. lia.
  - apply (f_equal String.length) in H.
    repeat rewrite append_length in H. repeat rewrite append_length in Hlen.
    change (String.length ".png") with 4%nat in H, Hlen. lia.
  - apply append_inj_r in H. exact (Hne H).
Qed.

(** X13.  The sanitization of the extended variant makes different titles
    share a file: a title and the same title with its spaces already written
    as underscores are saved under the same path, with the same outcome, so
    the later chart replaces the earlier one.  The basic variant keeps the
    two apart: for a relative title that contains a space, the two paths
    differ, and so do the files matplotlib writes and, whenever one of the
    two saves goes through, what the two calls return. *)
Theorem sanitized_titles_share_a_file (w : world) (self : Plotter) (t : string)
    (st : pystate) :
  fst (plotter.__save_plot_to_file w self (PyStr.replace " " "_" t) st)
  = fst (plotter.__save_plot_to_file w self t st)
  /\ plotter.__save_plot_to_file w self (PyStr.replace " " "_" t) st
     = plotter.__save_plot_to_file w self t st
  /\ (PyStr.startswith "/" t = false -> PyStr.contains_char " " t = true ->
      basic_path self (PyStr.replace " " "_" t) <> basic_path self t
      /\ plt.savefig_target (basic_path self (PyStr.replace " " "_" t))
         <> plt.savefig_target (basic_path self t)
      /\ ((exists p s,
              ChartDrawer.__save_plot_to_file w self (PyStr.replace " " "_" t) st = (Ok p, s))
          \/ (exists p s, ChartDrawer.__save_plot_to_file w self t st = (Ok p, s)) ->
          fst (ChartDrawer.__save_plot_to_file w self (PyStr.replace " " "_" t) st)
          <> fst (ChartDrawer.__save_plot_to_file w self t st))).
Proof.
  assert (Hsame : plotter.__save_plot_to_file w self (PyStr.replace " " "_" t) st
                  = plotter.__save_plot_to_file w self t st).
  { rewrite extended_save_eq, !save_with_spec. unfold extended_path.
    now rewrite replace_space_idem. }
  split; [now rewrite Hsame|]. split; [exact Hsame|].
  intros Hrel Hspace. pose proof (basic_paths_apart self t Hrel Hspace) as Hne.
  split; [exact Hne|]. split; [now apply basic_targets_apart|].
  rewrite basic_save_eq, !save_with_spec.
  destruct (savefig_refuses w (opened st) (basic_path self (PyStr.replace " " "_" t)) 300);
    destruct (savefig_refuses w (opened st) (basic_path self t) 300); cbn [fst].
  - intros [(p & s & [=])|(p & s & [=])].
  - discriminate.
  - discriminate.
  - intros _ [= H]. exact (Hne H).
Qed.

Lemma sanitized_titles_share_a_file_witness :
  fst (ChartDrawer.__save_plot_to_file (Sample.serving Sample.table) (mkPlotter "plots")
         (PyStr.replace " " "_" "Histogram for mean") Sample.ready)
  <> fst (ChartDrawer.__save_plot_to_file (Sample.serving Sample.table) (mkPlotter "plots")
            "Histogram for mean" Sample.ready).
Proof.
  apply (proj2 (proj2 (proj2 (proj2 (sanitized_titles_share_a_file
                                       (Sample.serving Sample.table) (mkPlotter "plots")
                                       "Histogram for mean" Sample.ready))
                               eq_refl eq_refl))).
  right. eexists. eexists. vm_compute. reflexivity.
Defined.

(** ** The reference line when a column holds no number *)

Lemma limits_without_x (xs ys : list cell) :
  forallb is_finite xs = true -> forallb is_finite ys = true -> numbers xs = [] ->
  min_limit_of xs ys = FNaN /\ max_limit_of xs ys = FNaN.
Proof.
  intros Fx Fy Hx. unfold min_limit_of, max_limit_of.
  rewrite (fold_float_min _ Fx), (fold_float_max _ Fx), Hx. cbn [Qlist_min Qlist_max].
  rewrite (fold_float_min _ Fy), (fold_float_max _ Fy).
  destruct (Qlist_min (numbers ys)), (Qlist_max (numbers ys)); split; reflexivity.
Qed.

Lemma limits_without_y (xs ys : list cell) (xmin xmax : Q) :
  forallb is_finite xs = true -> forallb is_finite ys = true -> numbers ys = [] ->
  Qlist_min (numbers xs) = Some xmin -> Qlist_max (numbers xs) = Some xmax ->
  min_limit_of xs ys = float_mul (Fin xmin) (float_literal (9 # 10))
  /\ max_limit_of xs ys = float_mul (Fin xmax) (float_literal (11 # 10)).
Proof.
  intros Fx Fy Hy E1 E2. unfold min_limit_of, max_limit_of.
  rewrite (fold_float_min _ Fx), (fold_float_max _ Fx), E1, E2.
  rewrite (fold_float_min _ Fy), (fold_float_max _ Fy), Hy. split; reflexivity.
Qed.

(** X14.  On columns of doubles, the reference line of a scatter plot
    treats its two columns unevenly when one of them holds no number (an
    empty table, or a column of missing values only), because the builtin [max] and [min] keep their
    first argument when a comparison with NaN is false.  When [x] holds no
    number, both ends of the line are NaN, whatever [y] holds; when only [y]
    holds none, the line runs from 0.9 times the minimum of [x] to 1.1 times
    the maximum of [x], in double arithmetic.  These are the limits the
    program computes, and the line of the saved chart whenever the operation
    returns; it returns when seaborn accepts the points and matplotlib the
    save.  In both variants. *)
Theorem reference_line_without_numbers (w : world) (self : Plotter) (df : DataFrame)
    (x y : string) (st : pystate)
    (Hx : has_column df x = true) (Hy : has_column df y = true)
    (Dx : double_column df x = true) (Dy : double_column df y = true) :
  let title := "Scatter plot " +:+ x +:+ " vs " +:+ y in
  let points := SnsScatterplot x y df 2 in
  let drawn lo hi :=
    let line := PltPlot [lo; hi] [lo; hi] "r--" 1 1 in
    reference_limits df x y = Ok (lo, hi)
    /\ (forall path st',
           plotter.draw_scatterplot w self df x y true st = (Ok path, st') ->
           path = extended_path self title
           /\ saved_artists st' (plt.savefig_target path) = Some [line; points])
    /\ (forall path st',
          ChartDrawer.draw_scatterplot w self df x y true st = (Ok path, st') ->
          path = basic_path self title
          /\ saved_artists st' (plt.savefig_target path) = Some [line; points])
    /\ (seaborn_refuses w (with_figure (mkFigure title x y [line]) st) points = None ->
        (savefig_refuses w (with_figure (mkFigure title x y [line; points]) st)
           (extended_path self title) 300 = None ->
         exists st',
           plotter.draw_scatterplot w self df x y true st
           = (Ok (extended_path self title), st'))
        /\ (savefig_refuses w (with_figure (mkFigure title x y [line; points]) st)
              (basic_path self title) 300 = None ->
            exists st',
              ChartDrawer.draw_scatterplot w self df x y true st
              = (Ok (basic_path self title), st'))) in
  (numbers (column_values df x) = [] -> drawn FNaN FNaN)
  /\ (forall xmin xmax,
        numbers (column_values df y) = [] ->
        Qlist_min (numbers (column_values df x)) = Some xmin ->
        Qlist_max (numbers (column_values df x)) = Some xmax ->
        drawn (float_mul (Fin xmin) (float_literal (9 # 10)))
              (float_mul (Fin xmax) (float_literal (11 # 10)))).
Proof.
  pose proof (double_is_finite df x Dx) as Fx. pose proof (double_is_finite df y Dy) as Fy.
  cbn zeta.
  assert (Hdrawn : forall lo hi,
             min_limit_of (column_values df x) (column_values df y) = lo ->
             max_limit_of (column_values df x) (column_values df y) = hi ->
             reference_limits df x y = Ok (lo, hi)
             /\ (forall path st',
                    plotter.draw_scatterplot w self df x y true st = (Ok path, st') ->
                    path = extended_path self ("Scatter plot " +:+ x +:+ " vs " +:+ y)
                    /\ saved_artists st' (plt.savefig_target path)
                       = Some [PltPlot [lo; hi] [lo; hi] "r--" 1 1; SnsScatterplot x y df 2])
             /\ (forall path st',
                   ChartDrawer.draw_scatterplot w self df x y true st = (Ok path, st') ->
                   path = basic_path self ("Scatter plot " +:+ x +:+ " vs " +:+ y)
                   /\ saved_artists st' (plt.savefig_target path)
                      = Some [PltPlot [lo; hi] [lo; hi] "r--" 1 1; SnsScatterplot x y df 2])
             /\ (seaborn_refuses w
                   (with_figure (mkFigure ("Scatter plot " +:+ x +:+ " vs " +:+ y) x y
                                   [PltPlot [lo; hi] [lo; hi] "r--" 1 1]) st)
                   (SnsScatterplot x y df 2) = None ->
                 (savefig_refuses w
                    (with_figure (mkFigure ("Scatter plot " +:+ x +:+ " vs " +:+ y) x y
                                    [PltPlot [lo; hi] [lo; hi] "r--" 1 1;
                                     SnsScatterplot x y df 2]) st)
                    (extended_path self ("Scatter plot " +:+ x +:+ " vs " +:+ y)) 300 = None ->
                  exists st',
                    plotter.draw_scatterplot w self df x y true st
                    = (Ok (extended_path self ("Scatter plot " +:+ x +:+ " vs " +:+ y)), st'))
                 /\ (savefig_refuses w
                       (with_figure (mkFigure ("Scatter plot " +:+ x +:+ " vs " +:+ y) x y
                                       [PltPlot [lo; hi] [lo; hi] "r--" 1 1;
                                        SnsScatterplot x y df 2]) st)
                       (basic_path self ("Scatter plot " +:+ x +:+ " vs " +:+ y)) 300 = None ->
                     exists st',
                       ChartDrawer.draw_scatterplot w self df x y true st
                       = (Ok (basic_path self ("Scatter plot " +:+ x +:+ " vs " +:+ y)),
                          st')))).
  { intros lo hi Elo Ehi.
    destruct (scatter_line_saved w extended_path self df x y st _ _ Hx Hy Fx Fy Elo Ehi)
      as [Se Le].
    destruct (scatter_line_saved w basic_path self df x y st _ _ Hx Hy Fx Fy Elo Ehi)
      as [Sb Lb].
    split; [rewrite (reference_limits_finite df x y Hx Hy Fx Fy); now rewrite Elo, Ehi|].
    split; [exact Se|]. split; [exact Sb|].
    intros Hdraw; split; [apply Le | apply Lb]; exact Hdraw. }
  split.
  - intros Nx. destruct (limits_without_x _ _ Fx Fy Nx) as [Elo Ehi].
    exact (Hdrawn _ _ Elo Ehi).
  - intros xmin xmax Ny E1 E2.
    destruct (limits_without_y _ _ _ _ Fx Fy Ny E1 E2) as [Elo Ehi].
    exact (Hdrawn _ _ Elo Ehi).
Qed.

Lemma reference_line_without_numbers_witness :
  (exists st',
      ChartDrawer.draw_scatterplot (Sample.serving Sample.gappy_only) (mkPlotter "plots")
        Sample.gappy_only "mean" "gt_corners" true Sample.ready
      = (Ok "plots/Scatter plot mean vs gt_corners.png", st')
      /\ saved_artists st' "plots/Scatter plot mean vs gt_corners.png"
         = Some [PltPlot [FNaN; FNaN] [FNaN; FNaN] "r--" 1 1;
                 SnsScatterplot "mean" "gt_corners" Sample.gappy_only 2])
  /\ (exists st',
        ChartDrawer.draw_scatterplot (Sample.serving Sample.gappy_only) (mkPlotter "plots")
          Sample.gappy_only "gt_corners" "mean" true Sample.ready
        = (Ok "plots/Scatter plot gt_corners vs mean.png", st')
        /\ saved_artists st' "plots/Scatter plot gt_corners vs mean.png"
           = Some [PltPlot [Fin (3039929748475085 # 1125899906842624);
                            Fin (7430939385161319 # 2251799813685248)]
                           [Fin (3039929748475085 # 1125899906842624);
                            Fin (7430939385161319 # 2251799813685248)] "r--" 1 1;
                   SnsScatterplot "gt_corners" "mean" Sample.gappy_only 2]).
Proof.
  split.
  - destruct (proj1 (reference_line_without_numbers (Sample.serving Sample.gappy_only)
                       (mkPlotter "plots") Sample.gappy_only "mean" "gt_corners" Sample.ready
                       eq_refl eq_refl eq_refl eq_refl) eq_refl)
      as (_ & _ & Hsaved & Hlive).
    destruct (proj2 (Hlive eq_refl) eq_refl) as [st' Hrun].
    exists st'. split; [exact Hrun | exact (proj2 (Hsaved _ _ Hrun))].
  - destruct (proj2 (reference_line_without_numbers (Sample.serving Sample.gappy_only)
                       (mkPlotter "plots") Sample.gappy_only "gt_corners" "mean" Sample.ready
                       eq_refl eq_refl eq_refl eq_refl) 3%Q 3%Q eq_refl eq_refl eq_refl)
      as (_ & _ & Hsaved & Hlive).
    destruct (proj2 (Hlive eq_refl) eq_refl) as [st' Hrun].
    exists st'. split; [exact Hrun | exact (proj2 (Hsaved _ _ Hrun))].
Defined.
